(** * easy_mcp: the MCP server of [src/easy_mcp/server.py], embedded in Rocq

    The development follows the Python module top-down:

    - [Text]: the [str] methods the server calls ([find], [split],
      [strip], [lower], [startswith], [replace]) and [str.encode];
    - [Py]: Python values as they come out of [json.loads] and out of tool
      handlers, [dict.get], [str()], and [json.dumps] with its defaults;
    - [Url]: [urllib.parse.parse_qs];
    - the server proper: sockets, the heap of [MCPSession] objects, the
      [MCPServer] fields, and the methods on the path of one accepted
      connection, written in a state-and-exception monad so that each
      [try]/[except] of the source is a [try_except] of the model;
    - [shutdown], the loop of the keep-alive thread and the line
      [MCPLogger.log] prints.  The accept loop of [serve_forever] is left
      out.

    A Python [str] is modelled by a Rocq [string] whose characters are the
    code points U+0000..U+00FF, one per character.  [bytes] are
    [list Byte.byte]. *)

From Stdlib Require Import ZArith String Ascii List Bool Lia DecimalString.
From Stdlib Require Import DecimalFacts DecimalPos DecimalN.
From stdpp Require Import base option list gmap strings.

Local Open Scope string_scope.
Local Open Scope Z_scope.
Local Open Scope nat_scope.

(** ** Text: the [str] methods used by the server *)

Module Text.

Definition chr (n : nat) : ascii := ascii_of_nat n.
Definition ord (c : ascii) : nat := nat_of_ascii c.

Definition CR : ascii := chr 13.
Definition LF : ascii := chr 10.
Definition DQUOTE : ascii := chr 34.
Definition BACKSLASH : ascii := chr 92.

(** ["\r\n"] and ["\r\n\r\n"] *)
Definition CRLF : string := String CR (String LF "").
Definition CRLF2 : string := CRLF +:+ CRLF.

Fixpoint str_take (n : nat) (s : string) : string :=
  match n, s with
  | S n', String c s' => String c (str_take n' s')
  | _, _ => ""
  end.

Fixpoint str_drop (n : nat) (s : string) : string :=
  match n, s with
  | S n', String _ s' => str_drop n' s'
  | _, _ => s
  end.

(** [s.startswith(p)] *)
Definition startswith (s p : string) : bool := String.prefix p s.

(** [s.find(sub)]: the lowest index at which [sub] occurs; [None] stands
    for Python's [-1]. *)
Fixpoint find (sub s : string) : option nat :=
  if String.prefix sub s then Some 0
  else match s with
       | "" => None
       | String _ s' => S <$> find sub s'
       end.

(** [sub in s] *)
Definition contains (sub s : string) : bool :=
  match find sub s with Some _ => true | None => false end.

(** [s.split(sep, maxsplit)] for a non-empty [sep]: at most [maxsplit]
    cuts, leftmost first. *)
Fixpoint splitn (sep : string) (maxsplit : nat) (s : string) : list string :=
  match maxsplit with
  | 0 => [s]
  | S m =>
      match find sep s with
      | None => [s]
      | Some i => str_take i s :: splitn sep m (str_drop (i + String.length sep) s)
      end
  end.

(** [s.split(sep)]: no bound on the number of cuts.  Every cut consumes at
    least one character, so [String.length s] cuts are never exceeded. *)
Definition split (sep s : string) : list string :=
  splitn sep (String.length s) s.

(** [sep.join(parts)] *)
Fixpoint join (sep : string) (parts : list string) : string :=
  match parts with
  | [] => ""
  | [p] => p
  | p :: ps => p +:+ sep +:+ join sep ps
  end.

(** [str.isspace] on one code point below 256: TAB..CR, FS..US, SPACE,
    NEL (U+0085) and NBSP (U+00A0). *)
Definition is_space (c : ascii) : bool :=
  let n := ord c in
  ((9 <=? n) && (n <=? 13)) || ((28 <=? n) && (n <=? 32))
  || (n =? 133) || (n =? 160).

Fixpoint lstrip (s : string) : string :=
  match s with
  | String c s' => if is_space c then lstrip s' else s
  | "" => ""
  end.

Fixpoint rstrip (s : string) : string :=
  match s with
  | String c s' =>
      match rstrip s' with
      | "" => if is_space c then "" else String c ""
      | r => String c r
      end
  | "" => ""
  end.

(** [s.strip()] *)
Definition strip (s : string) : string := rstrip (lstrip s).

(** [str.lower] on one code point below 256: A..Z and the Latin-1 capitals
    U+00C0..U+00DE (without the multiplication sign U+00D7) move up by 32. *)
Definition lower_char (c : ascii) : ascii :=
  let n := ord c in
  if ((65 <=? n) && (n <=? 90))
     || ((192 <=? n) && (n <=? 222) && negb (n =? 215))
  then chr (n + 32) else c.

Fixpoint lower (s : string) : string :=
  match s with
  | String c s' => String (lower_char c) (lower s')
  | "" => ""
  end.

(** [s.replace(old, new)] for a one-character [old] *)
Fixpoint replace_char (old new : ascii) (s : string) : string :=
  match s with
  | String c s' =>
      String (if Ascii.eqb c old then new else c) (replace_char old new s')
  | "" => ""
  end.

(** [s.encode('utf-8')]: code points below U+0080 are one byte, the others
    (up to U+00FF) two. *)
Definition encode_char (c : ascii) : list Byte.byte :=
  let n := ord c in
  if n <? 128 then [byte_of_ascii c]
  else [byte_of_ascii (chr (192 + n / 64)); byte_of_ascii (chr (128 + n mod 64))].

Fixpoint encode (s : string) : list Byte.byte :=
  match s with
  | String c s' => (encode_char c ++ encode s')%list
  | "" => []
  end.

(** Every character of [s] satisfies [p]. *)
Fixpoint all_chars (p : ascii -> bool) (s : string) : bool :=
  match s with
  | String c s' => p c && all_chars p s'
  | "" => true
  end.

(** The decimal text of an integer: what [str(n)] returns when it
    returns (see [Py.int_repr] for when it raises). *)
Definition int_str (n : Z) : string := NilZero.string_of_int (Z.to_int n).

(** The decimal digits of a natural number, ["0"] for zero. *)
Definition digits_str (n : N) : string := NilZero.string_of_uint (N.to_uint n).

Fixpoint zeros (n : nat) : string :=
  match n with
  | 0 => ""
  | S n' => String "0" (zeros n')
  end.

End Text.

Import Text.

(** ** Py: Python values, exceptions, [dict.get], [str()], [json.dumps] *)

Module Py.

(** The exception classes that can arise in the modelled methods.
    [JSONDecodeError] is a subclass of [ValueError]; [OtherException] is any
    further subclass of [Exception], as a tool handler may raise. *)
Inductive exn_class :=
| AttributeError | TypeError | KeyError | ValueError | JSONDecodeError
| OSError | ReferenceError | RecursionError | OtherException.

(** An exception instance: its class and [str(e)]. *)
Record exn := Exn { exn_cls : exn_class; exn_str : string }.

Definition is_ValueError (e : exn) : bool :=
  match exn_cls e with
  | ValueError | JSONDecodeError => true
  | _ => false
  end.

Definition is_JSONDecodeError (e : exn) : bool :=
  match exn_cls e with
  | JSONDecodeError => true
  | _ => false
  end.

(** The result of an expression that may raise. *)
Inductive res (A : Type) :=
| Ok (a : A)
| Err (e : exn).
Arguments Ok {A} a.
Arguments Err {A} e.

(** The class of the exception an expression raises, if it does. *)
Definition raises {A} (r : res A) : option exn_class :=
  match r with
  | Ok _ => None
  | Err e => Some (exn_cls e)
  end.

#[global] Instance res_ret : MRet res := fun A a => Ok a.

#[global] Instance res_bind : MBind res := fun A B k r =>
  match r with
  | Ok a => k a
  | Err e => Err e
  end.

(** A [float], given by what the shortest-repr conversion returns for it:
    the sign, the significant decimal digits and the position of the
    decimal point relative to them ([0.d1d2... * 10^decpt]); zero is the
    digit string ["0"] with [decpt = 1]. *)
Inductive pyfloat :=
| FNaN
| FInf (negative : bool)
| FFinite (negative : bool) (digits : N) (decpt : Z).

#[local] Set Warnings "-register-all".

(** The values that flow through the server: what [json.loads] returns
    ([None], [bool], [int], [float], [str], [list], [dict] with [str]
    keys, in insertion order), and [PObject] for any other object a tool
    handler may hand back, which [json.dumps] cannot serialise. *)
Inductive pyval :=
| PNone
| PBool (b : bool)
| PInt (n : Z)
| PFloat (f : pyfloat)
| PStr (s : string)
| PList (items : list pyval)
| PDict (items : list (string * pyval))
| PObject (ident : nat).

(** What the model takes from the Python runtime rather than from the
    repository.  The texts these functions return are texts of the model:
    the statements below speak of requests whose characters are code points
    below U+0100, which covers every ASCII request. *)
Record runtime := Runtime {
  (* json.loads; None when it raises: the dispatcher only logs then,
     whatever the class of the exception *)
  json_loads : string -> option pyval;
  (* repr of a list, a dict or another object; it may raise *)
  py_repr : pyval -> res string;
  (* urllib.parse.unquote on a text with a percent sign *)
  unquote_escaped : string -> string;
  (* bytes.decode('utf-8', errors='replace'), which never raises *)
  decode : list Byte.byte -> string;
  (* sys.get_int_max_str_digits(): 4300 unless configured, 0 for no limit,
     no interpreter accepts a limit between 1 and 639 *)
  int_max_str_digits : nat;
  (* how many containers, one inside the other, json.dumps can enter
     where send_message calls it before the interpreter raises
     RecursionError: the recursion limit less the frames already in use *)
  json_max_depth : nat
}.

(** A [dict] with [str] keys, in insertion order. *)
Definition dict (V : Type) : Type := list (string * V).

Fixpoint dict_get {V} (key : string) (d : dict V) : option V :=
  match d with
  | [] => None
  | (k, v) :: d' => if String.eqb k key then Some v else dict_get key d'
  end.

(** [d[key] = v]: an existing key keeps its place, a new one goes last. *)
Fixpoint dict_set {V} (key : string) (v : V) (d : dict V) : dict V :=
  match d with
  | [] => [(key, v)]
  | (k, v0) :: d' =>
      if String.eqb k key then (k, v) :: d' else (k, v0) :: dict_set key v d'
  end.

(** [isinstance(v, dict)] *)
Definition isinstance_dict (v : pyval) : bool :=
  match v with PDict _ => true | _ => false end.

(** [v == s] for a [str] literal [s] *)
Definition eq_str (v : pyval) (s : string) : bool :=
  match v with PStr t => String.eqb t s | _ => false end.

(** [v is not None] *)
Definition is_not_None (v : pyval) : bool :=
  match v with PNone => false | _ => true end.

(** [obj.get(key, dflt)]: only a [dict] has the method. *)
Definition get (obj : pyval) (key : string) (dflt : pyval) : res pyval :=
  match obj with
  | PDict d => Ok (default dflt (dict_get key d))
  | _ => Err (Exn AttributeError "object has no attribute 'get'")
  end.

(** [key in d] for a [dict] [d] with [str] keys: hashing a [list] or a
    [dict] raises; a key that is not a [str] equals none of the keys. *)
Definition contains_key {V} (key : pyval) (d : dict V) : res bool :=
  match key with
  | PList _ | PDict _ => Err (Exn TypeError "unhashable type")
  | PStr s => Ok (bool_decide (is_Some (dict_get s d)))
  | _ => Ok false
  end.

(** [d[key]], once [key in d] has answered [True]. *)
Definition getitem {V} (d : dict V) (key : pyval) : option V :=
  match key with
  | PStr s => dict_get s d
  | _ => None
  end.

(** The exponent of a float repr: sign, then at least two digits. *)
Definition exponent_str (e : Z) : string :=
  let d := digits_str (Z.to_N (Z.abs e)) in
  (if (e <? 0)%Z then "-" else "+")
  +:+ (if String.length d <? 2 then "0" +:+ d else d).

(** [repr(f)] for a [float]: exponent notation from [1e16] up and below
    [1e-4], and [.0] added to an integral value otherwise. *)
Definition float_repr (f : pyfloat) : string :=
  match f with
  | FNaN => "nan"
  | FInf false => "inf"
  | FInf true => "-inf"
  | FFinite negative digits decpt =>
      let ds := digits_str digits in
      let n := String.length ds in
      (if negative then "-" else "")
      +:+ (if (decpt <=? -4)%Z || (16 <? decpt)%Z then
             str_take 1 ds
             +:+ (if 1 <? n then "." +:+ str_drop 1 ds else "")
             +:+ "e" +:+ exponent_str (decpt - 1)
           else if (decpt <=? 0)%Z then
             "0." +:+ zeros (Z.to_nat (- decpt)) +:+ ds
           else if (Z.to_nat decpt <? n) then
             str_take (Z.to_nat decpt) ds +:+ "." +:+ str_drop (Z.to_nat decpt) ds
           else
             ds +:+ zeros (Z.to_nat decpt - n) +:+ ".0")
  end.

(** [repr(n)] for an [int], which is also [str(n)].  The conversion to
    decimal raises [ValueError] when the text is longer than 640 characters
    and the number has more digits than the limit [max_str_digits] of the
    interpreter, unless that limit is 0. *)
Definition int_repr (max_str_digits : nat) (n : Z) : res string :=
  let text := int_str n in
  let digits := String.length (digits_str (Z.to_N (Z.abs n))) in
  if (640 <? String.length text) && (0 <? max_str_digits) && (max_str_digits <? digits)
  then Err (Exn ValueError "Exceeds the limit for integer string conversion")
  else Ok text.

(** [str(v)], as an f-string applies it.  For a [list], a [dict] or another
    object the text is the interpreter's [repr], taken from the runtime. *)
Definition str (rt : runtime) (v : pyval) : res string :=
  match v with
  | PNone => Ok "None"
  | PBool true => Ok "True"
  | PBool false => Ok "False"
  | PInt n => int_repr (int_max_str_digits rt) n
  | PFloat f => Ok (float_repr f)
  | PStr s => Ok s
  | _ => py_repr rt v
  end.

(** *** [json.dumps] with its defaults
    [ensure_ascii=True], [allow_nan=True], no indent, separators [", "] and
    [": "]. *)

Definition hex_digit (n : nat) : ascii :=
  match String.get n "0123456789abcdef" with
  | Some c => c
  | None => "0"%char
  end.

(** One character inside a JSON string: the short escapes, the character
    itself between SPACE and [~], a [\u00xx] escape otherwise. *)
Definition json_escape_char (c : ascii) : string :=
  let n := ord c in
  if Ascii.eqb c DQUOTE then String BACKSLASH (String DQUOTE "")
  else if Ascii.eqb c BACKSLASH then String BACKSLASH (String BACKSLASH "")
  else if n =? 10 then String BACKSLASH "n"
  else if n =? 13 then String BACKSLASH "r"
  else if n =? 9 then String BACKSLASH "t"
  else if n =? 8 then String BACKSLASH "b"
  else if n =? 12 then String BACKSLASH "f"
  else if (32 <=? n) && (n <=? 126) then String c ""
  else String BACKSLASH
         ("u00" +:+ String (hex_digit (n / 16)) (String (hex_digit (n mod 16)) "")).

Fixpoint json_escape (s : string) : string :=
  match s with
  | String c s' => json_escape_char c +:+ json_escape s'
  | "" => ""
  end.

Definition json_string (s : string) : string :=
  String DQUOTE (json_escape s) +:+ String DQUOTE "".

Definition json_float (f : pyfloat) : string :=
  match f with
  | FNaN => "NaN"
  | FInf false => "Infinity"
  | FInf true => "-Infinity"
  | FFinite _ _ _ => float_repr f
  end.

(** The results of [rs], left to right, up to the first that raised. *)
Fixpoint sequence {A} (rs : list (res A)) : res (list A) :=
  match rs with
  | [] => Ok []
  | Ok a :: rs' => parts ← sequence rs'; Ok (a :: parts)
  | Err e :: _ => Err e
  end.

(** The encoder behind [json.dumps].  It raises [TypeError] on an object
    that is not JSON serialisable, [ValueError] on an [int] beyond the
    digit limit, and [RecursionError] when it is to enter a [list] or a
    [dict] with no [depth] left. *)
Fixpoint json_encode (max_str_digits depth : nat) (o : pyval) {struct o} : res string :=
  match o with
  | PNone => Ok "null"
  | PBool true => Ok "true"
  | PBool false => Ok "false"
  | PInt n => int_repr max_str_digits n
  | PFloat f => Ok (json_float f)
  | PStr s => Ok (json_string s)
  | PList items =>
      match depth with
      | 0 => Err (Exn RecursionError "maximum recursion depth exceeded")
      | S depth' =>
          parts ← sequence (map (json_encode max_str_digits depth') items);
          Ok ("[" +:+ join ", " parts +:+ "]")
      end
  | PDict items =>
      match depth with
      | 0 => Err (Exn RecursionError "maximum recursion depth exceeded")
      | S depth' =>
          parts ← sequence
                    (map (fun kv => v ← json_encode max_str_digits depth' (snd kv);
                                    Ok (json_string (fst kv) +:+ ": " +:+ v))
                         items);
          Ok ("{" +:+ join ", " parts +:+ "}")
      end
  | PObject _ => Err (Exn TypeError "Object is not JSON serializable")
  end.

(** [json.dumps(o)] *)
Definition json_dumps (rt : runtime) (o : pyval) : res string :=
  json_encode (int_max_str_digits rt) (json_max_depth rt) o.

End Py.

Import Py.

(** ** Url: [urllib.parse.parse_qs] with its defaults *)

Module Url.

Section Unquote.

(** Percent-decoding of a text that does contain a [%]; the text without
    one is returned as it is by [unquote] itself. *)
Variable unquote_escaped : string -> string.

Definition unquote (s : string) : string :=
  if contains "%" s then unquote_escaped s else s.

(** The loop of [parse_qsl] over [qs.split('&')]: an empty field, a field
    without [=] and a field with an empty value are dropped
    ([keep_blank_values] and [strict_parsing] are off). *)
Fixpoint parse_fields (fields : list string) : list (string * string) :=
  match fields with
  | [] => []
  | name_value :: rest =>
      match splitn "=" 1 name_value with
      | [name; value] =>
          if 0 <? String.length value
          then (unquote (replace_char "+" " " name),
                unquote (replace_char "+" " " value)) :: parse_fields rest
          else parse_fields rest
      | _ => parse_fields rest
      end
  end.

Definition parse_qsl (qs : string) : list (string * string) :=
  if String.eqb qs "" then [] else parse_fields (split "&" qs).

(** [parse_qs(qs)]: the values of each name, in order of appearance. *)
Definition parse_qs (qs : string) : dict (list string) :=
  foldl (fun parsed_result '(name, value) =>
           match dict_get name parsed_result with
           | Some values => dict_set name (values ++ [value])%list parsed_result
           | None => dict_set name [value] parsed_result
           end)
        [] (parse_qsl qs).

End Unquote.

End Url.

Import Url.

(** ** The world the server runs in *)

(** A TCP socket as the server sees it: whether a write still goes through,
    and the chunks handed to [sendall] so far, oldest first. *)
Record socket := Socket {
  connected : bool;
  sent : list (list Byte.byte)
}.

(** An [MCPSession] object ([created_at] and [last_ping] are never read). *)
Record MCPSession := Session {
  sid : string;              (* self.id *)
  client_socket : nat;       (* the descriptor of the SSE connection *)
  client_address : string;
  is_active : bool
}.

(** An entry of [tool_handlers].  The handler is a function of its
    arguments that returns a value ([Ok]) or raises an instance of
    [Exception] ([Err]); it does not touch the server. *)
Record tool := Tool {
  description : string;
  input_schema : pyval;
  handler : pyval -> res pyval
}.

(** The state: the sockets and the clock of the operating system, the
    [MCPSession] objects of the heap by address, and the fields of the
    [MCPServer].  [active_sessions] holds references, as the Python dict
    does. *)
Record world := World {
  sockets : gmap nat socket;
  clock : string;            (* datetime.now().isoformat() *)
  objects : gmap nat MCPSession;
  server_info : pyval;
  capabilities : pyval;
  active_sessions : gmap string nat;
  tool_handlers : dict tool;
  running : bool
}.

Definition set_sockets (f : gmap nat socket -> gmap nat socket) (w : world) : world :=
  World (f (sockets w)) (clock w) (objects w) (server_info w) (capabilities w)
        (active_sessions w) (tool_handlers w) (running w).

Definition set_objects (f : gmap nat MCPSession -> gmap nat MCPSession) (w : world) : world :=
  World (sockets w) (clock w) (f (objects w)) (server_info w) (capabilities w)
        (active_sessions w) (tool_handlers w) (running w).

Definition set_active_sessions (f : gmap string nat -> gmap string nat) (w : world) : world :=
  World (sockets w) (clock w) (objects w) (server_info w) (capabilities w)
        (f (active_sessions w)) (tool_handlers w) (running w).

Definition set_tool_handlers (f : dict tool -> dict tool) (w : world) : world :=
  World (sockets w) (clock w) (objects w) (server_info w) (capabilities w)
        (active_sessions w) (f (tool_handlers w)) (running w).

(** ** The monad of methods: state, and exceptions that keep the state *)

Inductive outcome (A : Type) :=
| Returns (a : A) (w : world)
| Raises (e : exn) (w : world).
Arguments Returns {A} a w.
Arguments Raises {A} e w.

Definition M (A : Type) : Type := world -> outcome A.

#[global] Instance M_ret : MRet M := fun A a w => Returns a w.

#[global] Instance M_bind : MBind M := fun A B k m w =>
  match m w with
  | Returns a w' => k a w'
  | Raises e w' => Raises e w'
  end.

Definition get_world : M world := fun w => Returns w w.

Definition modify (f : world -> world) : M unit := fun w => Returns tt (f w).

Definition raise {A} (e : exn) : M A := fun w => Raises e w.

Definition lift {A} (r : res A) : M A :=
  match r with
  | Ok a => mret a
  | Err e => raise e
  end.

(** [try: body / except Exception as e: handler e] *)
Definition try_except {A} (body : M A) (handler : exn -> M A) : M A := fun w =>
  match body w with
  | Returns a w' => Returns a w'
  | Raises e w' => handler e w'
  end.

(** [try] / [except] around an expression, for the classes [catches]. *)
Definition res_try {A} (r : res A) (catches : exn -> bool) (handler : res A) : res A :=
  match r with
  | Ok a => Ok a
  | Err e => if catches e then handler else Err e
  end.

(** [sock.sendall(data)]: raises [OSError] unless the socket is connected. *)
Definition sendall (fd : nat) (data : list Byte.byte) : M unit := fun w =>
  match sockets w !! fd with
  | Some s =>
      if connected s
      then Returns tt (set_sockets <[fd := Socket true (sent s ++ [data])]> w)
      else Raises (Exn OSError "send failed") w
  | None => Raises (Exn OSError "bad file descriptor") w
  end.

(** [sock.close()] *)
Definition close (fd : nat) : M unit :=
  modify (set_sockets (alter (fun s => Socket false (sent s)) fd)).

(** [MCPLogger.log]: prints to standard output, which is not part of the
    world. *)
Definition MCPLogger_log (commentary data : string) : M unit := mret tt.

(** Reading an attribute of the session object at address [self]. *)
Definition attr {A} (field : MCPSession -> A) (self : nat) : M A := fun w =>
  match objects w !! self with
  | Some o => Returns (field o) w
  | None => Raises (Exn ReferenceError "no such object") w
  end.

(** [self.is_active = b] *)
Definition set_is_active (self : nat) (b : bool) : M unit :=
  modify (set_objects
            (alter (fun o => Session (sid o) (client_socket o) (client_address o) b) self)).

(** ** The methods of [MCPSession] and [MCPServer] *)

Section Server.

Context (rt : runtime).

(** *** [MCPSession.send_message] (lines 59-90) *)

Definition send_message (self : nat) (event_type : string) (data : pyval) : M bool :=
  try_except
    (message ←
       (if String.eqb event_type "ping" then
          w ← get_world;
          mret (": ping - " +:+ clock w +:+ "+00:00" +:+ CRLF2)
        else
          let message := "" in
          let message :=
            if negb (String.eqb event_type "message")
            then message +:+ "event: " +:+ event_type +:+ CRLF
            else message in
          data ←
            (if isinstance_dict data then
               text ← lift (json_dumps rt data);
               mret (PStr text)
             else mret data);
          text ← lift (Py.str rt data);
          mret (message +:+ "data: " +:+ text +:+ CRLF2));
     fd ← attr client_socket self;
     sendall fd (encode message);;
     MCPLogger_log "SSE Message >" message;;
     mret true)
    (fun e =>
       MCPLogger_log "Error" ("Failed to send SSE message: " +:+ exn_str e);;
       set_is_active self false;;
       mret false).

(** *** [MCPServer.register_tool] (lines 137-157) *)

Definition register_tool (name description : string) (input_schema : pyval)
    (handler : pyval -> res pyval) : M unit :=
  modify (set_tool_handlers (dict_set name (Tool description input_schema handler))).

(** *** [MCPServer._create_session] (lines 159-164)
    [session_id] is the text [uuid.uuid4()] yields for this call. *)

Definition _create_session (session_id : string) (client_socket : nat)
    (client_address : string) : M string :=
  w ← get_world;
  let session := fresh (dom (objects w)) in
  modify (set_objects <[session := Session session_id client_socket client_address true]>);;
  modify (set_active_sessions <[session_id := session]>);;
  mret session_id.

(** *** [MCPServer._remove_session] (lines 166-174) *)

Definition _remove_session (session_id : string) : M unit :=
  w ← get_world;
  match active_sessions w !! session_id with
  | Some session =>
      try_except (fd ← attr client_socket session; close fd) (fun _ => mret tt);;
      modify (set_active_sessions (delete session_id))
  | None => mret tt
  end.

(** *** [MCPServer._send_response] (lines 298-301) *)

Definition _send_response (session_id : string) (response : pyval) : M unit :=
  w ← get_world;
  match active_sessions w !! session_id with
  | Some session => send_message session "message" response;; mret tt
  | None => mret tt
  end.

(** *** [MCPServer._handle_jsonrpc_request] (lines 194-296) *)

Definition result_response (jsonrpc request_id result : pyval) : pyval :=
  PDict [("jsonrpc", jsonrpc); ("id", request_id); ("result", result)].

Definition error_response (jsonrpc request_id : pyval) (code : Z) (message : string) : pyval :=
  PDict [("jsonrpc", jsonrpc); ("id", request_id);
         ("error", PDict [("code", PInt code); ("message", PStr message)])].

Definition tool_entry (item : string * tool) : pyval :=
  PDict [("name", PStr (fst item));
         ("description", PStr (description (snd item)));
         ("inputSchema", input_schema (snd item))].

Definition _handle_jsonrpc_request (session_id request_data : string) : M unit :=
  try_except
    (request ←
       match json_loads rt request_data with
       | Some request => mret request
       | None => raise (Exn JSONDecodeError "invalid JSON")
       end;
     method ← lift (get request "method" (PStr ""));
     jsonrpc ← lift (get request "jsonrpc" (PStr "2.0"));
     request_id ← lift (get request "id" PNone);
     params ← lift (get request "params" (PDict []));
     (* line 203: the f-string applies str() to method and request_id *)
     method_text ← lift (Py.str rt method);
     id_text ← lift (Py.str rt request_id);
     MCPLogger_log "JSONRPC Request"
       ("session=" +:+ session_id +:+ ", method=" +:+ method_text
        +:+ ", id=" +:+ id_text);;
     if eq_str method "initialize" then
       protocol_version ← lift (get params "protocolVersion" (PStr "2024-11-05"));
       self ← get_world;
       _send_response session_id
         (result_response jsonrpc request_id
            (PDict [("protocolVersion", protocol_version);
                    ("capabilities", capabilities self);
                    ("serverInfo", server_info self)]))
     else if eq_str method "notifications/initialized" then
       mret tt
     else if eq_str method "tools/list" then
       self ← get_world;
       let tools := map tool_entry (tool_handlers self) in
       _send_response session_id
         (result_response jsonrpc request_id (PDict [("tools", PList tools)]))
     else if eq_str method "tools/run" || eq_str method "tools/call" then
       tool_name ← lift (get params "name" (PStr ""));
       tool_args ← lift (get params "arguments" (PDict []));
       self ← get_world;
       registered ← lift (contains_key tool_name (tool_handlers self));
       if registered : bool then
         try_except
           (entry ←
              match getitem (tool_handlers self) tool_name with
              | Some entry => mret entry
              | None => raise (Exn KeyError "tool_name")
              end;
            result ← lift (handler entry tool_args);
            _send_response session_id (result_response jsonrpc request_id result))
           (fun e =>
              _send_response session_id
                (error_response jsonrpc request_id (-32603)
                   ("Tool execution failed: " +:+ exn_str e)))
       else
         name_text ← lift (Py.str rt tool_name);
         _send_response session_id
           (error_response jsonrpc request_id (-32601)
              ("Tool not found: " +:+ name_text))
     else
       if is_not_None request_id then
         method_text ← lift (Py.str rt method);
         _send_response session_id
           (error_response jsonrpc request_id (-32601)
              ("Method not found: " +:+ method_text))
       else mret tt)
    (fun e =>
       if is_JSONDecodeError e
       then MCPLogger_log "Error" "Invalid JSON in request"
       else MCPLogger_log "Error" ("Failed to process JSON-RPC request: " +:+ exn_str e)).

(** *** [MCPServer._handle_sse_request] (lines 362-386)
    The keep-alive thread it starts at the end runs beside the request
    path and is not part of this model. *)

Definition sse_response_headers : string :=
  "HTTP/1.1 200 OK" +:+ CRLF
  +:+ "Cache-Control: no-store" +:+ CRLF
  +:+ "Connection: keep-alive" +:+ CRLF
  +:+ "X-Accel-Buffering: no" +:+ CRLF
  +:+ "Content-Type: text/event-stream; charset=utf-8" +:+ CRLF
  +:+ CRLF.

Definition _handle_sse_request (uuid4 : string) (client_socket : nat)
    (client_address : string) : M unit :=
  session_id ← _create_session uuid4 client_socket client_address;
  MCPLogger_log "New SSE connection" session_id;;
  sendall client_socket (encode sse_response_headers);;
  let endpoint_url := "/messages/?session_id=" +:+ session_id in
  let endpoint_event :=
    "event: endpoint" +:+ CRLF +:+ "data: " +:+ endpoint_url +:+ CRLF2 in
  sendall client_socket (encode endpoint_event).

(** *** [MCPServer._handle_messages_request] (lines 388-441) *)

Definition response_202 : string :=
  "HTTP/1.1 202 Accepted" +:+ CRLF
  +:+ "Content-Type: text/plain" +:+ CRLF
  +:+ "Content-Length: 0" +:+ CRLF
  +:+ "Connection: close" +:+ CRLF
  +:+ CRLF.

Definition response_404 : string :=
  "HTTP/1.1 404 Not Found" +:+ CRLF
  +:+ "Content-Type: text/plain" +:+ CRLF
  +:+ "Content-Length: 13" +:+ CRLF
  +:+ "Connection: close" +:+ CRLF
  +:+ CRLF
  +:+ "Invalid session".

Definition response_400 : string :=
  "HTTP/1.1 400 Bad Request" +:+ CRLF
  +:+ "Content-Type: text/plain" +:+ CRLF
  +:+ "Content-Length: 22" +:+ CRLF
  +:+ "Connection: close" +:+ CRLF
  +:+ CRLF
  +:+ "Missing session_id param".

Definition _handle_messages_request (client_socket : nat) (client_address : string)
    (path : string) (headers : gmap string string) (body : string) : M unit :=
  response ←
    match find "?" path with
    | Some query_start =>
        let query_string := str_drop (query_start + 1) path in
        let query_params := parse_qs (unquote_escaped rt) query_string in
        let session_ids := default [] (dict_get "session_id" query_params) in
        self ← get_world;
        if negb (bool_decide (session_ids = []))
           && bool_decide (is_Some (active_sessions self !! hd "" session_ids))
        then
          let session_id := hd "" session_ids in
          (if bool_decide (headers !! "content-type" = Some "application/json")
           then _handle_jsonrpc_request session_id body
           else mret tt);;
          mret response_202
        else
          mret response_404
    | None =>
        mret response_400
    end;
  sendall client_socket (encode response);;
  close client_socket.

(** *** [MCPServer._handle_default_request] (lines 443-454) *)

Definition response_hello : string :=
  "HTTP/1.1 200 OK" +:+ CRLF
  +:+ "Content-Type: text/plain" +:+ CRLF
  +:+ "Content-Length: 11" +:+ CRLF
  +:+ "Connection: close" +:+ CRLF
  +:+ CRLF
  +:+ "Hello World".

Definition _handle_default_request (client_socket : nat) : M unit :=
  sendall client_socket (encode response_hello);;
  close client_socket.

(** *** [MCPServer._handle_client] (lines 303-360)
    [request_data] is what the receive loop has accumulated when it stops;
    [uuid4] is the session id an SSE request would draw. *)

(** [a, b, c = parts] and [a, b = parts] *)
Definition unpack3 (parts : list string) : res (string * string * string) :=
  match parts with
  | [a; b; c] => Ok (a, b, c)
  | _ => Err (Exn ValueError "wrong number of values to unpack")
  end.

Definition unpack2 (parts : list string) : res (string * string) :=
  match parts with
  | [a; b] => Ok (a, b)
  | _ => Err (Exn ValueError "wrong number of values to unpack")
  end.

(** Lines 326-330 *)
Definition parse_request_line (line : string) : res (string * string * string) :=
  res_try (unpack3 (splitn " " 2 line)) is_ValueError
          (Ok ("UNKNOWN", "/", "HTTP/1.1")).

(** Lines 333-341: the loop over [lines[1:]] *)
Fixpoint parse_headers (lines : list string) (headers : gmap string string)
    : res (gmap string string) :=
  match lines with
  | [] => Ok headers
  | line :: rest =>
      if String.eqb line "" then Ok headers
      else
        match unpack2 (splitn ":" 1 line) with
        | Ok (key, value) =>
            parse_headers rest (<[lower (strip key) := strip value]> headers)
        | Err e =>
            if is_ValueError e then parse_headers rest headers else Err e
        end
  end.

(** Lines 344-345 *)
Definition find_body (request_text : string) : string :=
  match find CRLF2 request_text with
  | Some body_start => str_drop (body_start + 4) request_text
  | None => ""
  end.

Definition _handle_client (uuid4 : string) (client_socket : nat)
    (client_address : string) (request_data : list Byte.byte) : M unit :=
  try_except
    (if bool_decide (request_data = []) then mret tt
     else
       let request_text := decode rt request_data in
       MCPLogger_log "Request <" request_text;;
       match split CRLF request_text with
       | [] => mret tt
       | request_line :: header_lines =>
           '(method, path, version) ← lift (parse_request_line request_line);
           headers ← lift (parse_headers header_lines ∅);
           let body := find_body request_text in
           if String.eqb method "GET" && String.eqb path "/sse" then
             _handle_sse_request uuid4 client_socket client_address
           else if String.eqb method "POST" && startswith path "/messages/" then
             _handle_messages_request client_socket client_address path headers body
           else
             _handle_default_request client_socket
       end)
    (fun e =>
       MCPLogger_log "Error" ("Error handling client: " +:+ exn_str e);;
       try_except (close client_socket) (fun _ => mret tt)).

End Server.

(** ** The methods off the request path *)

Definition set_running (b : bool) (w : world) : world :=
  World (sockets w) (clock w) (objects w) (server_info w) (capabilities w)
        (active_sessions w) (tool_handlers w) b.

(** *** [MCPServer.shutdown] (lines 511-519) *)

(** The loop over the snapshot [list(self.active_sessions.keys())]. *)
Fixpoint remove_sessions (session_ids : list string) : M unit :=
  match session_ids with
  | [] => mret tt
  | session_id :: rest => _remove_session session_id;; remove_sessions rest
  end.

(** The keys of [active_sessions]; Python walks them in insertion order,
    the model in the order of the map, and the outcome of the loop does not
    depend on it ([remove_sessions_effect] holds for every list of ids). *)
Definition session_keys (w : world) : list string :=
  map fst (map_to_list (active_sessions w)).

Definition shutdown : M unit :=
  modify (set_running false);;
  w ← get_world;
  remove_sessions (session_keys w);;
  MCPLogger_log "Server" "Shutdown complete".

(** *** The keep-alive loop of [_start_ping_thread] (lines 178-188)
    The loop runs in a thread of its own; the model runs it alone, so that
    nothing else changes the world while it sleeps. *)

Section KeepAlive.

Context (rt : runtime).

(** The loop condition (lines 180-182) *)
Definition ping_condition (session_id : string) : M bool :=
  w ← get_world;
  if running w then
    match active_sessions w !! session_id with
    | Some session => attr is_active session
    | None => mret false
    end
  else mret false.

(** At most [rounds] iterations of the loop; [true] when the loop has
    ended within them, [false] when it is still running after them. *)
Fixpoint ping_loop (rounds : nat) (session_id : string) : M bool :=
  match rounds with
  | 0 => mret false
  | S rounds' =>
      continue ← ping_condition session_id;
      if continue : bool then
        (* time.sleep(15) *)
        w ← get_world;
        match active_sessions w !! session_id with
        | Some session =>
            active ← attr is_active session;
            if active : bool then
              ok ← send_message rt session "ping" PNone;
              if negb ok then mret true
              else ping_loop rounds' session_id
            else ping_loop rounds' session_id
        | None => ping_loop rounds' session_id
        end
      else mret true
  end.

End KeepAlive.

(** *** [MCPLogger.log] (lines 23-38): the line it prints *)

(** [s.replace(old, new)] for a one-character [old] and any [new] *)
Fixpoint replace_char_by (old : ascii) (new : string) (s : string) : string :=
  match s with
  | String c s' =>
      (if Ascii.eqb c old then new else String c "") +:+ replace_char_by old new s'
  | "" => ""
  end.

(** Line 36: [str(data)] with its line breaks spelled out. *)
Definition formatted_data (rt : runtime) (data : pyval) : res string :=
  text ← Py.str rt data;
  Ok (replace_char_by CR (String BACKSLASH "r")
        (replace_char_by LF (String BACKSLASH "n") text)).

(** Lines 31-38.  [stamp] is what [strftime] returns, with microseconds;
    [pid] and [tid] are [os.getpid()] and [threading.get_ident()]. *)
Definition log_line (rt : runtime) (stamp : string) (pid tid : Z)
    (commentary : string) (data : pyval) : res string :=
  let timestamp := str_take (String.length stamp - 3) stamp in
  formatted ← formatted_data rt data;
  pid_text ← Py.str rt (PInt pid);
  tid_text ← Py.str rt (PInt tid);
  Ok (timestamp +:+ " [PID:" +:+ pid_text +:+ "|TID:" +:+ tid_text +:+ "] "
      +:+ commentary +:+ " " +:+ formatted).

(** ** Observations used in the statements *)

(** The world after descriptor [fd] was closed. *)
Definition closed (fd : nat) (w : world) : world :=
  set_sockets (alter (fun s => Socket false (sent s)) fd) w.

(** The world after [text] went out on descriptor [fd], whose socket was
    [s] before. *)
Definition written (fd : nat) (s : socket) (text : string) (w : world) : world :=
  set_sockets <[fd := Socket true (sent s ++ [encode text])]> w.

(** The world after a one-shot HTTP response [text] went out on [fd] and
    the connection was closed. *)
Definition responded (fd : nat) (s : socket) (text : string) (w : world) : world :=
  set_sockets <[fd := Socket false (sent s ++ [encode text])]> w.

(** The world after the session object at [self] was marked inactive. *)
Definition deactivated (self : nat) (w : world) : world :=
  set_objects
    (alter (fun o => Session (sid o) (client_socket o) (client_address o) false) self) w.

(** No write on [fd] goes through in [w]. *)
Definition write_fails (fd : nat) (w : world) : Prop :=
  forall data, exists e, sendall fd data w = Raises e w.

(** A text without a carriage return or a line feed. *)
Definition single_line (text : string) : Prop :=
  all_chars (fun c => negb (Ascii.eqb c CR) && negb (Ascii.eqb c LF)) text = true.

(** A character between SPACE and [~]. *)
Definition printable (c : ascii) : bool := (32 <=? ord c) && (ord c <=? 126).

(** The SSE frame of section 4.2 of the specification, in its words: a
    comment line for a ping; otherwise an [event:] line unless the type is
    [message], then a [data:] line; a blank line ends the frame. *)
Definition sse_frame (timestamp event_type payload : string) : string :=
  if String.eqb event_type "ping"
  then ": ping - " +:+ timestamp +:+ "+00:00" +:+ CRLF +:+ CRLF
  else (if String.eqb event_type "message" then ""
        else "event: " +:+ event_type +:+ CRLF)
       +:+ "data: " +:+ payload +:+ CRLF +:+ CRLF.

(** The text that follows [data: ] in a frame: the JSON text of a dict,
    [str()] of anything else; [Err] when the conversion raises. *)
Definition payload_text (rt : runtime) (data : pyval) : res string :=
  if isinstance_dict data then json_dumps rt data
  else Py.str rt data.

(** An upper-case letter among the code points below 256. *)
Definition is_upper (c : ascii) : bool :=
  let n := ord c in
  ((65 <=? n) && (n <=? 90)) || ((192 <=? n) && (n <=? 222) && negb (n =? 215)).

(** The first line of an HTTP response. *)
Definition status_line (response : string) : string :=
  hd "" (split CRLF response).

(** The number a response declares in its [Content-Length] header, read
    with the server's own header parser. *)
Definition declared_content_length (response : string) : option nat :=
  match parse_headers (tl (split CRLF response)) ∅ with
  | Ok headers =>
      value ← headers !! "content-length";
      digits ← NilEmpty.uint_of_string value;
      Some (Nat.of_uint digits)
  | Err _ => None
  end.

(** [w'] is [w] after [response] went out to the session [session_id]:
    the session is registered, its connection is up, [json.dumps] has a
    text for [response], and the one chunk written is the [data:] line
    with that text, ended by a blank line. *)
Definition answered (rt : runtime) (session_id : string) (response : pyval)
    (w w' : world) : Prop :=
  exists self o s text,
    active_sessions w !! session_id = Some self
    /\ objects w !! self = Some o
    /\ sockets w !! client_socket o = Some s
    /\ connected s = true
    /\ json_dumps rt response = Ok text
    /\ w' = written (client_socket o) s ("data: " +:+ text +:+ CRLF +:+ CRLF) w.

(** The methods the dispatcher has a branch for. *)
Definition recognized (method : pyval) : bool :=
  eq_str method "initialize" || eq_str method "notifications/initialized"
  || eq_str method "tools/list" || eq_str method "tools/run"
  || eq_str method "tools/call".

(** The fields the dispatcher reads off a decoded request. *)
Definition method_of (fields : dict pyval) : pyval :=
  default (PStr "") (dict_get "method" fields).
Definition jsonrpc_of (fields : dict pyval) : pyval :=
  default (PStr "2.0") (dict_get "jsonrpc" fields).
Definition id_of (fields : dict pyval) : pyval :=
  default PNone (dict_get "id" fields).
Definition params_of (fields : dict pyval) : pyval :=
  default (PDict []) (dict_get "params" fields).
Definition name_of (params : dict pyval) : pyval :=
  default (PStr "") (dict_get "name" params).
Definition arguments_of (params : dict pyval) : pyval :=
  default (PDict []) (dict_get "arguments" params).

(** [hash(v)] raises: a [list] or a [dict]. *)
Definition unhashable (v : pyval) : bool :=
  match v with PList _ | PDict _ => true | _ => false end.

(** A socket is as it was, or closed with what it had sent. *)
Definition only_closed (before after : gmap nat socket) : Prop :=
  forall fd,
    after !! fd = before !! fd
    \/ exists s, before !! fd = Some s /\ after !! fd = Some (Socket false (sent s)).

(** The first event of an SSE stream. *)
Definition endpoint_event (session_id : string) : string :=
  "event: endpoint" +:+ CRLF +:+ "data: /messages/?session_id=" +:+ session_id
  +:+ CRLF +:+ CRLF.

(** A lower-case hexadecimal digit, as in the text of a [uuid4]. *)
Definition is_hex_digit (c : ascii) : bool :=
  let n := ord c in
  ((48 <=? n) && (n <=? 57)) || ((97 <=? n) && (n <=? 102)).

(** ** A small deployment, for the examples *)

Module Demo.

(** The JSON text of a document, under the limits an interpreter starts
    with. *)
Definition text_of (v : pyval) : string :=
  match json_encode 4300 1000 v with
  | Ok text => text
  | Err _ => ""
  end.

(** A decoder that knows the documents [known]: the inverse of [text_of]
    on them. *)
Definition loads (known : list pyval) (text : string) : option pyval :=
  head (filter (fun v => match json_encode 4300 1000 v with
                         | Ok t => String.eqb t text
                         | Err _ => false
                         end = true) known).

(** A decoder that is right on ASCII input, where UTF-8 is one byte per
    character. *)
Definition ascii_decode (data : list Byte.byte) : string :=
  string_of_list_ascii (map ascii_of_byte data).

(** A request whose request line has no space and whose first header line
    has no colon. *)
Definition garbled_request : string :=
  "GARBAGE" +:+ CRLF +:+ "NoColonHere" +:+ CRLF +:+ "Host: X" +:+ CRLF2.

Definition request (fields : dict pyval) : pyval :=
  PDict (("jsonrpc", PStr "2.0") :: fields).

Definition call (method name : string) : dict pyval :=
  [("method", PStr method); ("params", PDict [("name", PStr name)])].

(** Requests without an [id] member. *)
Definition initialize_no_id : pyval := request [("method", PStr "initialize")].
Definition list_no_id : pyval := request [("method", PStr "tools/list")].
Definition call_no_id : pyval := request (call "tools/call" "nope").
Definition run_no_id : pyval := request (call "tools/run" "nope").
Definition initialized_no_id : pyval :=
  request [("method", PStr "notifications/initialized")].
Definition cancelled_no_id : pyval :=
  request [("method", PStr "notifications/cancelled")].

(** Requests with an [id]. *)
Definition initialize_1 : pyval :=
  request [("id", PInt 1); ("method", PStr "initialize");
           ("params", PDict [("protocolVersion", PStr "2025-03-26")])].
Definition initialize_2 : pyval :=
  request [("id", PInt 2); ("method", PStr "initialize")].
Definition call_echo : pyval := request (("id", PInt 3) :: call "tools/call" "echo").
Definition call_boom : pyval := request (("id", PInt 4) :: call "tools/call" "boom").
Definition call_nope : pyval := request (("id", PInt 5) :: call "tools/call" "nope").
Definition list_6 : pyval := request [("id", PInt 6); ("method", PStr "tools/list")].

(** The text of a POST with a JSON body. *)
Definition post (path body : string) : string :=
  "POST " +:+ path +:+ " HTTP/1.1" +:+ CRLF
  +:+ "Host: localhost" +:+ CRLF
  +:+ "Content-Type: application/json" +:+ CRLF2
  +:+ body.

Definition rt : runtime :=
  Runtime (loads [initialize_no_id; list_no_id; call_no_id; run_no_id;
                  initialized_no_id; cancelled_no_id;
                  initialize_1; initialize_2; call_echo; call_boom; call_nope;
                  list_6])
          (fun _ => Ok "<object>")
          (fun s => s)
          ascii_decode
          4300 980.

Definition echo_result : pyval :=
  PDict [("content", PList [PDict [("type", PStr "text"); ("text", PStr "X")]]);
         ("isError", PBool false)].

Definition echo : tool := Tool "Echo" (PDict []) (fun _ => Ok echo_result).
Definition boom : tool :=
  Tool "Boom" (PDict []) (fun _ => Err (Exn OtherException "upstream down")).

Definition default_capabilities : pyval :=
  PDict [("experimental", PDict []);
         ("prompts", PDict [("listChanged", PBool false)]);
         ("resources", PDict [("subscribe", PBool false); ("listChanged", PBool false)]);
         ("tools", PDict [("listChanged", PBool false)])].

Definition default_server_info : pyval :=
  PDict [("name", PStr "mcp-server"); ("version", PStr "1.0.0")].

(** One open SSE session [s1] on descriptor 7 (object 0), one session [s2]
    whose peer is gone on descriptor 8 (object 1), and a fresh POST
    connection on descriptor 9. *)
Definition w : world :=
  World {[ 7 := Socket true []; 8 := Socket false []; 9 := Socket true [] ]}
        "2026-01-01T00:00:00.000000"
        {[ 0 := Session "s1" 7 "peer" true; 1 := Session "s2" 8 "peer" true ]}
        default_server_info default_capabilities
        {[ "s1" := 0; "s2" := 1 ]}
        [("echo", echo); ("boom", boom)]
        true.

Definition s7 : socket := Socket true [].
Definition s9 : socket := Socket true [].

End Demo.

(** ** More of the deployment, for the further examples *)

Module Demo2.

(** Further documents: an unknown method with and without a usable [id],
    params that are an array, a tool name that is an array. *)
Definition ping_7 : pyval :=
  Demo.request [("id", PInt 7); ("method", PStr "ping")].
Definition ping_null : pyval :=
  Demo.request [("id", PNone); ("method", PStr "ping")].
Definition initialize_array : pyval :=
  Demo.request [("id", PInt 8); ("method", PStr "initialize"); ("params", PList [])].
Definition call_array_name : pyval :=
  Demo.request [("id", PInt 9); ("method", PStr "tools/call");
                ("params", PDict [("name", PList [PStr "echo"])])].
Definition call_opaque : pyval :=
  Demo.request (("id", PInt 10) :: Demo.call "tools/call" "opaque").
Definition array_document : pyval := PList [PInt 1; PInt 2].

Definition rt : runtime :=
  Runtime (Demo.loads [ping_7; ping_null; initialize_array; call_array_name;
                       call_opaque; array_document; Demo.list_6])
          (fun _ => Ok "<object>")
          (fun s => s)
          Demo.ascii_decode
          4300 980.

(** A tool that hands back an object [json.dumps] rejects. *)
Definition opaque : tool :=
  Tool "Opaque" (PDict []) (fun _ => Ok (PDict [("content", PObject 0)])).

(** [Demo.w] with the tool [opaque] registered as well. *)
Definition w : world :=
  set_tool_handlers (fun tools => tools ++ [("opaque", opaque)])%list Demo.w.

End Demo2.

(** * Properties *)

(** ** The library functions on small inputs *)

Example split_request_line :
  splitn " " 2 "POST /messages/?session_id=ab HTTP/1.1"
  = ["POST"; "/messages/?session_id=ab"; "HTTP/1.1"].
Proof. reflexivity. Qed.

Example split_keeps_empty_parts : split "&" "a=1&&b=2&" = ["a=1"; ""; "b=2"; ""].
Proof. reflexivity. Qed.

Example split_crlf :
  split CRLF ("GET /sse HTTP/1.1" +:+ CRLF +:+ "Host: x" +:+ CRLF2 +:+ "body")
  = ["GET /sse HTTP/1.1"; "Host: x"; ""; "body"].
Proof. reflexivity. Qed.

Example strip_lower_header : lower (strip "  Content-Type ") = "content-type".
Proof. reflexivity. Qed.

Example float_repr_examples :
  map float_repr
      [FFinite false 15 1; FFinite false 1 17; FFinite false 1 16;
       FFinite true 5 0; FFinite false 1 (-4); FFinite false 25 (-6);
       FFinite false 0 1; FFinite false 1234 2]
  = ["1.5"; "1e+16"; "1000000000000000.0"; "-0.5"; "1e-05"; "2.5e-07";
     "0.0"; "12.34"].
Proof. reflexivity. Qed.

Example json_dumps_response :
  json_dumps Demo.rt (PDict [("jsonrpc", PStr "2.0"); ("id", PInt 1);
                             ("result", PDict [("tools", PList [])])])
  = Ok ("{" +:+ json_string "jsonrpc" +:+ ": " +:+ json_string "2.0" +:+ ", "
        +:+ json_string "id" +:+ ": 1, " +:+ json_string "result"
        +:+ ": {" +:+ json_string "tools" +:+ ": []}}").
Proof. reflexivity. Qed.

Example json_dumps_escapes_newline :
  json_dumps Demo.rt (PStr (String LF "x"))
  = Ok (String DQUOTE (String BACKSLASH "nx") +:+ String DQUOTE "").
Proof. reflexivity. Qed.

Example json_dumps_rejects_objects :
  raises (json_dumps Demo.rt (PDict [("content", PObject 0)])) = Some TypeError.
Proof. reflexivity. Qed.

(** With no depth left the encoder does not enter a container; a scalar
    needs none. *)
Example json_encode_depth :
  json_encode 4300 2 (PList [PList [PInt 1]]) = Ok "[[1]]"
  /\ raises (json_encode 4300 1 (PList [PList [PInt 1]])) = Some RecursionError
  /\ json_encode 4300 0 (PInt 1) = Ok "1".
Proof. repeat split. Qed.

(** The digit limit, at 640, the lowest an interpreter accepts: [10^639]
    has 640 digits and is printed, [10^640] has one more and is refused,
    unless the limit is off.  (The limit an interpreter starts with is
    4300.) *)
Example int_repr_limit :
  raises (int_repr 640 (10 ^ 639)) = None
  /\ raises (int_repr 640 (10 ^ 640)) = Some ValueError
  /\ raises (int_repr 640 (- 10 ^ 640)) = Some ValueError
  /\ raises (int_repr 0 (10 ^ 640)) = None
  /\ int_repr 640 (-32601) = Ok "-32601".
Proof. do 4 (split; [vm_compute; reflexivity|]). reflexivity. Qed.

Example parse_qs_session :
  parse_qs (fun s => s) "session_id=abc&x=1&session_id=d+e&flag&empty="
  = [("session_id", ["abc"; "d e"]); ("x", ["1"])].
Proof. reflexivity. Qed.

(** ** Text *)

Lemma all_chars_app p a b :
  all_chars p (a +:+ b) = all_chars p a && all_chars p b.
Proof.
  induction a as [|c a IH]; simpl; [reflexivity|].
  rewrite IH. apply andb_assoc.
Qed.

Lemma all_chars_take p n s : all_chars p s = true -> all_chars p (str_take n s) = true.
Proof.
  revert s. induction n as [|n IH]; intros [|c s]; simpl; try reflexivity.
  intros [Hc Hs]%andb_prop. rewrite Hc. simpl. auto.
Qed.

Lemma all_chars_drop p n s : all_chars p s = true -> all_chars p (str_drop n s) = true.
Proof.
  revert s. induction n as [|n IH]; intros [|c s]; simpl; try tauto.
  intros [Hc Hs]%andb_prop. auto.
Qed.

Lemma all_chars_zeros p n : p "0"%char = true -> all_chars p (zeros n) = true.
Proof. intros Hp. induction n as [|n IH]; simpl; [reflexivity|]. now rewrite Hp. Qed.

Lemma all_chars_impl (p q : ascii -> bool) s :
  (forall c, p c = true -> q c = true) -> all_chars p s = true -> all_chars q s = true.
Proof.
  intros Hpq. induction s as [|c s IH]; simpl; [reflexivity|].
  intros [Hc Hs]%andb_prop. rewrite (Hpq c Hc). simpl. auto.
Qed.

Lemma all_chars_join p sep parts :
  all_chars p sep = true ->
  Forall (fun part => all_chars p part = true) parts ->
  all_chars p (join sep parts) = true.
Proof.
  intros Hsep. induction 1 as [|part parts Hpart Hparts IH]; [reflexivity|].
  destruct parts as [|part' parts']; [exact Hpart|].
  change (join sep (part :: part' :: parts'))
    with (part +:+ sep +:+ join sep (part' :: parts')).
  rewrite !all_chars_app, Hpart, Hsep, IH. reflexivity.
Qed.

Lemma printable_uint d : all_chars printable (NilEmpty.string_of_uint d) = true.
Proof. induction d; simpl; auto. Qed.

Lemma printable_digits_str n : all_chars printable (digits_str n) = true.
Proof.
  unfold digits_str, NilZero.string_of_uint.
  destruct (N.to_uint n) eqn:E; try reflexivity; rewrite <- E; apply printable_uint.
Qed.

Lemma printable_int_str n : all_chars printable (int_str n) = true.
Proof.
  unfold int_str, NilZero.string_of_int.
  destruct (Z.to_int n) as [d|d]; unfold NilZero.string_of_uint.
  - destruct d; try reflexivity; apply printable_uint.
  - simpl. destruct d; try reflexivity; apply printable_uint.
Qed.

Lemma prefix_app s t : String.prefix s (s +:+ t) = true.
Proof.
  induction s as [|c s IH]; [destruct t; reflexivity|].
  change (String c s +:+ t) with (String c (s +:+ t)).
  simpl. destruct (ascii_dec c c); [exact IH|congruence].
Qed.
Lemma app_empty_r s : s +:+ "" = s.
Proof.
  induction s as [|c s IH]; [reflexivity|].
  change (String c s +:+ "") with (String c (s +:+ "")). now rewrite IH.
Qed.

Lemma find_cons sub c s :
  find sub (String c s)
  = if String.prefix sub (String c s) then Some 0 else S <$> find sub s.
Proof. reflexivity. Qed.

Lemma find_prefix sub s : String.prefix sub s = true -> find sub s = Some 0.
Proof. intros H. destruct s; simpl in *; now rewrite H. Qed.

Lemma contains_app before sub after : contains sub (before +:+ sub +:+ after) = true.
Proof.
  unfold contains. induction before as [|c before IH].
  - change ("" +:+ sub +:+ after) with (sub +:+ after).
    now rewrite find_prefix by apply prefix_app.
  - change (String c before +:+ sub +:+ after) with (String c (before +:+ sub +:+ after)).
    rewrite find_cons.
    destruct (String.prefix sub (String c (before +:+ sub +:+ after))); [reflexivity|].
    destruct (find sub (before +:+ sub +:+ after)); [reflexivity|discriminate].
Qed.

(** A printable text sits on one line. *)
Lemma printable_single_line text : all_chars printable text = true -> single_line text.
Proof.
  apply all_chars_impl. intros c Hc.
  destruct (Ascii.eqb_spec c CR) as [->|_]; [discriminate|].
  destruct (Ascii.eqb_spec c LF) as [->|_]; [discriminate|].
  reflexivity.
Qed.

(** ** [json.dumps] writes printable ASCII only *)

Lemma pyval_rect_nested (P : pyval -> Prop) :
  P PNone ->
  (forall b, P (PBool b)) ->
  (forall n, P (PInt n)) ->
  (forall f, P (PFloat f)) ->
  (forall s, P (PStr s)) ->
  (forall items, Forall P items -> P (PList items)) ->
  (forall items, Forall (fun kv => P (snd kv)) items -> P (PDict items)) ->
  (forall ident, P (PObject ident)) ->
  forall v, P v.
Proof.
  intros HNone HBool HInt HFloat HStr HList HDict HObject.
  fix IH 1. intros [ |b|n|f|s|items|items|ident].
  - exact HNone.
  - apply HBool.
  - apply HInt.
  - apply HFloat.
  - apply HStr.
  - apply HList. induction items as [|v items IHitems]; constructor.
    + apply IH.
    + exact IHitems.
  - apply HDict. induction items as [|[k v] items IHitems]; constructor.
    + apply IH.
    + exact IHitems.
  - apply HObject.
Qed.

Lemma printable_json_escape_char c : all_chars printable (json_escape_char c) = true.
Proof. destruct c as [[] [] [] [] [] [] [] []]; reflexivity. Qed.

Lemma printable_json_escape s : all_chars printable (json_escape s) = true.
Proof.
  induction s as [|c s IH]; simpl; [reflexivity|].
  now rewrite all_chars_app, printable_json_escape_char, IH.
Qed.

Lemma printable_json_string s : all_chars printable (json_string s) = true.
Proof.
  unfold json_string.
  change (String DQUOTE (json_escape s)) with (String DQUOTE "" +:+ json_escape s).
  now rewrite !all_chars_app, printable_json_escape.
Qed.

Lemma printable_exponent_str e : all_chars printable (exponent_str e) = true.
Proof.
  unfold exponent_str. cbv zeta. rewrite all_chars_app.
  pose proof (printable_digits_str (Z.to_N (Z.abs e))) as Hd.
  apply andb_true_intro; split; [destruct (e <? 0)%Z; reflexivity|].
  destruct (String.length _ <? 2); [|exact Hd].
  rewrite all_chars_app, Hd. reflexivity.
Qed.

Lemma printable_float_repr f : all_chars printable (float_repr f) = true.
Proof.
  destruct f as [|[]|negative digits decpt]; try reflexivity.
  unfold float_repr.
  pose proof (printable_digits_str digits) as Hd.
  rewrite all_chars_app.
  apply andb_true_intro; split; [destruct negative; reflexivity|].
  destruct ((decpt <=? -4)%Z || (16 <? decpt)%Z).
  - rewrite !all_chars_app, printable_exponent_str, (all_chars_take _ _ _ Hd).
    destruct (1 <? String.length _); [|reflexivity].
    rewrite all_chars_app, (all_chars_drop _ _ _ Hd). reflexivity.
  - destruct (decpt <=? 0)%Z.
    + rewrite !all_chars_app, Hd, all_chars_zeros; reflexivity.
    + destruct (Z.to_nat decpt <? String.length _).
      * now rewrite !all_chars_app, (all_chars_take _ _ _ Hd), (all_chars_drop _ _ _ Hd).
      * rewrite !all_chars_app, Hd, all_chars_zeros; reflexivity.
Qed.

Lemma printable_json_float f : all_chars printable (json_float f) = true.
Proof. destruct f as [|[]|negative digits decpt]; try reflexivity. apply printable_float_repr. Qed.

Lemma printable_int_repr m n text :
  int_repr m n = Ok text -> all_chars printable text = true.
Proof.
  unfold int_repr. cbv zeta.
  destruct (_ && _); [discriminate|].
  intros H. inversion H. apply printable_int_str.
Qed.

Lemma res_bind_Ok {A B} (r : res A) (k : A -> res B) b :
  (a ← r; k a) = Ok b -> exists a, r = Ok a /\ k a = Ok b.
Proof. destruct r as [a|e]; [eauto|discriminate]. Qed.

Lemma sequence_Ok {A} (rs : list (res A)) parts :
  sequence rs = Ok parts -> rs = map Ok parts.
Proof.
  revert parts. induction rs as [|[a|e] rs IH]; simpl; intros parts H.
  - now inversion H.
  - apply res_bind_Ok in H as (parts' & Hparts & H).
    inversion H. simpl. f_equal. now apply IH.
  - discriminate.
Qed.

Lemma sequence_map_Ok {A} (parts : list A) : sequence (map Ok parts) = Ok parts.
Proof. induction parts as [|a parts IH]; simpl; [reflexivity|]. now rewrite IH. Qed.

Lemma printable_json_encode m v :
  forall depth text, json_encode m depth v = Ok text -> all_chars printable text = true.
Proof.
  induction v as [ |b|n|f|s|items IH|items IH|ident] using pyval_rect_nested;
    intros depth text H; simpl in H.
  - now inversion H.
  - destruct b; now inversion H.
  - now apply (printable_int_repr m n).
  - inversion H. apply printable_json_float.
  - inversion H. apply printable_json_string.
  - destruct depth as [|depth]; [discriminate|].
    apply res_bind_Ok in H as (parts & E & H).
    inversion H. rewrite !all_chars_app. simpl. rewrite andb_true_r.
    apply all_chars_join; [reflexivity|].
    apply sequence_Ok in E. clear H H1. revert parts E.
    induction IH as [|v items Hv _ IHitems]; intros [|part parts] E;
      try discriminate; constructor.
    + apply (Hv depth). now inversion E.
    + apply IHitems. now inversion E.
  - destruct depth as [|depth]; [discriminate|].
    apply res_bind_Ok in H as (parts & E & H).
    inversion H. rewrite !all_chars_app. simpl. rewrite andb_true_r.
    apply all_chars_join; [reflexivity|].
    apply sequence_Ok in E. clear H H1. revert parts E.
    induction IH as [|[k v] items Hv _ IHitems]; intros [|part parts] E;
      try discriminate; constructor.
    + simpl in E, Hv. destruct (json_encode m depth v) as [t|e] eqn:Ev; [|discriminate].
      inversion E. rewrite !all_chars_app, printable_json_string. simpl.
      now apply (Hv depth).
    + apply IHitems. now inversion E.
  - discriminate.
Qed.

Lemma printable_json_dumps rt v text :
  json_dumps rt v = Ok text -> all_chars printable text = true.
Proof. apply printable_json_encode. Qed.

(** More depth does not hurt: what the encoder writes with [depth] it
    writes with any greater depth. *)
Lemma json_encode_deeper m v :
  forall depth text,
    json_encode m depth v = Ok text -> json_encode m (S depth) v = Ok text.
Proof.
  induction v as [ |b|n|f|s|items IH|items IH|ident] using pyval_rect_nested;
    intros depth text H; try exact H.
  - destruct depth as [|depth]; [discriminate|].
    simpl in H. apply res_bind_Ok in H as (parts & E & H).
    change (json_encode m (S (S depth)) (PList items))
      with (parts ← sequence (map (json_encode m (S depth)) items);
            Ok ("[" +:+ join ", " parts +:+ "]")).
    enough (sequence (map (json_encode m (S depth)) items) = Ok parts) as -> by exact H.
    apply sequence_Ok in E. clear H. revert parts E.
    induction IH as [|v items Hv _ IHitems]; intros [|part parts] E;
      try discriminate; [reflexivity|].
    inversion E as [[Ev Eitems]]. simpl.
    rewrite (Hv depth part Ev), (IHitems parts Eitems). reflexivity.
  - destruct depth as [|depth]; [discriminate|].
    simpl in H. apply res_bind_Ok in H as (parts & E & H).
    change (json_encode m (S (S depth)) (PDict items))
      with (parts ← sequence
                      (map (fun kv => v ← json_encode m (S depth) (snd kv);
                                      Ok (json_string (fst kv) +:+ ": " +:+ v))
                           items);
            Ok ("{" +:+ join ", " parts +:+ "}")).
    enough (sequence
              (map (fun kv => v ← json_encode m (S depth) (snd kv);
                              Ok (json_string (fst kv) +:+ ": " +:+ v))
                   items) = Ok parts) as -> by exact H.
    apply sequence_Ok in E. clear H. revert parts E.
    induction IH as [|[k v] items Hv _ IHitems]; intros [|part parts] E;
      try discriminate; [reflexivity|].
    simpl in E, Hv. inversion E as [[Ev Eitems]].
    destruct (json_encode m depth v) as [t|e] eqn:Et; [|discriminate].
    simpl. rewrite (Hv depth t Et). simpl.
    rewrite (IHitems parts Eitems). simpl in Ev. now inversion Ev.
Qed.

(** What the encoder refuses, it refuses with less depth as well. *)
Lemma json_encode_shallower m depth v e :
  json_encode m (S depth) v = Err e -> exists e', json_encode m depth v = Err e'.
Proof.
  intros H. destruct (json_encode m depth v) as [text|e'] eqn:E; [|eauto].
  apply json_encode_deeper in E. congruence.
Qed.

(** ** The digit limit of the conversion of an [int] to text *)

Lemma usize_nb_digits d : DecimalPos.Unsigned.usize d = N.of_nat (Decimal.nb_digits d).
Proof.
  induction d; simpl DecimalPos.Unsigned.usize; simpl Decimal.nb_digits;
    rewrite ?IHd; lia.
Qed.

Lemma of_lu_lt d :
  (DecimalPos.Unsigned.of_lu d < 10 ^ DecimalPos.Unsigned.usize d)%N.
Proof.
  induction d; simpl DecimalPos.Unsigned.of_lu; simpl DecimalPos.Unsigned.usize;
    rewrite ?N.pow_succ_r'; lia.
Qed.

Lemma length_string_of_uint d :
  String.length (NilEmpty.string_of_uint d) = Decimal.nb_digits d.
Proof. induction d; simpl; congruence. Qed.

Lemma to_uint_nonnil n : N.to_uint n <> Decimal.Nil.
Proof. destruct n; [discriminate|apply DecimalPos.Unsigned.to_uint_nonnil]. Qed.

Lemma length_digits_str n :
  String.length (digits_str n) = Decimal.nb_digits (N.to_uint n).
Proof.
  unfold digits_str, NilZero.string_of_uint.
  pose proof (to_uint_nonnil n) as H.
  destruct (N.to_uint n) eqn:E; try congruence; rewrite <- E at 1;
    rewrite length_string_of_uint; now rewrite E.
Qed.

(** A number is below the power of ten of its number of digits. *)
Lemma digits_upper n : (n < 10 ^ N.of_nat (String.length (digits_str n)))%N.
Proof.
  rewrite length_digits_str.
  rewrite <- (DecimalN.Unsigned.of_to n) at 1.
  unfold N.of_uint. rewrite DecimalPos.Unsigned.of_uint_alt.
  rewrite <- nb_digits_rev, <- usize_nb_digits. apply of_lu_lt.
Qed.

Lemma unorm_to_uint n : Decimal.unorm (N.to_uint n) = N.to_uint n.
Proof.
  rewrite <- DecimalN.Unsigned.to_of. now rewrite DecimalN.Unsigned.of_to.
Qed.

Lemma of_uint_cons_lower d' (k : N) d :
  DecimalPos.Unsigned.of_lu (Decimal.rev d)
  = (DecimalPos.Unsigned.of_lu (Decimal.rev d')
     + k * 10 ^ DecimalPos.Unsigned.usize d')%N ->
  (1 <= k)%N ->
  (10 ^ DecimalPos.Unsigned.usize d' <= DecimalPos.Unsigned.of_lu (Decimal.rev d))%N.
Proof. intros -> Hk. nia. Qed.

(** A number other than zero is at least the power of ten of its number
    of digits less one: its first digit is not a zero. *)
Lemma digits_lower n :
  n <> 0%N -> (10 ^ N.of_nat (String.length (digits_str n) - 1) <= n)%N.
Proof.
  intros Hn. rewrite length_digits_str.
  pose proof (unorm_to_uint n) as Hnorm.
  rewrite <- (DecimalN.Unsigned.of_to n) at 2.
  assert (Hzero : N.to_uint n <> Decimal.zero).
  { intros E. apply Hn. rewrite <- (DecimalN.Unsigned.of_to n), E. reflexivity. }
  unfold N.of_uint. rewrite DecimalPos.Unsigned.of_uint_alt.
  destruct (N.to_uint n) as [|d|d|d|d|d|d|d|d|d|d] eqn:E;
    [now destruct (to_uint_nonnil n)| |..];
    simpl Decimal.nb_digits; rewrite Nat.sub_1_r; simpl Nat.pred;
    rewrite <- usize_nb_digits.
  - exfalso. unfold Decimal.unorm in Hnorm. simpl in Hnorm.
    destruct (Decimal.nzhead d) eqn:Hd; try (apply Hzero; congruence);
      pose proof (nb_digits_nzhead d) as Hle; rewrite Hd in Hle;
      injection Hnorm as Hnorm; rewrite <- Hnorm in Hle; simpl in Hle; lia.
  - apply (of_uint_cons_lower d 1); [|lia].
    unfold Decimal.rev at 1. simpl Decimal.revapp.
    now rewrite DecimalPos.Unsigned.of_lu_revapp.
  - apply (of_uint_cons_lower d 2); [|lia].
    unfold Decimal.rev at 1. simpl Decimal.revapp.
    now rewrite DecimalPos.Unsigned.of_lu_revapp.
  - apply (of_uint_cons_lower d 3); [|lia].
    unfold Decimal.rev at 1. simpl Decimal.revapp.
    now rewrite DecimalPos.Unsigned.of_lu_revapp.
  - apply (of_uint_cons_lower d 4); [|lia].
    unfold Decimal.rev at 1. simpl Decimal.revapp.
    now rewrite DecimalPos.Unsigned.of_lu_revapp.
  - apply (of_uint_cons_lower d 5); [|lia].
    unfold Decimal.rev at 1. simpl Decimal.revapp.
    now rewrite DecimalPos.Unsigned.of_lu_revapp.
  - apply (of_uint_cons_lower d 6); [|lia].
    unfold Decimal.rev at 1. simpl Decimal.revapp.
    now rewrite DecimalPos.Unsigned.of_lu_revapp.
  - apply (of_uint_cons_lower d 7); [|lia].
    unfold Decimal.rev at 1. simpl Decimal.revapp.
    now rewrite DecimalPos.Unsigned.of_lu_revapp.
  - apply (of_uint_cons_lower d 8); [|lia].
    unfold Decimal.rev at 1. simpl Decimal.revapp.
    now rewrite DecimalPos.Unsigned.of_lu_revapp.
  - apply (of_uint_cons_lower d 9); [|lia].
    unfold Decimal.rev at 1. simpl Decimal.revapp.
    now rewrite DecimalPos.Unsigned.of_lu_revapp.
Qed.

Lemma length_int_str n :
  String.length (digits_str (Z.to_N (Z.abs n))) <= String.length (int_str n).
Proof. unfold int_str, digits_str. destruct n as [|p|p]; simpl; lia. Qed.

Lemma digits_above m n :
  (10 ^ Z.of_nat m <= Z.abs n)%Z -> m < String.length (digits_str (Z.to_N (Z.abs n))).
Proof.
  intros H. pose proof (digits_upper (Z.to_N (Z.abs n))) as Hup.
  set (D := String.length _) in *.
  destruct (Nat.lt_ge_cases m D) as [|Hle]; [assumption|exfalso].
  assert (10 ^ Z.of_nat D <= 10 ^ Z.of_nat m)%Z by (apply Z.pow_le_mono_r; lia).
  assert (Z.of_N (Z.to_N (Z.abs n)) < Z.of_N (10 ^ N.of_nat D))%Z by lia.
  rewrite N2Z.inj_pow, nat_N_Z in *. simpl Z.of_N in *. lia.
Qed.

Lemma digits_below m n :
  1 <= m ->
  (Z.abs n < 10 ^ Z.of_nat m)%Z -> String.length (digits_str (Z.to_N (Z.abs n))) <= m.
Proof.
  intros Hm H.
  destruct (N.eq_dec (Z.to_N (Z.abs n)) 0%N) as [E|Hn].
  - rewrite E. exact Hm.
  - pose proof (digits_lower _ Hn) as Hlow.
    set (D := String.length _) in *.
    destruct (Nat.le_gt_cases D m) as [|Hgt]; [assumption|exfalso].
    assert (10 ^ Z.of_nat m <= 10 ^ Z.of_nat (D - 1))%Z by (apply Z.pow_le_mono_r; lia).
    assert (Z.of_N (10 ^ N.of_nat (D - 1)) <= Z.of_N (Z.to_N (Z.abs n)))%Z by lia.
    rewrite N2Z.inj_pow, nat_N_Z in *. simpl Z.of_N in *. lia.
Qed.

(** With a limit of [m] digits, 640 or more, the conversion raises on the
    numbers of absolute value [10^m] and above, and on no other. *)
Lemma int_repr_above m n :
  640 <= m -> (10 ^ Z.of_nat m <= Z.abs n)%Z ->
  int_repr m n = Err (Exn ValueError "Exceeds the limit for integer string conversion").
Proof.
  intros Hm Hn. unfold int_repr. cbv zeta.
  pose proof (digits_above m n Hn). pose proof (length_int_str n).
  rewrite !(proj2 (Nat.ltb_lt _ _)) by lia. reflexivity.
Qed.

Lemma int_repr_below m n :
  (Z.abs n < 10 ^ Z.of_nat m)%Z -> int_repr m n = Ok (int_str n).
Proof.
  intros Hn. unfold int_repr. cbv zeta.
  destruct m as [|m]; [now rewrite andb_false_r|].
  pose proof (digits_below (S m) n ltac:(lia) Hn).
  rewrite (proj2 (Nat.ltb_ge (S m) _)) by lia. now rewrite andb_false_r.
Qed.

Lemma int_repr_unlimited n : int_repr 0 n = Ok (int_str n).
Proof. unfold int_repr. cbv zeta. now rewrite andb_false_r. Qed.

(** At the limit itself: [10^m] is refused, the number before it is
    printed. *)
Lemma int_repr_at_limit m :
  640 <= m ->
  raises (int_repr m (10 ^ Z.of_nat m)) = Some ValueError
  /\ int_repr m (10 ^ Z.of_nat m - 1) = Ok (int_str (10 ^ Z.of_nat m - 1)).
Proof.
  intros Hm.
  assert (Hpos : (0 < 10 ^ Z.of_nat m)%Z) by (apply Z.pow_pos_nonneg; lia).
  split.
  - rewrite int_repr_above; [reflexivity|exact Hm|lia].
  - apply int_repr_below. lia.
Qed.

(** With the limit an interpreter starts with, 4300 digits. *)
Example int_repr_default_limit :
  raises (int_repr 4300 (10 ^ 4300)) = Some ValueError
  /\ int_repr 4300 (10 ^ 4300 - 1) = Ok (int_str (10 ^ 4300 - 1)).
Proof. exact (int_repr_at_limit 4300 ltac:(lia)). Qed.

(** ** The monad *)

Ltac run :=
  unfold mbind, M_bind, mret, M_ret, lift, raise, get_world, modify,
    MCPLogger_log, try_except, attr, set_is_active in *;
  simpl.

Lemma str_text rt text : Py.str rt (PStr text) = Ok text.
Proof. reflexivity. Qed.

Lemma try_except_returns {A} (body : M A) handler w a w' :
  body w = Returns a w' -> try_except body handler w = Returns a w'.
Proof. unfold try_except. now intros ->. Qed.

Lemma sendall_connected fd s data w :
  sockets w !! fd = Some s -> connected s = true ->
  sendall fd data w
  = Returns tt (set_sockets <[fd := Socket true (sent s ++ [data])]> w).
Proof. unfold sendall. now intros -> ->. Qed.

(** A response followed by [close]: one chunk more, and the socket is
    closed. *)
Lemma sendall_close fd s text w :
  sockets w !! fd = Some s -> connected s = true ->
  (sendall fd (encode text);; close fd) w = Returns tt (responded fd s text w).
Proof.
  intros Hs Hc. run. rewrite (sendall_connected _ _ _ _ Hs Hc).
  unfold close. run. unfold responded, set_sockets. simpl.
  now rewrite alter_insert_eq.
Qed.

(** ** [send_message] *)

Section SendMessage.

Context (rt : runtime).

Lemma send_message_ping self data w o s :
  objects w !! self = Some o ->
  sockets w !! client_socket o = Some s -> connected s = true ->
  send_message rt self "ping" data w
  = Returns true (written (client_socket o) s (sse_frame (clock w) "ping" "") w).
Proof.
  intros Ho Hs Hc. unfold send_message. run. rewrite Ho.
  now rewrite (sendall_connected _ _ _ _ Hs Hc).
Qed.

Lemma send_message_event self event_type data text w o s :
  objects w !! self = Some o ->
  sockets w !! client_socket o = Some s -> connected s = true ->
  String.eqb event_type "ping" = false ->
  payload_text rt data = Ok text ->
  send_message rt self event_type data w
  = Returns true (written (client_socket o) s (sse_frame (clock w) event_type text) w).
Proof.
  intros Ho Hs Hc Hping Htext. unfold send_message, payload_text, sse_frame in *.
  rewrite Hping. run.
  destruct (isinstance_dict data).
  - rewrite Htext. simpl. rewrite Ho.
    rewrite (sendall_connected _ _ _ _ Hs Hc).
    destruct (String.eqb event_type "message"); reflexivity.
  - rewrite Htext. simpl. rewrite Ho.
    rewrite (sendall_connected _ _ _ _ Hs Hc).
    destruct (String.eqb event_type "message"); reflexivity.
Qed.

Lemma send_message_unserialisable self event_type data e w :
  String.eqb event_type "ping" = false ->
  payload_text rt data = Err e ->
  send_message rt self event_type data w = Returns false (deactivated self w).
Proof.
  intros Hping Htext. unfold send_message, payload_text in *.
  rewrite Hping. run.
  destruct (isinstance_dict data); rewrite Htext; reflexivity.
Qed.

Lemma send_message_write_fails self event_type data w o :
  objects w !! self = Some o ->
  write_fails (client_socket o) w ->
  send_message rt self event_type data w = Returns false (deactivated self w).
Proof.
  intros Ho Hfail. unfold send_message. run.
  destruct (String.eqb event_type "ping").
  - rewrite Ho. destruct (Hfail (encode (": ping - " +:+ clock w +:+ "+00:00" +:+ CRLF2))) as [e ->].
    reflexivity.
  - destruct (isinstance_dict data).
    + destruct (json_dumps rt data) as [text|e]; simpl; [|reflexivity].
      rewrite Ho.
      match goal with |- context [sendall _ ?d w] => destruct (Hfail d) as [e ->] end.
      reflexivity.
    + destruct (Py.str rt data) as [text|e]; simpl; [|reflexivity].
      rewrite Ho.
      match goal with |- context [sendall _ ?d w] => destruct (Hfail d) as [e ->] end.
      reflexivity.
Qed.

(** [send_message] catches whatever goes wrong inside it. *)
Lemma send_message_returns self event_type data w :
  exists ok w', send_message rt self event_type data w = Returns ok w'.
Proof.
  unfold send_message. unfold try_except.
  match goal with |- context [match ?body w with _ => _ end] => destruct (body w) end.
  - eauto.
  - run. eauto.
Qed.

Lemma _send_response_returns session_id response w :
  exists w', _send_response rt session_id response w = Returns tt w'.
Proof.
  unfold _send_response. run.
  destruct (active_sessions w !! session_id) as [self|]; [|eauto].
  destruct (send_message_returns self "message" response w) as (ok & w' & ->).
  eauto.
Qed.

(** What [_send_response] puts on the wire of a session whose connection is
    up. *)
Lemma _send_response_delivers session_id response text w self o s :
  active_sessions w !! session_id = Some self ->
  objects w !! self = Some o ->
  sockets w !! client_socket o = Some s -> connected s = true ->
  payload_text rt response = Ok text ->
  _send_response rt session_id response w
  = Returns tt (written (client_socket o) s ("data: " +:+ text +:+ CRLF +:+ CRLF) w).
Proof.
  intros Ha Ho Hs Hc Htext. unfold _send_response. run. rewrite Ha.
  now rewrite (send_message_event self "message" response text w o s).
Qed.

Lemma write_fails_unconnected fd w :
  (forall s, sockets w !! fd = Some s -> connected s = false) -> write_fails fd w.
Proof.
  intros H data. unfold sendall.
  destruct (sockets w !! fd) as [s|] eqn:E; [rewrite (H s eq_refl)|]; eauto.
Qed.

Lemma send_message_no_object self event_type data w :
  objects w !! self = None ->
  send_message rt self event_type data w = Returns false (deactivated self w).
Proof.
  intros Ho. unfold send_message. run.
  destruct (String.eqb event_type "ping").
  - now rewrite Ho.
  - destruct (isinstance_dict data).
    + destruct (json_dumps rt data) as [text|e]; simpl; [|reflexivity]. now rewrite Ho.
    + destruct (Py.str rt data) as [text|e]; simpl; [|reflexivity]. now rewrite Ho.
Qed.

(** What a send of an event other than [ping] does, in full: the frame
    goes out when the payload has a text and the connection is up, and
    otherwise the session is marked inactive and nothing is written. *)
Lemma send_message_cases self event_type data w :
  String.eqb event_type "ping" = false ->
  send_message rt self event_type data w = Returns false (deactivated self w)
  \/ exists o s text,
       objects w !! self = Some o
       /\ sockets w !! client_socket o = Some s
       /\ connected s = true
       /\ payload_text rt data = Ok text
       /\ send_message rt self event_type data w
          = Returns true
              (written (client_socket o) s (sse_frame (clock w) event_type text) w).
Proof.
  intros Hping.
  destruct (payload_text rt data) as [text|e] eqn:Htext;
    [|left; now apply (send_message_unserialisable self event_type data e)].
  destruct (objects w !! self) as [o|] eqn:Ho;
    [|left; now apply send_message_no_object].
  destruct (sockets w !! client_socket o) as [s|] eqn:Hs.
  - destruct (connected s) eqn:Hc.
    + right. exists o, s, text. do 4 (split; [first [assumption|reflexivity]|]).
      now apply send_message_event.
    + left. apply (send_message_write_fails self event_type data w o Ho).
      apply write_fails_unconnected. intros s' Hs'. congruence.
  - left. apply (send_message_write_fails self event_type data w o Ho).
    apply write_fails_unconnected. intros s' Hs'. congruence.
Qed.

(** What [_send_response] does, in full. *)
Lemma _send_response_cases session_id response w :
  exists w',
    _send_response rt session_id response w = Returns tt w'
    /\ (sockets w' = sockets w
        \/ exists self o s text,
             active_sessions w !! session_id = Some self
             /\ objects w !! self = Some o
             /\ sockets w !! client_socket o = Some s
             /\ connected s = true
             /\ payload_text rt response = Ok text
             /\ w' = written (client_socket o) s
                       ("data: " +:+ text +:+ CRLF +:+ CRLF) w).
Proof.
  unfold _send_response. run.
  destruct (active_sessions w !! session_id) as [self|] eqn:Hself; [|eauto].
  destruct (send_message_cases self "message" response w eq_refl)
    as [->|(o & s & text & Ho & Hs & Hc & Htext & ->)].
  - eexists. split; [reflexivity|]. now left.
  - eexists. split; [reflexivity|]. right. exists self, o, s, text. auto 10.
Qed.

End SendMessage.

(** ** The JSON-RPC dispatcher *)

Section Dispatcher.

Context (rt : runtime).

(** Whatever the request, the dispatcher returns normally: both [except]
    clauses only log. *)
Lemma _handle_jsonrpc_request_returns session_id request_data w :
  exists w', _handle_jsonrpc_request rt session_id request_data w = Returns tt w'.
Proof.
  unfold _handle_jsonrpc_request, try_except.
  match goal with |- context [match ?body w with _ => _ end] => destruct (body w) as [[] w'|e w'] end.
  - eauto.
  - destruct (is_JSONDecodeError e); run; eauto.
Qed.

(** A branch that ends in one [_send_response] call. *)
Lemma dispatch_sends session_id response w (body : M unit) handler :
  body w = _send_response rt session_id response w ->
  try_except body handler w = _send_response rt session_id response w.
Proof.
  intros H. destruct (_send_response_returns rt session_id response w) as [w' Hw'].
  rewrite Hw' in *. now apply try_except_returns.
Qed.

(** A body that raises without having changed the world: the [except]
    clauses log and the request is dropped. *)
Lemma dispatch_drops (body : M unit) e w :
  body w = Raises e w ->
  try_except body
    (fun e =>
       if is_JSONDecodeError e
       then MCPLogger_log "Error" "Invalid JSON in request"
       else MCPLogger_log "Error" ("Failed to process JSON-RPC request: " +:+ exn_str e)) w
  = Returns tt w.
Proof. unfold try_except. intros ->. now destruct (is_JSONDecodeError e). Qed.

(** Line 203: when [str()] of the method or of the id raises, the request
    is dropped before any branch is taken. *)
Lemma dispatch_log_raises session_id request_data fields w :
  json_loads rt request_data = Some (PDict fields) ->
  (exists e, Py.str rt (method_of fields) = Err e)
  \/ (exists e, Py.str rt (id_of fields) = Err e) ->
  _handle_jsonrpc_request rt session_id request_data w = Returns tt w.
Proof.
  unfold method_of, id_of. intros Hloads Hraises.
  unfold _handle_jsonrpc_request.
  destruct (Py.str rt (default (PStr "") (dict_get "method" fields))) as [method_text|e1] eqn:Hm.
  - destruct Hraises as [[e He]|[e He]]; [discriminate|].
    apply (dispatch_drops _ e). run. rewrite Hloads. simpl. now rewrite Hm, He.
  - apply (dispatch_drops _ e1). run. rewrite Hloads. simpl. now rewrite Hm.
Qed.


Lemma dispatch_tools_list session_id request_data fields id_text w :
  json_loads rt request_data = Some (PDict fields) ->
  method_of fields = PStr "tools/list" ->
  Py.str rt (id_of fields) = Ok id_text ->
  _handle_jsonrpc_request rt session_id request_data w
  = _send_response rt session_id
      (result_response (jsonrpc_of fields) (id_of fields)
         (PDict [("tools", PList (map tool_entry (tool_handlers w)))])) w.
Proof.
  unfold method_of, id_of. intros Hloads Hmethod Hid.
  unfold _handle_jsonrpc_request. apply dispatch_sends.
  run. rewrite Hloads. simpl. rewrite Hmethod. simpl. rewrite Hid. reflexivity.
Qed.

Lemma dispatch_initialized session_id request_data fields w :
  json_loads rt request_data = Some (PDict fields) ->
  method_of fields = PStr "notifications/initialized" ->
  _handle_jsonrpc_request rt session_id request_data w = Returns tt w.
Proof.
  intros Hloads Hmethod.
  destruct (Py.str rt (id_of fields)) as [id_text|e] eqn:Hid;
    [|apply (dispatch_log_raises session_id request_data fields); eauto].
  unfold method_of, id_of in *.
  unfold _handle_jsonrpc_request. apply try_except_returns.
  run. rewrite Hloads. simpl. rewrite Hmethod. simpl. rewrite Hid. reflexivity.
Qed.

Lemma dispatch_unknown_method session_id request_data fields method_text id_text w :
  json_loads rt request_data = Some (PDict fields) ->
  recognized (method_of fields) = false ->
  Py.str rt (method_of fields) = Ok method_text ->
  Py.str rt (id_of fields) = Ok id_text ->
  _handle_jsonrpc_request rt session_id request_data w
  = if is_not_None (id_of fields)
    then _send_response rt session_id
           (error_response (jsonrpc_of fields) (id_of fields) (-32601)
              ("Method not found: " +:+ method_text)) w
    else Returns tt w.
Proof.
  unfold method_of, recognized. intros Hloads Hmethod Hstr Hid.
  repeat (apply orb_false_elim in Hmethod as [Hmethod ?]).
  unfold _handle_jsonrpc_request.
  destruct (is_not_None (id_of fields)) eqn:Hnone; unfold id_of in Hid, Hnone.
  - apply dispatch_sends.
    run. rewrite Hloads. simpl. rewrite Hstr. simpl. rewrite Hid. simpl.
    repeat match goal with H : eq_str _ _ = false |- _ => rewrite H; clear H end.
    simpl. rewrite Hnone. reflexivity.
  - apply try_except_returns.
    run. rewrite Hloads. simpl. rewrite Hstr. simpl. rewrite Hid. simpl.
    repeat match goal with H : eq_str _ _ = false |- _ => rewrite H; clear H end.
    simpl. rewrite Hnone. reflexivity.
Qed.

(** An unknown method without an id draws nothing, whether or not the log
    line of line 203 could be formatted. *)
Lemma dispatch_unknown_no_id session_id request_data fields w :
  json_loads rt request_data = Some (PDict fields) ->
  recognized (method_of fields) = false ->
  id_of fields = PNone ->
  _handle_jsonrpc_request rt session_id request_data w = Returns tt w.
Proof.
  intros Hloads Hmethod Hid.
  destruct (Py.str rt (method_of fields)) as [method_text|e] eqn:Hstr;
    [|apply (dispatch_log_raises session_id request_data fields); eauto].
  rewrite (dispatch_unknown_method session_id request_data fields method_text "None" w
             Hloads Hmethod Hstr) by now rewrite Hid.
  now rewrite Hid.
Qed.

(** The three outcomes of [tools/run] and [tools/call]. *)
Lemma is_tools_call method :
  method = PStr "tools/call" \/ method = PStr "tools/run" ->
  eq_str method "initialize" = false
  /\ eq_str method "notifications/initialized" = false
  /\ eq_str method "tools/list" = false
  /\ eq_str method "tools/run" || eq_str method "tools/call" = true
  /\ exists method_text, forall rt, Py.str rt method = Ok method_text.
Proof. intros [-> | ->]; repeat split; eexists; reflexivity. Qed.

Lemma dispatch_tool_missing session_id request_data fields params name_text id_text w :
  json_loads rt request_data = Some (PDict fields) ->
  method_of fields = PStr "tools/call" \/ method_of fields = PStr "tools/run" ->
  params_of fields = PDict params ->
  contains_key (name_of params) (tool_handlers w) = Ok false ->
  Py.str rt (name_of params) = Ok name_text ->
  Py.str rt (id_of fields) = Ok id_text ->
  _handle_jsonrpc_request rt session_id request_data w
  = _send_response rt session_id
      (error_response (jsonrpc_of fields) (id_of fields) (-32601)
         ("Tool not found: " +:+ name_text)) w.
Proof.
  unfold method_of, params_of, name_of, id_of.
  intros Hloads (H1 & H2 & H3 & H4 & method_text & Hstr)%is_tools_call
    Hparams Hmissing Hname Hid.
  unfold _handle_jsonrpc_request. apply dispatch_sends.
  run. rewrite Hloads. simpl. rewrite (Hstr rt). simpl. rewrite Hid. simpl.
  rewrite H1, H2, H3, H4, Hparams. simpl.
  rewrite Hmissing. simpl. rewrite Hname. reflexivity.
Qed.

(** When [str()] of the name raises, the f-string of line 275 does, and
    nothing is sent. *)
Lemma dispatch_tool_missing_unprintable session_id request_data fields params e w :
  json_loads rt request_data = Some (PDict fields) ->
  method_of fields = PStr "tools/call" \/ method_of fields = PStr "tools/run" ->
  params_of fields = PDict params ->
  contains_key (name_of params) (tool_handlers w) = Ok false ->
  Py.str rt (name_of params) = Err e ->
  _handle_jsonrpc_request rt session_id request_data w = Returns tt w.
Proof.
  intros Hloads Hmethod Hparams Hmissing Hname.
  destruct (Py.str rt (id_of fields)) as [id_text|e'] eqn:Hid;
    [|apply (dispatch_log_raises session_id request_data fields); eauto].
  revert Hmethod Hparams Hmissing Hname Hid.
  unfold method_of, params_of, name_of, id_of.
  intros (H1 & H2 & H3 & H4 & method_text & Hstr)%is_tools_call
    Hparams Hmissing Hname Hid.
  unfold _handle_jsonrpc_request. apply (dispatch_drops _ e).
  run. rewrite Hloads. simpl. rewrite (Hstr rt). simpl. rewrite Hid. simpl.
  rewrite H1, H2, H3, H4, Hparams. simpl.
  rewrite Hmissing. simpl. rewrite Hname. reflexivity.
Qed.

Lemma dispatch_tool_result
    session_id request_data fields params name entry result id_text w :
  json_loads rt request_data = Some (PDict fields) ->
  method_of fields = PStr "tools/call" \/ method_of fields = PStr "tools/run" ->
  params_of fields = PDict params ->
  name_of params = PStr name ->
  dict_get name (tool_handlers w) = Some entry ->
  handler entry (arguments_of params) = Ok result ->
  Py.str rt (id_of fields) = Ok id_text ->
  _handle_jsonrpc_request rt session_id request_data w
  = _send_response rt session_id
      (result_response (jsonrpc_of fields) (id_of fields) result) w.
Proof.
  unfold method_of, params_of, name_of, arguments_of, id_of.
  intros Hloads (H1 & H2 & H3 & H4 & method_text & Hstr)%is_tools_call
    Hparams Hname Hentry Hresult Hid.
  unfold _handle_jsonrpc_request. apply dispatch_sends.
  run. rewrite Hloads. simpl. rewrite (Hstr rt). simpl. rewrite Hid. simpl.
  rewrite H1, H2, H3, H4, Hparams. simpl.
  rewrite Hname. simpl. rewrite Hentry. simpl.
  rewrite Hresult. run. unfold jsonrpc_of.
  destruct (_send_response_returns rt session_id
              (result_response
                 (default (PStr "2.0") (dict_get "jsonrpc" fields))
                 (default PNone (dict_get "id" fields)) result) w) as [w' ->].
  reflexivity.
Qed.

Lemma dispatch_tool_raises
    session_id request_data fields params name entry e id_text w :
  json_loads rt request_data = Some (PDict fields) ->
  method_of fields = PStr "tools/call" \/ method_of fields = PStr "tools/run" ->
  params_of fields = PDict params ->
  name_of params = PStr name ->
  dict_get name (tool_handlers w) = Some entry ->
  handler entry (arguments_of params) = Err e ->
  Py.str rt (id_of fields) = Ok id_text ->
  _handle_jsonrpc_request rt session_id request_data w
  = _send_response rt session_id
      (error_response (jsonrpc_of fields) (id_of fields) (-32603)
         ("Tool execution failed: " +:+ exn_str e)) w.
Proof.
  unfold method_of, params_of, name_of, arguments_of, id_of.
  intros Hloads (H1 & H2 & H3 & H4 & method_text & Hstr)%is_tools_call
    Hparams Hname Hentry Hraise Hid.
  unfold _handle_jsonrpc_request. apply dispatch_sends.
  run. rewrite Hloads. simpl. rewrite (Hstr rt). simpl. rewrite Hid. simpl.
  rewrite H1, H2, H3, H4, Hparams. simpl.
  rewrite Hname. simpl. rewrite Hentry. simpl.
  rewrite Hraise. reflexivity.
Qed.

(** Params that are not an object, where the method reads them: the
    [AttributeError] of [params.get] is caught and the request dropped. *)
Lemma dispatch_params_not_object session_id request_data fields w :
  json_loads rt request_data = Some (PDict fields) ->
  method_of fields = PStr "initialize"
  \/ method_of fields = PStr "tools/call" \/ method_of fields = PStr "tools/run" ->
  isinstance_dict (params_of fields) = false ->
  _handle_jsonrpc_request rt session_id request_data w = Returns tt w.
Proof.
  intros Hloads Hmethod Hparams.
  destruct (Py.str rt (id_of fields)) as [id_text|e'] eqn:Hid;
    [|apply (dispatch_log_raises session_id request_data fields); eauto].
  revert Hmethod Hparams Hid. unfold method_of, params_of, id_of.
  intros Hmethod Hparams Hid.
  unfold _handle_jsonrpc_request.
  apply (dispatch_drops _ (Exn AttributeError "object has no attribute 'get'")).
  run. rewrite Hloads. simpl.
  destruct (default (PDict []) (dict_get "params" fields)); try discriminate;
    destruct Hmethod as [->|[->| ->]]; simpl; rewrite Hid; reflexivity.
Qed.

(** A tool name that cannot be hashed: the [TypeError] of the [in] test is
    caught and the request dropped. *)
Lemma dispatch_name_unhashable session_id request_data fields params w :
  json_loads rt request_data = Some (PDict fields) ->
  method_of fields = PStr "tools/call" \/ method_of fields = PStr "tools/run" ->
  params_of fields = PDict params ->
  unhashable (name_of params) = true ->
  _handle_jsonrpc_request rt session_id request_data w = Returns tt w.
Proof.
  intros Hloads Hmethod Hparams Hname.
  destruct (Py.str rt (id_of fields)) as [id_text|e'] eqn:Hid;
    [|apply (dispatch_log_raises session_id request_data fields); eauto].
  revert Hmethod Hparams Hname Hid. unfold method_of, params_of, name_of, id_of.
  intros Hmethod Hparams Hname Hid.
  unfold _handle_jsonrpc_request.
  apply (dispatch_drops _ (Exn TypeError "unhashable type")).
  run. rewrite Hloads. simpl.
  destruct Hmethod as [->| ->]; simpl; rewrite Hid; simpl; rewrite Hparams; simpl;
    destruct (default (PStr "") (dict_get "name" params)); try discriminate;
    reflexivity.
Qed.

End Dispatcher.

(** ** The claims about the dispatcher *)

(** The statements about a response have one shape.  The response is
    spelled out as the dict the source builds.  Its delivery is stated
    under what the code needs for it: the session is registered and its
    connection is up, [str()] of the id returns (line 203 formats the id
    for the log before any branch is taken), and [json.dumps] has a text
    for the response; the world after the call is then the world before
    with one chunk more on the stream of the session, the [data:] line
    with that text and a blank line.  The last part covers every other
    case: the call returns, and either no socket has changed or the
    session was [answered] with that very response. *)

(** A branch that ends in [_send_response] of a dict, once the log line of
    line 203 is formatted: on a session whose stream is up the frame of the
    response goes out, and in no case is anything else written. *)
Lemma dispatch_answer (rt : runtime) session_id request_data fields items w :
  json_loads rt request_data = Some (PDict fields) ->
  (forall id_text,
     Py.str rt (id_of fields) = Ok id_text ->
     _handle_jsonrpc_request rt session_id request_data w
     = _send_response rt session_id (PDict items) w) ->
  (forall self o s id_text text,
     active_sessions w !! session_id = Some self ->
     objects w !! self = Some o ->
     sockets w !! client_socket o = Some s ->
     connected s = true ->
     Py.str rt (id_of fields) = Ok id_text ->
     json_dumps rt (PDict items) = Ok text ->
     _handle_jsonrpc_request rt session_id request_data w
     = Returns tt (written (client_socket o) s ("data: " +:+ text +:+ CRLF +:+ CRLF) w))
  /\ (exists w',
        _handle_jsonrpc_request rt session_id request_data w = Returns tt w'
        /\ (sockets w' = sockets w \/ answered rt session_id (PDict items) w w')).
Proof.
  intros Hloads Hsends. split.
  - intros self o s id_text text Hself Ho Hs Hc Hid Htext.
    rewrite (Hsends id_text Hid).
    now apply (_send_response_delivers rt session_id (PDict items) text w self o s).
  - destruct (Py.str rt (id_of fields)) as [id_text|e] eqn:Hid.
    + rewrite (Hsends id_text eq_refl).
      destruct (_send_response_cases rt session_id (PDict items) w)
        as (w' & Hrun & Hw').
      exists w'. split; [exact Hrun|].
      destruct Hw' as [Hsame|Hanswered]; [now left|now right].
    + exists w. split; [|now left].
      apply (dispatch_log_raises rt session_id request_data fields); eauto.
Qed.

(** C1, amended.  A request without an [id] member draws no frame, and
    changes nothing at all, when its method is
    [notifications/initialized] or is none of the methods the dispatcher
    knows.  (The request methods [initialize], [tools/list], [tools/run]
    and [tools/call] are answered whether or not an [id] came with
    them.) *)
Theorem notification_without_id_is_silent
    (rt : runtime) session_id request_data fields w :
  json_loads rt request_data = Some (PDict fields) ->
  dict_get "id" fields = None ->
  method_of fields = PStr "notifications/initialized"
  \/ recognized (method_of fields) = false ->
  _handle_jsonrpc_request rt session_id request_data w = Returns tt w.
Proof.
  intros Hloads Hid [Hmethod|Hmethod].
  - now apply (dispatch_initialized rt session_id request_data fields).
  - apply (dispatch_unknown_no_id rt session_id request_data fields w Hloads Hmethod).
    unfold id_of. now rewrite Hid.
Qed.

Lemma notification_without_id_is_silent_witness :
  (json_loads Demo.rt (Demo.text_of Demo.cancelled_no_id) = Some Demo.cancelled_no_id
   /\ _handle_jsonrpc_request Demo.rt "s1" (Demo.text_of Demo.cancelled_no_id) Demo.w
      = Returns tt Demo.w)
  /\ (json_loads Demo.rt (Demo.text_of Demo.initialized_no_id) = Some Demo.initialized_no_id
      /\ _handle_jsonrpc_request Demo.rt "s1" (Demo.text_of Demo.initialized_no_id) Demo.w
         = Returns tt Demo.w).
Proof.
  split; (split; [reflexivity|]).
  - apply (notification_without_id_is_silent Demo.rt "s1" _
             [("jsonrpc", PStr "2.0"); ("method", PStr "notifications/cancelled")]);
      [reflexivity | reflexivity | right; reflexivity].
  - apply (notification_without_id_is_silent Demo.rt "s1" _
             [("jsonrpc", PStr "2.0"); ("method", PStr "notifications/initialized")]);
      [reflexivity | reflexivity | left; reflexivity].
Defined.

(** C1 as stated fails: each of the four request methods, sent without an
    [id] to the open session [s1], puts a frame on the session's stream, a
    response whose [id] is [null]. *)
Lemma requests_without_id_are_answered :
  let frame response := "data: " +:+ Demo.text_of response +:+ CRLF +:+ CRLF in
  let answered request response :=
    get request "id" (PStr "absent") = Ok (PStr "absent")
    /\ (exists method, get request "method" PNone = Ok method
                       /\ recognized method = true)
    /\ _handle_jsonrpc_request Demo.rt "s1" (Demo.text_of request) Demo.w
       = Returns tt (written 7 Demo.s7 (frame response) Demo.w) in
  answered Demo.initialize_no_id
    (result_response (PStr "2.0") PNone
       (PDict [("protocolVersion", PStr "2024-11-05");
               ("capabilities", Demo.default_capabilities);
               ("serverInfo", Demo.default_server_info)]))
  /\ answered Demo.list_no_id
       (result_response (PStr "2.0") PNone
          (PDict [("tools", PList [tool_entry ("echo", Demo.echo);
                                   tool_entry ("boom", Demo.boom)])]))
  /\ answered Demo.call_no_id
       (error_response (PStr "2.0") PNone (-32601) "Tool not found: nope")
  /\ answered Demo.run_no_id
       (error_response (PStr "2.0") PNone (-32601) "Tool not found: nope").
Proof.
  repeat split; try (eexists; split; reflexivity); vm_compute; reflexivity.
Qed.

(** C3.  A [tools/call] or [tools/run] request that names a registered tool
    whose handler returns [result] is answered by the response
    [{jsonrpc, id, result}] whose [result] member is that very value: when
    the stream of the session is up and the response has a JSON text, the
    one frame written on the stream is the [data:] line with that text;
    and in no case does the request draw any other frame. *)
Theorem tool_result_round_trip
    (rt : runtime) session_id request_data fields params name entry result w :
  json_loads rt request_data = Some (PDict fields) ->
  method_of fields = PStr "tools/call" \/ method_of fields = PStr "tools/run" ->
  params_of fields = PDict params ->
  name_of params = PStr name ->
  dict_get name (tool_handlers w) = Some entry ->
  handler entry (arguments_of params) = Ok result ->
  let response :=
    PDict [("jsonrpc", jsonrpc_of fields); ("id", id_of fields); ("result", result)] in
  (forall self o s id_text text,
     active_sessions w !! session_id = Some self ->
     objects w !! self = Some o ->
     sockets w !! client_socket o = Some s ->
     connected s = true ->
     Py.str rt (id_of fields) = Ok id_text ->
     json_dumps rt response = Ok text ->
     _handle_jsonrpc_request rt session_id request_data w
     = Returns tt (written (client_socket o) s ("data: " +:+ text +:+ CRLF +:+ CRLF) w))
  /\ (exists w',
        _handle_jsonrpc_request rt session_id request_data w = Returns tt w'
        /\ (sockets w' = sockets w \/ answered rt session_id response w w')).
Proof.
  intros Hloads Hmethod Hparams Hname Hentry Hresult response.
  apply (dispatch_answer rt session_id request_data fields); [exact Hloads|].
  intros id_text Hid.
  now apply (dispatch_tool_result rt session_id request_data fields params name entry
               result id_text).
Qed.

Lemma tool_result_round_trip_witness :
  json_loads Demo.rt (Demo.text_of Demo.call_echo) = Some Demo.call_echo
  /\ handler Demo.echo (PDict []) = Ok Demo.echo_result
  /\ _handle_jsonrpc_request Demo.rt "s1" (Demo.text_of Demo.call_echo) Demo.w
     = Returns tt
         (written 7 Demo.s7
            ("data: "
             +:+ Demo.text_of
                   (PDict [("jsonrpc", PStr "2.0"); ("id", PInt 3);
                           ("result", Demo.echo_result)])
             +:+ CRLF +:+ CRLF)
            Demo.w).
Proof.
  split; [reflexivity|]. split; [reflexivity|].
  destruct (tool_result_round_trip Demo.rt "s1" (Demo.text_of Demo.call_echo)
              (("jsonrpc", PStr "2.0") :: ("id", PInt 3) :: Demo.call "tools/call" "echo")
              [("name", PStr "echo")] "echo" Demo.echo Demo.echo_result Demo.w
              eq_refl (or_introl eq_refl) eq_refl eq_refl eq_refl eq_refl)
    as [Hsent _].
  exact (Hsent 0 (Session "s1" 7 "peer" true) Demo.s7 "3"
           (Demo.text_of
              (PDict [("jsonrpc", PStr "2.0"); ("id", PInt 3);
                      ("result", Demo.echo_result)]))
           eq_refl eq_refl eq_refl eq_refl eq_refl eq_refl).
Defined.

(** C4.  A [tools/call] or [tools/run] request whose tool name is not in
    the registry is answered by the error object with code [-32601] and the
    message [Tool not found: <name>], which contains the name: when the
    stream of the session is up and the response has a JSON text, the one
    frame written on the stream is the [data:] line with that text; and in
    no case does the request draw any other frame. *)
Theorem unknown_tool_is_reported
    (rt : runtime) session_id request_data fields params name_text w :
  json_loads rt request_data = Some (PDict fields) ->
  method_of fields = PStr "tools/call" \/ method_of fields = PStr "tools/run" ->
  params_of fields = PDict params ->
  contains_key (name_of params) (tool_handlers w) = Ok false ->
  Py.str rt (name_of params) = Ok name_text ->
  let message := "Tool not found: " +:+ name_text in
  let response :=
    PDict [("jsonrpc", jsonrpc_of fields); ("id", id_of fields);
           ("error", PDict [("code", PInt (-32601)); ("message", PStr message)])] in
  contains name_text message = true
  /\ (forall name, name_of params = PStr name ->
        name_text = name /\ dict_get name (tool_handlers w) = None)
  /\ (forall self o s id_text text,
        active_sessions w !! session_id = Some self ->
        objects w !! self = Some o ->
        sockets w !! client_socket o = Some s ->
        connected s = true ->
        Py.str rt (id_of fields) = Ok id_text ->
        json_dumps rt response = Ok text ->
        _handle_jsonrpc_request rt session_id request_data w
        = Returns tt
            (written (client_socket o) s ("data: " +:+ text +:+ CRLF +:+ CRLF) w))
  /\ (exists w',
        _handle_jsonrpc_request rt session_id request_data w = Returns tt w'
        /\ (sockets w' = sockets w \/ answered rt session_id response w w')).
Proof.
  intros Hloads Hmethod Hparams Hmissing Hname message response.
  split; [|split].
  - pose proof (contains_app "Tool not found: " name_text "") as H.
    now rewrite app_empty_r in H.
  - intros name Hstr. rewrite Hstr in Hname, Hmissing. simpl in Hname, Hmissing.
    split; [congruence|].
    destruct (dict_get name (tool_handlers w)) as [entry|] eqn:E; [|reflexivity].
    rewrite bool_decide_eq_true_2 in Hmissing by eauto. discriminate.
  - apply (dispatch_answer rt session_id request_data fields); [exact Hloads|].
    intros id_text Hid.
    now apply (dispatch_tool_missing rt session_id request_data fields params
                 name_text id_text).
Qed.

Lemma unknown_tool_is_reported_witness :
  json_loads Demo.rt (Demo.text_of Demo.call_nope) = Some Demo.call_nope
  /\ dict_get "nope" (tool_handlers Demo.w) = None
  /\ _handle_jsonrpc_request Demo.rt "s1" (Demo.text_of Demo.call_nope) Demo.w
     = Returns tt
         (written 7 Demo.s7
            ("data: "
             +:+ Demo.text_of
                   (PDict [("jsonrpc", PStr "2.0"); ("id", PInt 5);
                           ("error",
                            PDict [("code", PInt (-32601));
                                   ("message", PStr "Tool not found: nope")])])
             +:+ CRLF +:+ CRLF)
            Demo.w).
Proof.
  split; [reflexivity|]. split; [reflexivity|].
  destruct (unknown_tool_is_reported Demo.rt "s1" (Demo.text_of Demo.call_nope)
              (("jsonrpc", PStr "2.0") :: ("id", PInt 5) :: Demo.call "tools/call" "nope")
              [("name", PStr "nope")] "nope" Demo.w
              eq_refl (or_introl eq_refl) eq_refl eq_refl eq_refl)
    as (_ & _ & Hsent & _).
  exact (Hsent 0 (Session "s1" 7 "peer" true) Demo.s7 "5"
           (Demo.text_of
              (PDict [("jsonrpc", PStr "2.0"); ("id", PInt 5);
                      ("error",
                       PDict [("code", PInt (-32601));
                              ("message", PStr "Tool not found: nope")])]))
           eq_refl eq_refl eq_refl eq_refl eq_refl eq_refl).
Defined.

(** C5.  When the handler of the named tool raises, the dispatcher catches
    the exception and answers with the error object of code [-32603] and
    message [Tool execution failed: <str(e)>]: when the stream of the
    session is up and the response has a JSON text, the one frame written
    on the stream is the [data:] line with that text; in no case does the
    request draw any other frame; and the call returns normally. *)
Theorem handler_exception_is_reported
    (rt : runtime) session_id request_data fields params name entry e w :
  json_loads rt request_data = Some (PDict fields) ->
  method_of fields = PStr "tools/call" \/ method_of fields = PStr "tools/run" ->
  params_of fields = PDict params ->
  name_of params = PStr name ->
  dict_get name (tool_handlers w) = Some entry ->
  handler entry (arguments_of params) = Err e ->
  let response :=
    PDict [("jsonrpc", jsonrpc_of fields); ("id", id_of fields);
           ("error", PDict [("code", PInt (-32603));
                            ("message", PStr ("Tool execution failed: " +:+ exn_str e))])] in
  (forall self o s id_text text,
     active_sessions w !! session_id = Some self ->
     objects w !! self = Some o ->
     sockets w !! client_socket o = Some s ->
     connected s = true ->
     Py.str rt (id_of fields) = Ok id_text ->
     json_dumps rt response = Ok text ->
     _handle_jsonrpc_request rt session_id request_data w
     = Returns tt (written (client_socket o) s ("data: " +:+ text +:+ CRLF +:+ CRLF) w))
  /\ (exists w',
        _handle_jsonrpc_request rt session_id request_data w = Returns tt w'
        /\ (sockets w' = sockets w \/ answered rt session_id response w w')).
Proof.
  intros Hloads Hmethod Hparams Hname Hentry Hraise response.
  apply (dispatch_answer rt session_id request_data fields); [exact Hloads|].
  intros id_text Hid.
  now apply (dispatch_tool_raises rt session_id request_data fields params name entry
               e id_text).
Qed.

Lemma handler_exception_is_reported_witness :
  json_loads Demo.rt (Demo.text_of Demo.call_boom) = Some Demo.call_boom
  /\ handler Demo.boom (PDict []) = Err (Exn OtherException "upstream down")
  /\ _handle_jsonrpc_request Demo.rt "s1" (Demo.text_of Demo.call_boom) Demo.w
     = Returns tt
         (written 7 Demo.s7
            ("data: "
             +:+ Demo.text_of
                   (PDict [("jsonrpc", PStr "2.0"); ("id", PInt 4);
                           ("error",
                            PDict [("code", PInt (-32603));
                                   ("message",
                                    PStr "Tool execution failed: upstream down")])])
             +:+ CRLF +:+ CRLF)
            Demo.w).
Proof.
  split; [reflexivity|]. split; [reflexivity|].
  destruct (handler_exception_is_reported Demo.rt "s1" (Demo.text_of Demo.call_boom)
              (("jsonrpc", PStr "2.0") :: ("id", PInt 4) :: Demo.call "tools/call" "boom")
              [("name", PStr "boom")] "boom" Demo.boom
              (Exn OtherException "upstream down") Demo.w
              eq_refl (or_introl eq_refl) eq_refl eq_refl eq_refl eq_refl)
    as [Hsent _].
  exact (Hsent 0 (Session "s1" 7 "peer" true) Demo.s7 "4"
           (Demo.text_of
              (PDict [("jsonrpc", PStr "2.0"); ("id", PInt 4);
                      ("error",
                       PDict [("code", PInt (-32603));
                              ("message",
                               PStr "Tool execution failed: upstream down")])]))
           eq_refl eq_refl eq_refl eq_refl eq_refl eq_refl).
Defined.



(** ** The claims about [send_message] *)

(** C7.  On a session whose connection is up, [send_message] writes exactly
    one frame: for [ping] the comment line with the clock reading and
    [+00:00]; otherwise an [event:] line unless the type is [message], then
    the [data:] line, whose payload is the one-line JSON text of a dict and
    the text of anything else as it is; a blank line ends the frame.  When
    the payload has no text, because [json.dumps] or [str()] raises,
    nothing is written and the call returns [False]. *)
Theorem send_message_frame_format (rt : runtime) self event_type data w o s :
  objects w !! self = Some o ->
  sockets w !! client_socket o = Some s ->
  connected s = true ->
  (event_type = "ping" ->
   send_message rt self event_type data w
   = Returns true
       (written (client_socket o) s
          (": ping - " +:+ clock w +:+ "+00:00" +:+ CRLF +:+ CRLF) w))
  /\ (event_type <> "ping" ->
      (forall payload, payload_text rt data = Ok payload ->
         send_message rt self event_type data w
         = Returns true
             (written (client_socket o) s (sse_frame (clock w) event_type payload) w)
         /\ sse_frame (clock w) event_type payload
            = (if String.eqb event_type "message" then ""
               else "event: " +:+ event_type +:+ CRLF)
              +:+ "data: " +:+ payload +:+ CRLF +:+ CRLF
         /\ (isinstance_dict data = true ->
             json_dumps rt data = Ok payload /\ single_line payload)
         /\ (isinstance_dict data = false -> Py.str rt data = Ok payload)
         /\ (forall text, data = PStr text -> payload = text))
      /\ (forall e, payload_text rt data = Err e ->
            send_message rt self event_type data w
            = Returns false (deactivated self w)
            /\ sockets (deactivated self w) = sockets w)).
Proof.
  intros Ho Hs Hc. split.
  - intros ->. now rewrite (send_message_ping rt self data w o s).
  - intros Hping%String.eqb_neq. split.
    + intros payload Hpayload. split; [now apply send_message_event|].
      split; [unfold sse_frame; now rewrite Hping|].
      unfold payload_text in Hpayload. split; [|split].
      * intros Hdict. rewrite Hdict in Hpayload. split; [exact Hpayload|].
        apply printable_single_line. now apply (printable_json_dumps rt data).
      * intros Hother. now rewrite Hother in Hpayload.
      * intros text ->. simpl in Hpayload. congruence.
    + intros e Hpayload. split; [|reflexivity].
      now apply (send_message_unserialisable rt self event_type data e).
Qed.

Lemma send_message_frame_format_witness :
  send_message Demo.rt 0 "ping" PNone Demo.w
  = Returns true
      (written 7 Demo.s7
         (": ping - 2026-01-01T00:00:00.000000+00:00" +:+ CRLF +:+ CRLF) Demo.w)
  /\ send_message Demo.rt 0 "endpoint" (PStr "/messages/?session_id=s1") Demo.w
     = Returns true
         (written 7 Demo.s7
            ("event: endpoint" +:+ CRLF +:+ "data: /messages/?session_id=s1"
             +:+ CRLF +:+ CRLF) Demo.w)
  /\ send_message Demo.rt 0 "message" (PDict [("ok", PBool true)]) Demo.w
     = Returns true
         (written 7 Demo.s7
            ("data: {" +:+ json_string "ok" +:+ ": true}" +:+ CRLF +:+ CRLF) Demo.w)
  /\ send_message Demo.rt 0 "message" (PDict [("content", PObject 0)]) Demo.w
     = Returns false (deactivated 0 Demo.w).
Proof.
  split; [|split; [|split]].
  - apply (send_message_frame_format Demo.rt 0 "ping" PNone Demo.w
             (Session "s1" 7 "peer" true) Demo.s7);
      reflexivity.
  - destruct (send_message_frame_format Demo.rt 0 "endpoint"
                (PStr "/messages/?session_id=s1") Demo.w
                (Session "s1" 7 "peer" true) Demo.s7 eq_refl eq_refl eq_refl)
      as [_ Hevent].
    destruct (Hevent ltac:(discriminate)) as [Hframe _].
    destruct (Hframe "/messages/?session_id=s1" eq_refl) as [Hsend _].
    exact Hsend.
  - destruct (send_message_frame_format Demo.rt 0 "message"
                (PDict [("ok", PBool true)]) Demo.w
                (Session "s1" 7 "peer" true) Demo.s7 eq_refl eq_refl eq_refl)
      as [_ Hevent].
    destruct (Hevent ltac:(discriminate)) as [Hframe _].
    destruct (Hframe ("{" +:+ json_string "ok" +:+ ": true}") eq_refl) as [Hsend _].
    exact Hsend.
  - destruct (send_message_frame_format Demo.rt 0 "message"
                (PDict [("content", PObject 0)]) Demo.w
                (Session "s1" 7 "peer" true) Demo.s7 eq_refl eq_refl eq_refl)
      as [_ Hevent].
    destruct (Hevent ltac:(discriminate)) as [_ Hnone].
    destruct (Hnone (Exn TypeError "Object is not JSON serializable") eq_refl)
      as [Hsend _].
    exact Hsend.
Defined.

(** C9.  When the write on the session's connection fails, [send_message]
    returns [False] and the only change is that the session object is
    marked inactive: [active_sessions] is the same dict as before, so the
    session's entry stays registered. *)
Theorem send_message_failure_keeps_registry
    (rt : runtime) self event_type data w o :
  objects w !! self = Some o ->
  write_fails (client_socket o) w ->
  exists w',
    send_message rt self event_type data w = Returns false w'
    /\ w' = deactivated self w
    /\ is_active <$> objects w' !! self = Some false
    /\ active_sessions w' = active_sessions w
    /\ (forall session_id,
          active_sessions w !! session_id = Some self ->
          active_sessions w' !! session_id = Some self).
Proof.
  intros Ho Hfail. exists (deactivated self w). repeat split.
  - now apply (send_message_write_fails rt self event_type data w o).
  - unfold deactivated, set_objects. simpl.
    rewrite lookup_alter_eq, Ho. reflexivity.
  - auto.
Qed.

Lemma send_message_failure_keeps_registry_witness :
  write_fails 8 Demo.w
  /\ exists w',
       send_message Demo.rt 1 "message" (PDict []) Demo.w = Returns false w'
       /\ objects w' !! 1 = Some (Session "s2" 8 "peer" false)
       /\ active_sessions w' !! "s2" = Some 1.
Proof.
  assert (Hfail : write_fails 8 Demo.w) by (intros data; eexists; reflexivity).
  split; [exact Hfail|].
  destruct (send_message_failure_keeps_registry Demo.rt 1 "message" (PDict [])
              Demo.w (Session "s2" 8 "peer" true) eq_refl Hfail)
    as (w' & Hsend & -> & _ & _ & Hkept).
  exists (deactivated 1 Demo.w). split; [exact Hsend|]. split; [reflexivity|].
  apply Hkept. reflexivity.
Defined.

(** ** The message-submit handler *)

Section Messages.

Context (rt : runtime).

Lemma messages_no_query fd address path headers body w s :
  sockets w !! fd = Some s -> connected s = true ->
  find "?" path = None ->
  _handle_messages_request rt fd address path headers body w
  = Returns tt (responded fd s response_400 w).
Proof.
  intros Hs Hc Hfind. unfold _handle_messages_request. rewrite Hfind.
  rewrite <- (sendall_close fd s response_400 w Hs Hc). reflexivity.
Qed.

Lemma messages_unknown_session fd address path headers body w s query_start :
  sockets w !! fd = Some s -> connected s = true ->
  find "?" path = Some query_start ->
  (let session_ids :=
     default [] (dict_get "session_id"
                   (parse_qs (unquote_escaped rt) (str_drop (query_start + 1) path))) in
   session_ids = [] \/ active_sessions w !! hd "" session_ids = None) ->
  _handle_messages_request rt fd address path headers body w
  = Returns tt (responded fd s response_404 w).
Proof.
  intros Hs Hc Hfind Hids. unfold _handle_messages_request. rewrite Hfind.
  rewrite <- (sendall_close fd s response_404 w Hs Hc).
  cbv zeta in Hids. unfold mbind at 1, M_bind at 1. unfold mbind at 1, M_bind at 1.
  unfold get_world at 1.
  destruct Hids as [Hids|Hids].
  - rewrite Hids. reflexivity.
  - rewrite Hids. rewrite (bool_decide_eq_false_2 (is_Some None)) by (now intros [? ?]).
    rewrite andb_false_r. reflexivity.
Qed.

End Messages.

(** C2, amended.  A POST to [/messages/] whose path has no query string at
    all (no [?]) is answered with [400 Bad Request] and the short plain-text
    body, whatever the request body; one whose query string is there but
    holds no [session_id] parameter is answered with [404 Not Found]. *)
Theorem missing_query_is_400_missing_parameter_is_404
    (rt : runtime) fd address path headers body w s :
  sockets w !! fd = Some s ->
  connected s = true ->
  (find "?" path = None ->
   _handle_messages_request rt fd address path headers body w
   = Returns tt (responded fd s response_400 w))
  /\ (forall query_start,
        find "?" path = Some query_start ->
        dict_get "session_id"
          (parse_qs (unquote_escaped rt) (str_drop (query_start + 1) path)) = None ->
        _handle_messages_request rt fd address path headers body w
        = Returns tt (responded fd s response_404 w))
  /\ status_line response_400 = "HTTP/1.1 400 Bad Request"
  /\ find_body response_400 = "Missing session_id param"
  /\ status_line response_404 = "HTTP/1.1 404 Not Found".
Proof.
  intros Hs Hc. split; [|split; [|repeat split]].
  - now apply messages_no_query.
  - intros query_start Hfind Hnone.
    apply (messages_unknown_session rt fd address path headers body w s query_start);
      auto.
    cbv zeta. rewrite Hnone. now left.
Qed.

Lemma missing_query_is_400_missing_parameter_is_404_witness :
  (find "?" "/messages/" = None
   /\ _handle_messages_request Demo.rt 9 "peer" "/messages/" ∅ "{}" Demo.w
      = Returns tt (responded 9 Demo.s9 response_400 Demo.w))
  /\ (find "?" "/messages/?foo=1" = Some 10
      /\ _handle_messages_request Demo.rt 9 "peer" "/messages/?foo=1" ∅ "{}" Demo.w
         = Returns tt (responded 9 Demo.s9 response_404 Demo.w)).
Proof.
  split; (split; [reflexivity|]).
  - apply (missing_query_is_400_missing_parameter_is_404 Demo.rt 9 "peer"
             "/messages/" ∅ "{}" Demo.w Demo.s9 eq_refl eq_refl).
    reflexivity.
  - apply (missing_query_is_400_missing_parameter_is_404 Demo.rt 9 "peer"
             "/messages/?foo=1" ∅ "{}" Demo.w Demo.s9 eq_refl eq_refl) with 10;
      reflexivity.
Defined.

(** C2 as stated fails: the query string [foo=1] holds no [session_id]
    parameter, and the handler answers 404, not 400. *)
Lemma query_without_session_id_is_404 :
  let path := "/messages/?foo=1" in
  find "?" path = Some 10
  /\ str_drop (10 + 1) path = "foo=1"
  /\ parse_qs (unquote_escaped Demo.rt) "foo=1" = [("foo", ["1"])]
  /\ dict_get "session_id" (parse_qs (unquote_escaped Demo.rt) "foo=1") = None
  /\ _handle_messages_request Demo.rt 9 "peer" path ∅ "{}" Demo.w
     = Returns tt (responded 9 Demo.s9 response_404 Demo.w)
  /\ status_line response_404 = "HTTP/1.1 404 Not Found"
  /\ status_line response_404 <> "HTTP/1.1 400 Bad Request".
Proof.
  cbv zeta. do 4 (split; [reflexivity|]).
  split; [vm_compute; reflexivity|]. split; [reflexivity|discriminate].
Qed.

(** C10.  The two fixed error responses of the message-submit handler
    declare a [Content-Length] that is not the length of their body: 13
    against the 15 bytes of [Invalid session] in the 404 response, 22
    against the 24 bytes of [Missing session_id param] in the 400 response.
    These are the bytes the handler writes when the session is unknown and
    when the path has no query string. *)
Theorem error_responses_misdeclare_content_length :
  (declared_content_length response_404 = Some 13
   /\ find_body response_404 = "Invalid session"
   /\ length (encode (find_body response_404)) = 15)
  /\ (declared_content_length response_400 = Some 22
      /\ find_body response_400 = "Missing session_id param"
      /\ length (encode (find_body response_400)) = 24)
  /\ (forall (rt : runtime) fd address path headers body w s,
        sockets w !! fd = Some s -> connected s = true ->
        (find "?" path = None ->
         _handle_messages_request rt fd address path headers body w
         = Returns tt (responded fd s response_400 w))
        /\ (forall query_start session_id,
              find "?" path = Some query_start ->
              dict_get "session_id"
                (parse_qs (unquote_escaped rt) (str_drop (query_start + 1) path))
              = Some [session_id] ->
              active_sessions w !! session_id = None ->
              _handle_messages_request rt fd address path headers body w
              = Returns tt (responded fd s response_404 w))).
Proof.
  split; [repeat split|split; [repeat split|]].
  intros rt fd address path headers body w s Hs Hc. split.
  - now apply messages_no_query.
  - intros query_start session_id Hfind Hids Hunknown.
    apply (messages_unknown_session rt fd address path headers body w s query_start);
      auto.
    cbv zeta. rewrite Hids. now right.
Qed.

Lemma error_responses_misdeclare_content_length_witness :
  _handle_messages_request Demo.rt 9 "peer" "/messages/" ∅ "{}" Demo.w
  = Returns tt (responded 9 Demo.s9 response_400 Demo.w)
  /\ _handle_messages_request Demo.rt 9 "peer" "/messages/?session_id=gone" ∅ "{}" Demo.w
     = Returns tt (responded 9 Demo.s9 response_404 Demo.w).
Proof.
  destruct error_responses_misdeclare_content_length as (_ & _ & Hwritten).
  split.
  - apply (Hwritten Demo.rt 9 "peer" "/messages/" ∅ "{}" Demo.w Demo.s9 eq_refl eq_refl).
    reflexivity.
  - apply (Hwritten Demo.rt 9 "peer" "/messages/?session_id=gone" ∅ "{}" Demo.w
             Demo.s9 eq_refl eq_refl) with 10 "gone"; reflexivity.
Defined.

(** ** Parsing the request *)

Lemma parse_request_line_split line method path version :
  splitn " " 2 line = [method; path; version] ->
  parse_request_line line = Ok (method, path, version).
Proof. unfold parse_request_line. now intros ->. Qed.

Lemma parse_request_line_sentinel line :
  (forall method path version, splitn " " 2 line <> [method; path; version]) ->
  parse_request_line line = Ok ("UNKNOWN", "/", "HTTP/1.1").
Proof.
  intros Hsplit. unfold parse_request_line.
  destruct (splitn " " 2 line) as [|a [|b [|c [|d parts]]]]; try reflexivity.
  now destruct (Hsplit a b c).
Qed.

Lemma parse_request_line_total line : exists triple, parse_request_line line = Ok triple.
Proof.
  unfold parse_request_line.
  destruct (splitn " " 2 line) as [|a [|b [|c [|d parts]]]]; simpl; eauto.
Qed.

Lemma contains_false_find sub s : contains sub s = false -> find sub s = None.
Proof. unfold contains. now destruct (find sub s). Qed.

Lemma parse_headers_skip line rest headers :
  line <> "" ->
  contains ":" line = false ->
  parse_headers (line :: rest) headers = parse_headers rest headers.
Proof.
  intros Hline Hcolon%contains_false_find. simpl.
  destruct (String.eqb_spec line ""); [contradiction|].
  now rewrite Hcolon.
Qed.

Lemma parse_headers_colon line rest headers i :
  line <> "" ->
  find ":" line = Some i ->
  parse_headers (line :: rest) headers
  = parse_headers rest
      (<[lower (strip (str_take i line)) := strip (str_drop (i + 1) line)]> headers).
Proof.
  intros Hline Hcolon. simpl.
  destruct (String.eqb_spec line ""); [contradiction|].
  now rewrite Hcolon.
Qed.

Lemma parse_headers_total lines :
  forall headers, exists parsed, parse_headers lines headers = Ok parsed.
Proof.
  induction lines as [|line rest IH]; intros headers; simpl; [eauto|].
  destruct (String.eqb line ""); [eauto|].
  destruct (find ":" line) as [i|]; simpl; apply IH.
Qed.

Lemma lower_char_not_upper c : negb (is_upper (lower_char c)) = true.
Proof. destruct c as [[] [] [] [] [] [] [] []]; reflexivity. Qed.

Lemma lower_has_no_upper s : all_chars (fun c => negb (is_upper c)) (lower s) = true.
Proof.
  induction s as [|c s IH]; simpl; [reflexivity|].
  now rewrite lower_char_not_upper, IH.
Qed.

(** The catch-all of [_handle_client]: whatever happens inside, the method
    returns. *)
Lemma _handle_client_returns (rt : runtime) uuid4 fd address request_data w :
  exists w', _handle_client rt uuid4 fd address request_data w = Returns tt w'.
Proof.
  unfold _handle_client, try_except.
  match goal with |- context [match ?body w with _ => _ end] =>
    destruct (body w) as [[] w'|e w'] end.
  - eauto.
  - unfold close. run. eauto.
Qed.

(** C8.  Parsing the request text never raises.  A request line that does
    not split on its first two spaces into three parts is replaced by
    [UNKNOWN], [/], [HTTP/1.1]; a header line without a colon is skipped
    and the lines after it are parsed as before; a header line with a colon
    is stored under its stripped name in lower case; and
    [_handle_client] as a whole returns for every byte sequence. *)
Theorem request_parsing_degrades_gracefully :
  (forall line,
     (forall method path version, splitn " " 2 line <> [method; path; version]) ->
     parse_request_line line = Ok ("UNKNOWN", "/", "HTTP/1.1"))
  /\ (forall line method path version,
        splitn " " 2 line = [method; path; version] ->
        parse_request_line line = Ok (method, path, version))
  /\ (forall line rest headers,
        line <> "" -> contains ":" line = false ->
        parse_headers (line :: rest) headers = parse_headers rest headers)
  /\ (forall line rest headers i,
        line <> "" -> find ":" line = Some i ->
        parse_headers (line :: rest) headers
        = parse_headers rest
            (<[lower (strip (str_take i line)) := strip (str_drop (i + 1) line)]>
               headers))
  /\ (forall name, all_chars (fun c => negb (is_upper c)) (lower name) = true)
  /\ (forall line, exists triple, parse_request_line line = Ok triple)
  /\ (forall lines headers, exists parsed, parse_headers lines headers = Ok parsed)
  /\ (forall (rt : runtime) uuid4 fd address request_data w,
        exists w', _handle_client rt uuid4 fd address request_data w = Returns tt w').
Proof.
  split; [exact parse_request_line_sentinel|].
  split; [exact parse_request_line_split|].
  split; [exact parse_headers_skip|].
  split; [exact parse_headers_colon|].
  split; [exact lower_has_no_upper|].
  split; [exact parse_request_line_total|].
  split; [intros lines headers; apply parse_headers_total|].
  exact _handle_client_returns.
Qed.

Lemma request_parsing_degrades_gracefully_witness :
  parse_request_line "GARBAGE" = Ok ("UNKNOWN", "/", "HTTP/1.1")
  /\ parse_request_line "GET /sse HTTP/1.1" = Ok ("GET", "/sse", "HTTP/1.1")
  /\ parse_headers ["NoColonHere"; "Host: X"; ""; "ignored: body"] ∅
     = parse_headers ["Host: X"; ""; "ignored: body"] ∅
  /\ parse_headers ["Host: X"] ∅ = Ok {[ "host" := "X" ]}
  /\ _handle_client Demo.rt "id" 9 "peer" (encode Demo.garbled_request) Demo.w
     = Returns tt (responded 9 Demo.s9 response_hello Demo.w).
Proof.
  destruct request_parsing_degrades_gracefully
    as (Hsentinel & Hsplit & Hskip & Hcolon & _).
  split; [|split; [|split; [|split]]].
  - apply Hsentinel. intros method path version. discriminate.
  - apply Hsplit. reflexivity.
  - apply Hskip; [discriminate|reflexivity].
  - rewrite (Hcolon "Host: X" [] ∅ 4); [reflexivity|discriminate|reflexivity].
  - vm_compute. reflexivity.
Defined.

(** ** One connection, end to end *)

(** A [tools/list] request posted for the open session [s1]: the answer
    goes out on the session's stream, the POST itself gets 202. *)
Example post_tools_list :
  _handle_client Demo.rt "unused" 9 "peer"
    (encode (Demo.post "/messages/?session_id=s1" (Demo.text_of Demo.list_6))) Demo.w
  = Returns tt
      (responded 9 Demo.s9 response_202
         (written 7 Demo.s7
            ("data: "
             +:+ Demo.text_of
                   (result_response (PStr "2.0") (PInt 6)
                      (PDict [("tools", PList [tool_entry ("echo", Demo.echo);
                                               tool_entry ("boom", Demo.boom)])]))
             +:+ CRLF +:+ CRLF)
            Demo.w)).
Proof. vm_compute. reflexivity. Qed.

(** [GET /sse] registers a session under the drawn id and announces the
    endpoint on the connection, which stays open. *)
Example get_sse :
  exists w',
    _handle_client Demo.rt "0123abcd" 9 "peer"
      (encode ("GET /sse HTTP/1.1" +:+ CRLF +:+ "Accept: text/event-stream" +:+ CRLF2))
      Demo.w
    = Returns tt w'
    /\ sockets w' !! 9
       = Some (Socket true
                 [encode sse_response_headers;
                  encode ("event: endpoint" +:+ CRLF
                          +:+ "data: /messages/?session_id=0123abcd" +:+ CRLF2)])
    /\ (exists session,
          active_sessions w' !! "0123abcd" = Some session
          /\ objects w' !! session = Some (Session "0123abcd" 9 "peer" true)).
Proof.
  eexists. split; [vm_compute; reflexivity|].
  split; [vm_compute; reflexivity|].
  eexists. split; vm_compute; reflexivity.
Qed.

(** A POST for a session whose stream is gone still gets 202; the failed
    write only marks the session inactive. *)
Example post_to_dead_session :
  _handle_client Demo.rt "unused" 9 "peer"
    (encode (Demo.post "/messages/?session_id=s2" (Demo.text_of Demo.list_6))) Demo.w
  = Returns tt (responded 9 Demo.s9 response_202 (deactivated 1 Demo.w)).
Proof. vm_compute. reflexivity. Qed.

(** Registering a name twice keeps one entry, the later one, in the place
    of the first. *)
Example register_tool_replaces :
  (register_tool "echo" "Echo, again" (PDict []) (handler Demo.boom)) Demo.w
  = Returns tt
      (set_tool_handlers
         (fun _ => [("echo", Tool "Echo, again" (PDict []) (handler Demo.boom));
                    ("boom", Demo.boom)])
         Demo.w).
Proof. reflexivity. Qed.

(** Removing a session closes its socket and drops the entry; removing it
    again changes nothing. *)
Example remove_session_twice :
  exists w',
    _remove_session "s1" Demo.w = Returns tt w'
    /\ active_sessions w' !! "s1" = None
    /\ sockets w' !! 7 = Some (Socket false [])
    /\ _remove_session "s1" w' = Returns tt w'.
Proof.
  eexists. split; [vm_compute; reflexivity|].
  repeat split; vm_compute; reflexivity.
Qed.

(** * Further properties *)

(** ** What one send can change *)

Section Effects.

Context (rt : runtime).

Lemma send_message_effect self event_type data w :
  (send_message rt self event_type data w = Returns false (deactivated self w))
  \/ (exists o s text,
        objects w !! self = Some o
        /\ sockets w !! client_socket o = Some s
        /\ connected s = true
        /\ send_message rt self event_type data w
           = Returns true (written (client_socket o) s text w)).
Proof.
  destruct (String.eqb event_type "ping") eqn:Hping.
  - apply String.eqb_eq in Hping as ->.
    destruct (objects w !! self) as [o|] eqn:Ho;
      [|left; now apply send_message_no_object].
    destruct (sockets w !! client_socket o) as [s|] eqn:Hs.
    + destruct (connected s) eqn:Hc.
      * right. exists o, s. eexists. do 3 (split; [first [assumption|reflexivity]|]).
        now apply send_message_ping.
      * left. apply (send_message_write_fails rt self "ping" data w o Ho).
        apply write_fails_unconnected. intros s' Hs'. congruence.
    + left. apply (send_message_write_fails rt self "ping" data w o Ho).
      apply write_fails_unconnected. intros s' Hs'. congruence.
  - destruct (send_message_cases rt self event_type data w Hping)
      as [->|(o & s & text & Ho & Hs & Hc & _ & ->)]; [now left|].
    right. exists o, s. eexists. auto.
Qed.

End Effects.

Section MoreDispatch.

Context (rt : runtime).

Lemma _send_response_effect session_id response w :
  (active_sessions w !! session_id = None
   /\ _send_response rt session_id response w = Returns tt w)
  \/ (exists self,
        active_sessions w !! session_id = Some self
        /\ (_send_response rt session_id response w = Returns tt (deactivated self w)
            \/ exists o s text,
                 objects w !! self = Some o
                 /\ sockets w !! client_socket o = Some s
                 /\ connected s = true
                 /\ _send_response rt session_id response w
                    = Returns tt (written (client_socket o) s text w))).
Proof.
  unfold _send_response. run.
  destruct (active_sessions w !! session_id) as [self|]; [right|left; auto].
  exists self. split; [reflexivity|].
  destruct (send_message_effect rt self "message" response w)
    as [->|(o & s & text & Ho & Hs & Hc & ->)]; [now left|].
  right. exists o, s, text. auto.
Qed.
Lemma dispatcher_sends_at_most_once session_id request_data w :
  _handle_jsonrpc_request rt session_id request_data w = Returns tt w
  \/ exists response,
       isinstance_dict response = true
       /\ _handle_jsonrpc_request rt session_id request_data w
          = _send_response rt session_id response w.
Proof.
  unfold _handle_jsonrpc_request.
  match goal with |- context [try_except ?b ?h] => set (body := b); set (on_error := h) end.
  assert (Hbody : (exists e, body w = Raises e w) \/ body w = Returns tt w
                  \/ exists response, isinstance_dict response = true
                       /\ body w = _send_response rt session_id response w).
  { subst body. run.
    destruct (json_loads rt request_data) as [request|]; [|left; eauto].
    simpl. destruct request as [ | | | | | |fields| ]; simpl; try (left; eauto; fail).
    destruct (Py.str rt (default (PStr "") (dict_get "method" fields)))
      as [method_text|e]; simpl; [|left; eauto].
    destruct (Py.str rt (default PNone (dict_get "id" fields)))
      as [id_text|e]; simpl; [|left; eauto].
    destruct (eq_str _ "initialize").
    { destruct (default (PDict []) (dict_get "params" fields)); simpl;
        try (left; eauto; fail).
      right; right. eexists. split; [|reflexivity]. reflexivity. }
    destruct (eq_str _ "notifications/initialized"); [right; left; reflexivity|].
    destruct (eq_str _ "tools/list").
    { right; right. eexists. split; [|reflexivity]. reflexivity. }
    destruct (eq_str _ "tools/run" || eq_str _ "tools/call").
    { destruct (default (PDict []) (dict_get "params" fields)) as [ | | | | | |params| ];
        simpl; try (left; eauto; fail).
      destruct (contains_key _ (tool_handlers w)) as [[]|e] eqn:Hkey; simpl;
        [| |left; eauto].
      - right; right.
        destruct (getitem (tool_handlers w) _) as [entry|]; simpl.
        + destruct (handler entry _) as [result|e]; simpl.
          * exists (result_response (default (PStr "2.0") (dict_get "jsonrpc" fields))
                      (default PNone (dict_get "id" fields)) result).
            split; [reflexivity|].
            destruct (_send_response_returns rt session_id
                        (result_response (default (PStr "2.0") (dict_get "jsonrpc" fields))
                           (default PNone (dict_get "id" fields)) result) w) as [w' ->].
            reflexivity.
          * eexists. split; [|reflexivity]. reflexivity.
        + eexists. split; [|reflexivity]. reflexivity.
      - destruct (Py.str rt _) as [name_text|e]; simpl; [|left; eauto].
        right; right. eexists. split; [|reflexivity]. reflexivity. }
    destruct (is_not_None _); [|right; left; reflexivity].
    right; right. eexists. split; [|reflexivity]. reflexivity. }
  unfold try_except.
  destruct Hbody as [[e ->]|[->|(response & Hd & ->)]].
  - left. subst on_error. simpl. now destruct (is_JSONDecodeError e).
  - now left.
  - right. exists response. split; [exact Hd|].
    now destruct (_send_response_returns rt session_id response w) as [w' ->].
Qed.

End MoreDispatch.

Lemma socket_eta s : Socket (connected s) (sent s ++ []) = s.
Proof. destruct s. simpl. now rewrite app_nil_r. Qed.

(** The three things a dispatch can do to the world: nothing, mark the
    addressed session inactive, or write one chunk on its connection. *)
Lemma dispatcher_effect (rt : runtime) session_id request_data w :
  exists w',
    _handle_jsonrpc_request rt session_id request_data w = Returns tt w'
    /\ (w' = w
        \/ exists self,
             active_sessions w !! session_id = Some self
             /\ (w' = deactivated self w
                 \/ exists o s text,
                      objects w !! self = Some o
                      /\ sockets w !! client_socket o = Some s
                      /\ connected s = true
                      /\ w' = written (client_socket o) s text w)).
Proof.
  destruct (dispatcher_sends_at_most_once rt session_id request_data w)
    as [->|(response & _ & ->)]; [exists w; auto|].
  destruct (_send_response_effect rt session_id response w)
    as [[Hnone ->]|(self & Hself & [->|(o & s & text & Ho & Hs & Hc & ->)])].
  - exists w. auto.
  - exists (deactivated self w). split; [reflexivity|]. right. exists self. auto.
  - exists (written (client_socket o) s text w). split; [reflexivity|].
    right. exists self. split; [exact Hself|]. right. exists o, s, text. auto.
Qed.

(** A dispatch leaves the sockets of other connections alone. *)
Lemma dispatcher_keeps_other_sockets (rt : runtime) session_id request_data w self o fd :
  active_sessions w !! session_id = Some self ->
  objects w !! self = Some o ->
  fd <> client_socket o ->
  exists w',
    _handle_jsonrpc_request rt session_id request_data w = Returns tt w'
    /\ sockets w' !! fd = sockets w !! fd.
Proof.
  intros Hself Ho Hfd.
  destruct (dispatcher_effect rt session_id request_data w)
    as (w' & Hrun & [->|(self' & Hself' & [->|(o' & s & text & Ho' & _ & _ & ->)])]).
  - exists w. auto.
  - exists (deactivated self' w). auto.
  - exists (written (client_socket o') s text w). split; [exact Hrun|].
    assert (self' = self) by congruence. subst self'.
    assert (o' = o) by congruence. subst o'.
    simpl. now rewrite lookup_insert_ne.
Qed.

(** X5.  Whatever the request text, the dispatcher returns normally, leaves
    the registry and the tools as they are, and writes at most one frame,
    which goes to the connection of the addressed session: every other
    socket and every other session object is untouched, and with no such
    session nothing changes at all. *)
Theorem dispatcher_touches_only_its_session (rt : runtime) session_id request_data w :
  exists w',
    _handle_jsonrpc_request rt session_id request_data w = Returns tt w'
    /\ active_sessions w' = active_sessions w
    /\ tool_handlers w' = tool_handlers w
    /\ (active_sessions w !! session_id = None -> w' = w)
    /\ (forall self o,
          active_sessions w !! session_id = Some self ->
          objects w !! self = Some o ->
          (forall fd, fd <> client_socket o -> sockets w' !! fd = sockets w !! fd)
          /\ (forall other, other <> self -> objects w' !! other = objects w !! other)
          /\ exists frames,
               length frames <= 1
               /\ sockets w' !! client_socket o
                  = (fun s => Socket (connected s) (sent s ++ frames))
                      <$> sockets w !! client_socket o).
Proof.
  assert (Hsame : forall fd,
            sockets w !! fd
            = (fun s => Socket (connected s) (sent s ++ [])) <$> sockets w !! fd).
  { intros fd. destruct (sockets w !! fd) as [s|]; simpl; [|reflexivity].
    now rewrite socket_eta. }
  destruct (dispatcher_effect rt session_id request_data w)
    as (w' & Hrun & [->|(self & Hself & [->|(o & s & text & Ho & Hs & Hc & ->)])]).
  - exists w. do 4 (split; [auto|]). intros self o _ _.
    split; [auto|]. split; [auto|]. exists []. split; [simpl; lia|apply Hsame].
  - exists (deactivated self w). split; [exact Hrun|]. do 2 (split; [reflexivity|]).
    split; [intros Hnone; congruence|].
    intros self' o' Hself' Ho'.
    assert (self' = self) by congruence. subst self'.
    split; [auto|]. split.
    + intros other Hother. simpl. now rewrite lookup_alter_ne.
    + exists []. split; [simpl; lia|apply Hsame].
  - exists (written (client_socket o) s text w). split; [exact Hrun|].
    do 2 (split; [reflexivity|]).
    split; [intros Hnone; congruence|].
    intros self' o' Hself' Ho'.
    assert (self' = self) by congruence. subst self'.
    assert (o' = o) by congruence. subst o'.
    split; [|split; [auto|]].
    + intros fd Hfd. simpl. now rewrite lookup_insert_ne.
    + exists [encode text]. split; [simpl; lia|].
      simpl. rewrite lookup_insert_eq, Hs. simpl. now rewrite Hc.
Qed.

Lemma dispatcher_touches_only_its_session_witness :
  _handle_jsonrpc_request Demo.rt "nobody" (Demo.text_of Demo.list_6) Demo.w
  = Returns tt Demo.w
  /\ exists w',
       _handle_jsonrpc_request Demo.rt "s1" (Demo.text_of Demo.list_6) Demo.w
       = Returns tt w'
       /\ sockets w' !! 9 = Some Demo.s9
       /\ objects w' !! 1 = Some (Session "s2" 8 "peer" true)
       /\ active_sessions w' = active_sessions Demo.w.
Proof.
  split.
  - destruct (dispatcher_touches_only_its_session Demo.rt "nobody"
                (Demo.text_of Demo.list_6) Demo.w)
      as (w' & Hrun & _ & _ & Hnone & _).
    rewrite Hrun, (Hnone eq_refl). reflexivity.
  - destruct (dispatcher_touches_only_its_session Demo.rt "s1"
                (Demo.text_of Demo.list_6) Demo.w)
      as (w' & Hrun & Hregistry & _ & _ & Hframe).
    exists w'. split; [exact Hrun|].
    destruct (Hframe 0 (Session "s1" 7 "peer" true) eq_refl eq_refl)
      as (Hsockets & Hobjects & _).
    split; [rewrite Hsockets; [reflexivity|discriminate]|].
    split; [rewrite Hobjects; [reflexivity|discriminate]|exact Hregistry].
Defined.

(** X3.  A request whose method is a string the dispatcher does not know
    is answered with the error object of code [-32601] and message
    [Method not found: <method>] when its [id] is not [None]: when the
    stream of the session is up and the response has a JSON text, the one
    frame written on the stream is the [data:] line with that text.  With
    an [id] that is absent or [null] nothing is sent, and in no case does
    the request draw a frame other than that response. *)
Theorem unknown_method_is_reported
    (rt : runtime) session_id request_data fields method w :
  json_loads rt request_data = Some (PDict fields) ->
  method_of fields = PStr method ->
  recognized (PStr method) = false ->
  let response :=
    PDict [("jsonrpc", jsonrpc_of fields); ("id", id_of fields);
           ("error", PDict [("code", PInt (-32601));
                            ("message", PStr ("Method not found: " +:+ method))])] in
  (forall self o s id_text text,
     is_not_None (id_of fields) = true ->
     active_sessions w !! session_id = Some self ->
     objects w !! self = Some o ->
     sockets w !! client_socket o = Some s ->
     connected s = true ->
     Py.str rt (id_of fields) = Ok id_text ->
     json_dumps rt response = Ok text ->
     _handle_jsonrpc_request rt session_id request_data w
     = Returns tt (written (client_socket o) s ("data: " +:+ text +:+ CRLF +:+ CRLF) w))
  /\ (id_of fields = PNone ->
      _handle_jsonrpc_request rt session_id request_data w = Returns tt w)
  /\ (exists w',
        _handle_jsonrpc_request rt session_id request_data w = Returns tt w'
        /\ (sockets w' = sockets w
            \/ (is_not_None (id_of fields) = true
                /\ answered rt session_id response w w'))).
Proof.
  intros Hloads Hmethod Hunknown response.
  assert (Hrecognized : recognized (method_of fields) = false) by now rewrite Hmethod.
  assert (Hstr : Py.str rt (method_of fields) = Ok method) by now rewrite Hmethod.
  assert (Hsends : is_not_None (id_of fields) = true ->
            forall id_text,
              Py.str rt (id_of fields) = Ok id_text ->
              _handle_jsonrpc_request rt session_id request_data w
              = _send_response rt session_id response w).
  { intros Hid id_text Hid_text.
    rewrite (dispatch_unknown_method rt session_id request_data fields method id_text w
               Hloads Hrecognized Hstr Hid_text).
    now rewrite Hid. }
  split; [|split].
  - intros self o s id_text text Hid.
    apply (dispatch_answer rt session_id request_data fields _ w Hloads (Hsends Hid)).
  - intros Hid.
    now apply (dispatch_unknown_no_id rt session_id request_data fields).
  - destruct (is_not_None (id_of fields)) eqn:Hid.
    + destruct (dispatch_answer rt session_id request_data fields _ w Hloads
                  (Hsends eq_refl)) as (_ & w' & Hrun & Hw').
      exists w'. split; [exact Hrun|].
      destruct Hw' as [Hsame|Hanswered]; [now left|now right].
    + exists w. split; [|now left].
      apply (dispatch_unknown_no_id rt session_id request_data fields w Hloads
               Hrecognized).
      now destruct (id_of fields).
Qed.

Lemma unknown_method_is_reported_witness :
  _handle_jsonrpc_request Demo2.rt "s1" (Demo.text_of Demo2.ping_7) Demo.w
  = Returns tt
      (written 7 Demo.s7
         ("data: "
          +:+ Demo.text_of
                (PDict [("jsonrpc", PStr "2.0"); ("id", PInt 7);
                        ("error",
                         PDict [("code", PInt (-32601));
                                ("message", PStr "Method not found: ping")])])
          +:+ CRLF +:+ CRLF)
         Demo.w)
  /\ _handle_jsonrpc_request Demo2.rt "s1" (Demo.text_of Demo2.ping_null) Demo.w
     = Returns tt Demo.w.
Proof.
  split.
  - destruct (unknown_method_is_reported Demo2.rt "s1" (Demo.text_of Demo2.ping_7)
                [("jsonrpc", PStr "2.0"); ("id", PInt 7); ("method", PStr "ping")]
                "ping" Demo.w eq_refl eq_refl eq_refl) as [Hsent _].
    exact (Hsent 0 (Session "s1" 7 "peer" true) Demo.s7 "7"
             (Demo.text_of
                (PDict [("jsonrpc", PStr "2.0"); ("id", PInt 7);
                        ("error",
                         PDict [("code", PInt (-32601));
                                ("message", PStr "Method not found: ping")])]))
             eq_refl eq_refl eq_refl eq_refl eq_refl eq_refl eq_refl).
  - destruct (unknown_method_is_reported Demo2.rt "s1" (Demo.text_of Demo2.ping_null)
                [("jsonrpc", PStr "2.0"); ("id", PNone); ("method", PStr "ping")]
                "ping" Demo.w eq_refl eq_refl eq_refl) as (_ & Hsilent & _).
    exact (Hsilent eq_refl).
Defined.

(** X4.  A request that cannot be processed is dropped without any frame,
    error frames included: a body that is not JSON, a JSON document that is
    not an object, params that are not an object where the method reads
    them ([initialize], [tools/call], [tools/run]), and a tool name that is
    a list or an object. *)
Theorem malformed_request_is_dropped (rt : runtime) session_id request_data w :
  json_loads rt request_data = None
  \/ (exists document,
        json_loads rt request_data = Some document
        /\ isinstance_dict document = false)
  \/ (exists fields,
        json_loads rt request_data = Some (PDict fields)
        /\ (method_of fields = PStr "initialize"
            \/ method_of fields = PStr "tools/call"
            \/ method_of fields = PStr "tools/run")
        /\ isinstance_dict (params_of fields) = false)
  \/ (exists fields params,
        json_loads rt request_data = Some (PDict fields)
        /\ (method_of fields = PStr "tools/call" \/ method_of fields = PStr "tools/run")
        /\ params_of fields = PDict params
        /\ unhashable (name_of params) = true) ->
  _handle_jsonrpc_request rt session_id request_data w = Returns tt w.
Proof.
  intros [Hloads|[(document & Hloads & Hdict)|[(fields & Hloads & Hmethod & Hparams)
         |(fields & params & Hloads & Hmethod & Hparams & Hname)]]].
  - unfold _handle_jsonrpc_request. run. now rewrite Hloads.
  - unfold _handle_jsonrpc_request. run. rewrite Hloads. now destruct document.
  - now apply (dispatch_params_not_object rt session_id request_data fields).
  - now apply (dispatch_name_unhashable rt session_id request_data fields params).
Qed.

Lemma malformed_request_is_dropped_witness :
  _handle_jsonrpc_request Demo2.rt "s1" "{not json" Demo.w = Returns tt Demo.w
  /\ _handle_jsonrpc_request Demo2.rt "s1" (Demo.text_of Demo2.array_document) Demo.w
     = Returns tt Demo.w
  /\ _handle_jsonrpc_request Demo2.rt "s1" (Demo.text_of Demo2.initialize_array) Demo.w
     = Returns tt Demo.w
  /\ _handle_jsonrpc_request Demo2.rt "s1" (Demo.text_of Demo2.call_array_name) Demo.w
     = Returns tt Demo.w.
Proof.
  split; [|split; [|split]]; apply malformed_request_is_dropped.
  - left. reflexivity.
  - right; left. exists Demo2.array_document. split; reflexivity.
  - right; right; left.
    exists [("jsonrpc", PStr "2.0"); ("id", PInt 8); ("method", PStr "initialize");
            ("params", PList [])].
    split; [reflexivity|]. split; [left; reflexivity|reflexivity].
  - right; right; right.
    exists [("jsonrpc", PStr "2.0"); ("id", PInt 9); ("method", PStr "tools/call");
            ("params", PDict [("name", PList [PStr "echo"])])],
           [("name", PList [PStr "echo"])].
    split; [reflexivity|]. split; [left; reflexivity|]. split; reflexivity.
Defined.

Lemma json_dumps_response_raises rt jsonrpc request_id result e :
  json_dumps rt result = Err e ->
  exists e', json_dumps rt (result_response jsonrpc request_id result) = Err e'.
Proof.
  unfold json_dumps, result_response.
  destruct (json_max_depth rt) as [|depth]; [eauto|].
  intros (e' & H)%json_encode_shallower. simpl.
  destruct (json_encode _ depth jsonrpc); simpl; [|eauto].
  destruct (json_encode _ depth request_id); simpl; [|eauto].
  rewrite H. simpl. eauto.
Qed.

(** X6.  When the handler returns a value that [json.dumps] rejects, no
    frame at all goes out, neither the result nor an error: [send_message]
    swallows the failure, and the only effect is that the session is marked
    inactive (not even that when the log line of line 203 cannot be
    formatted, which drops the request before the handler is called). *)
Theorem unserialisable_result_sends_nothing
    (rt : runtime) session_id request_data fields params name entry result e self w :
  json_loads rt request_data = Some (PDict fields) ->
  method_of fields = PStr "tools/call" \/ method_of fields = PStr "tools/run" ->
  params_of fields = PDict params ->
  name_of params = PStr name ->
  dict_get name (tool_handlers w) = Some entry ->
  handler entry (arguments_of params) = Ok result ->
  json_dumps rt result = Err e ->
  active_sessions w !! session_id = Some self ->
  (forall id_text,
     Py.str rt (id_of fields) = Ok id_text ->
     _handle_jsonrpc_request rt session_id request_data w
     = Returns tt (deactivated self w)
     /\ sockets (deactivated self w) = sockets w)
  /\ (exists w',
        _handle_jsonrpc_request rt session_id request_data w = Returns tt w'
        /\ sockets w' = sockets w).
Proof.
  intros Hloads Hmethod Hparams Hname Hentry Hresult Hdumps Hself.
  assert (Hsilent : forall id_text,
            Py.str rt (id_of fields) = Ok id_text ->
            _handle_jsonrpc_request rt session_id request_data w
            = Returns tt (deactivated self w)).
  { intros id_text Hid.
    rewrite (dispatch_tool_result rt session_id request_data fields params name entry
               result id_text w Hloads Hmethod Hparams Hname Hentry Hresult Hid).
    unfold _send_response. run. rewrite Hself.
    destruct (json_dumps_response_raises rt (jsonrpc_of fields) (id_of fields) result e
                Hdumps) as [e' He'].
    now rewrite (send_message_unserialisable rt self "message"
                   (result_response (jsonrpc_of fields) (id_of fields) result)
                   e' w eq_refl He'). }
  split.
  - intros id_text Hid. split; [now apply (Hsilent id_text)|reflexivity].
  - destruct (Py.str rt (id_of fields)) as [id_text|e'] eqn:Hid.
    + exists (deactivated self w). split; [now apply (Hsilent id_text)|reflexivity].
    + exists w. split; [|reflexivity].
      apply (dispatch_log_raises rt session_id request_data fields); eauto.
Qed.

Lemma unserialisable_result_sends_nothing_witness :
  handler Demo2.opaque (PDict []) = Ok (PDict [("content", PObject 0)])
  /\ _handle_jsonrpc_request Demo2.rt "s1" (Demo.text_of Demo2.call_opaque) Demo2.w
     = Returns tt (deactivated 0 Demo2.w).
Proof.
  split; [reflexivity|].
  destruct (unserialisable_result_sends_nothing Demo2.rt "s1"
              (Demo.text_of Demo2.call_opaque)
              (("jsonrpc", PStr "2.0") :: ("id", PInt 10) :: Demo.call "tools/call" "opaque")
              [("name", PStr "opaque")] "opaque" Demo2.opaque
              (PDict [("content", PObject 0)])
              (Exn TypeError "Object is not JSON serializable") 0 Demo2.w
              eq_refl (or_introl eq_refl) eq_refl eq_refl eq_refl eq_refl eq_refl eq_refl)
    as [Hsilent _].
  destruct (Hsilent "10" eq_refl) as [Hrun _].
  exact Hrun.
Defined.

(** ** The tool registry *)

Lemma dict_get_set_eq {V} key (v : V) d : dict_get key (dict_set key v d) = Some v.
Proof.
  induction d as [|[k v0] d IH]; simpl.
  - now rewrite String.eqb_refl.
  - destruct (String.eqb k key) eqn:E; simpl; now rewrite E.
Qed.

Lemma dict_get_set_ne {V} key other (v : V) d :
  other <> key -> dict_get other (dict_set key v d) = dict_get other d.
Proof.
  intros Hne. induction d as [|[k v0] d IH]; simpl.
  - destruct (String.eqb_spec key other); [congruence|reflexivity].
  - destruct (String.eqb_spec k key) as [->|Hk]; simpl.
    + destruct (String.eqb_spec key other); [congruence|reflexivity].
    + now rewrite IH.
Qed.

Lemma dict_set_new {V} key (v : V) d :
  dict_get key d = None -> dict_set key v d = (d ++ [(key, v)])%list.
Proof.
  induction d as [|[k v0] d IH]; simpl; [reflexivity|].
  destruct (String.eqb k key); [discriminate|].
  intros H. now rewrite IH.
Qed.

Lemma dict_set_keys {V} key (v : V) d :
  is_Some (dict_get key d) -> map fst (dict_set key v d) = map fst d.
Proof.
  induction d as [|[k v0] d IH]; simpl; [now intros [? ?]|].
  destruct (String.eqb k key); [reflexivity|].
  intros H. simpl. now rewrite IH.
Qed.

(** X1.  [register_tool] is last writer wins: the name then maps to the new
    entry and every other name to what it mapped before; a new name goes to
    the end of the registry, a known name keeps the order of the names. *)
Theorem register_tool_last_writer_wins name description input_schema handler w :
  let entry := Tool description input_schema handler in
  exists w',
    register_tool name description input_schema handler w = Returns tt w'
    /\ dict_get name (tool_handlers w') = Some entry
    /\ (forall other, other <> name ->
          dict_get other (tool_handlers w') = dict_get other (tool_handlers w))
    /\ (dict_get name (tool_handlers w) = None ->
        tool_handlers w' = (tool_handlers w ++ [(name, entry)])%list)
    /\ (is_Some (dict_get name (tool_handlers w)) ->
        map fst (tool_handlers w') = map fst (tool_handlers w))
    /\ active_sessions w' = active_sessions w
    /\ sockets w' = sockets w.
Proof.
  intros entry. eexists. split; [reflexivity|]. simpl.
  split; [apply dict_get_set_eq|].
  split; [intros other Hne; now apply dict_get_set_ne|].
  split; [apply dict_set_new|].
  split; [apply dict_set_keys|]. auto.
Qed.

Lemma register_tool_last_writer_wins_witness :
  exists w',
    register_tool "echo" "Echo, again" (PDict []) (handler Demo.boom) Demo.w
    = Returns tt w'
    /\ map fst (tool_handlers w') = ["echo"; "boom"]
    /\ (description <$> dict_get "echo" (tool_handlers w')) = Some "Echo, again"
    /\ dict_get "boom" (tool_handlers w') = Some Demo.boom.
Proof.
  destruct (register_tool_last_writer_wins "echo" "Echo, again" (PDict [])
              (handler Demo.boom) Demo.w)
    as (w' & Hrun & Hnew & Hothers & _ & Hkeys & _).
  exists w'. split; [exact Hrun|]. split; [|split].
  - rewrite Hkeys; [reflexivity|]. now eexists.
  - now rewrite Hnew.
  - rewrite Hothers; [reflexivity|discriminate].
Defined.

(** X2.  [tools/list] answers with one entry per registered tool, in the
    order of the registry, each made of the name, the description and the
    input schema of the tool: when the stream of the session is up and the
    response has a JSON text, the one frame written on the stream is the
    [data:] line with that text; and in no case does the request draw any
    other frame. *)
Theorem tools_list_enumerates_registry
    (rt : runtime) session_id request_data fields w :
  json_loads rt request_data = Some (PDict fields) ->
  method_of fields = PStr "tools/list" ->
  exists tools,
    length tools = length (tool_handlers w)
    /\ (forall i name entry,
          tool_handlers w !! i = Some (name, entry) ->
          tools !! i
          = Some (PDict [("name", PStr name);
                         ("description", PStr (description entry));
                         ("inputSchema", input_schema entry)]))
    /\ let response :=
         PDict [("jsonrpc", jsonrpc_of fields); ("id", id_of fields);
                ("result", PDict [("tools", PList tools)])] in
       (forall self o s id_text text,
          active_sessions w !! session_id = Some self ->
          objects w !! self = Some o ->
          sockets w !! client_socket o = Some s ->
          connected s = true ->
          Py.str rt (id_of fields) = Ok id_text ->
          json_dumps rt response = Ok text ->
          _handle_jsonrpc_request rt session_id request_data w
          = Returns tt
              (written (client_socket o) s ("data: " +:+ text +:+ CRLF +:+ CRLF) w))
       /\ (exists w',
             _handle_jsonrpc_request rt session_id request_data w = Returns tt w'
             /\ (sockets w' = sockets w \/ answered rt session_id response w w')).
Proof.
  intros Hloads Hmethod. exists (map tool_entry (tool_handlers w)).
  split; [apply length_map|]. split.
  - intros i name entry Hi.
    change (map tool_entry (tool_handlers w)) with (tool_entry <$> tool_handlers w).
    rewrite list_lookup_fmap. unfold dict in Hi. now rewrite Hi.
  - apply (dispatch_answer rt session_id request_data fields); [exact Hloads|].
    intros id_text Hid.
    now apply (dispatch_tools_list rt session_id request_data fields id_text).
Qed.

Lemma tools_list_enumerates_registry_witness :
  _handle_jsonrpc_request Demo2.rt "s1" (Demo.text_of Demo.list_6) Demo.w
  = Returns tt
      (written 7 Demo.s7
         ("data: "
          +:+ Demo.text_of
                (PDict [("jsonrpc", PStr "2.0"); ("id", PInt 6);
                        ("result",
                         PDict [("tools",
                                 PList [PDict [("name", PStr "echo");
                                               ("description", PStr "Echo");
                                               ("inputSchema", PDict [])];
                                        PDict [("name", PStr "boom");
                                               ("description", PStr "Boom");
                                               ("inputSchema", PDict [])]])])])
          +:+ CRLF +:+ CRLF)
         Demo.w).
Proof.
  destruct (tools_list_enumerates_registry Demo2.rt "s1" (Demo.text_of Demo.list_6)
              [("jsonrpc", PStr "2.0"); ("id", PInt 6); ("method", PStr "tools/list")]
              Demo.w eq_refl eq_refl) as (tools & Hlength & Hentries & Hsent & _).
  assert (Htools : tools
                   = [PDict [("name", PStr "echo"); ("description", PStr "Echo");
                             ("inputSchema", PDict [])];
                      PDict [("name", PStr "boom"); ("description", PStr "Boom");
                             ("inputSchema", PDict [])]]).
  { pose proof (Hentries 0 "echo" Demo.echo eq_refl) as H0.
    pose proof (Hentries 1 "boom" Demo.boom eq_refl) as H1.
    destruct tools as [|t0 [|t1 [|t2 tools]]]; try discriminate.
    simpl in H0, H1. congruence. }
  subst tools.
  exact (Hsent 0 (Session "s1" 7 "peer" true) Demo.s7 "6" _
           eq_refl eq_refl eq_refl eq_refl eq_refl eq_refl).
Defined.

(** ** The message-submit handler, accepted *)

(** The accepting branch of the handler, once the outcome [w1] of the
    dispatch is known. *)
Lemma messages_accepted
    (rt : runtime) fd address path headers body w w1 s query_start session_id more :
  find "?" path = Some query_start ->
  default [] (dict_get "session_id"
                (parse_qs (unquote_escaped rt) (str_drop (query_start + 1) path)))
  = session_id :: more ->
  is_Some (active_sessions w !! session_id) ->
  (if bool_decide (headers !! "content-type" = Some "application/json")
   then _handle_jsonrpc_request rt session_id body w = Returns tt w1
   else w1 = w) ->
  sockets w1 !! fd = Some s ->
  connected s = true ->
  _handle_messages_request rt fd address path headers body w
  = Returns tt (responded fd s response_202 w1).
Proof.
  intros Hfind Hids Hself Hdispatch Hs Hc.
  rewrite <- (sendall_close fd s response_202 w1 Hs Hc).
  unfold _handle_messages_request. rewrite Hfind. cbv zeta. rewrite Hids.
  unfold mbind at 1, M_bind at 1. unfold mbind at 1, M_bind at 1.
  unfold get_world at 1.
  rewrite (bool_decide_eq_false_2 (session_id :: more = [])) by discriminate.
  rewrite (bool_decide_eq_true_2 (is_Some (active_sessions w !! session_id)))
    by exact Hself.
  cbn [negb andb hd].
  destruct (bool_decide (headers !! "content-type" = Some "application/json")).
  - unfold mbind at 1, M_bind at 1. rewrite Hdispatch. reflexivity.
  - subst w1. reflexivity.
Qed.

(** X7.  A POST whose first [session_id] names a registered session gets
    [202 Accepted] on its own connection, which is then closed, whatever
    the dispatcher did: the body is dispatched to the session when the
    [content-type] header is exactly [application/json], and ignored
    otherwise. *)
Theorem accepted_post_gets_202
    (rt : runtime) fd address path headers body w s query_start session_id more self o :
  find "?" path = Some query_start ->
  default [] (dict_get "session_id"
                (parse_qs (unquote_escaped rt) (str_drop (query_start + 1) path)))
  = session_id :: more ->
  active_sessions w !! session_id = Some self ->
  objects w !! self = Some o ->
  fd <> client_socket o ->
  sockets w !! fd = Some s ->
  connected s = true ->
  exists w1,
    (if bool_decide (headers !! "content-type" = Some "application/json")
     then _handle_jsonrpc_request rt session_id body w = Returns tt w1
     else w1 = w)
    /\ _handle_messages_request rt fd address path headers body w
       = Returns tt (responded fd s response_202 w1).
Proof.
  intros Hfind Hids Hself Ho Hfd Hs Hc.
  destruct (dispatcher_keeps_other_sockets rt session_id body w self o fd Hself Ho Hfd)
    as (w1 & Hrun & Hsockets).
  destruct (bool_decide (headers !! "content-type" = Some "application/json")) eqn:Hjson.
  - exists w1. split; [exact Hrun|].
    apply (messages_accepted rt fd address path headers body w w1 s
             query_start session_id more Hfind Hids);
      [rewrite Hself; eauto|now rewrite Hjson|now rewrite Hsockets|exact Hc].
  - exists w. split; [reflexivity|].
    apply (messages_accepted rt fd address path headers body w w s
             query_start session_id more Hfind Hids);
      [rewrite Hself; eauto|now rewrite Hjson|exact Hs|exact Hc].
Qed.

Lemma accepted_post_gets_202_witness :
  _handle_messages_request Demo.rt 9 "peer" "/messages/?session_id=s1"
    {[ "content-type" := "text/plain" ]} "ignored" Demo.w
  = Returns tt (responded 9 Demo.s9 response_202 Demo.w).
Proof.
  destruct (accepted_post_gets_202 Demo.rt 9 "peer" "/messages/?session_id=s1"
              {[ "content-type" := "text/plain" ]} "ignored" Demo.w Demo.s9
              10 "s1" [] 0 (Session "s1" 7 "peer" true)
              eq_refl eq_refl eq_refl eq_refl ltac:(discriminate) eq_refl eq_refl)
    as (w1 & Hw1 & Hrun).
  vm_compute in Hw1. subst w1. exact Hrun.
Defined.

(** ** The session registry *)

Lemma fresh_object w : objects w !! fresh (dom (objects w)) = None.
Proof. apply not_elem_of_dom, is_fresh. Qed.

Lemma _create_session_returns session_id fd address w :
  let self := fresh (dom (objects w)) in
  _create_session session_id fd address w
  = Returns session_id
      (set_active_sessions <[session_id := self]>
         (set_objects <[self := Session session_id fd address true]> w)).
Proof. reflexivity. Qed.

(** X8.  [_create_session] allocates a fresh session object, active and
    bound to the given socket, and files it under the given id; the other
    entries of the registry, the other objects, the sockets and the tools
    stay as they are. *)
Theorem create_session_registers session_id fd address w :
  exists self w',
    _create_session session_id fd address w = Returns session_id w'
    /\ objects w !! self = None
    /\ active_sessions w' !! session_id = Some self
    /\ objects w' !! self = Some (Session session_id fd address true)
    /\ (forall other, other <> session_id ->
          active_sessions w' !! other = active_sessions w !! other)
    /\ (forall address', address' <> self -> objects w' !! address' = objects w !! address')
    /\ sockets w' = sockets w
    /\ tool_handlers w' = tool_handlers w.
Proof.
  exists (fresh (dom (objects w))). eexists.
  split; [apply _create_session_returns|]. simpl.
  split; [apply fresh_object|].
  split; [apply lookup_insert_eq|].
  split; [apply lookup_insert_eq|].
  split; [intros other Hne; now apply lookup_insert_ne|].
  split; [intros address' Hne; now apply lookup_insert_ne|]. auto.
Qed.

Lemma create_session_registers_witness :
  exists self w',
    _create_session "s3" 9 "peer" Demo.w = Returns "s3" w'
    /\ active_sessions w' !! "s3" = Some self
    /\ objects w' !! self = Some (Session "s3" 9 "peer" true)
    /\ active_sessions w' !! "s1" = Some 0.
Proof.
  destruct (create_session_registers "s3" 9 "peer" Demo.w)
    as (self & w' & Hrun & _ & Hnew & Hobject & Hothers & _).
  exists self, w'. split; [exact Hrun|]. split; [exact Hnew|]. split; [exact Hobject|].
  rewrite Hothers; [reflexivity|discriminate].
Defined.

Lemma close_returns fd w : close fd w = Returns tt (closed fd w).
Proof. reflexivity. Qed.

Lemma _remove_session_absent session_id w :
  active_sessions w !! session_id = None -> _remove_session session_id w = Returns tt w.
Proof. intros H. unfold _remove_session. run. now rewrite H. Qed.

Lemma _remove_session_present session_id self o w :
  active_sessions w !! session_id = Some self ->
  objects w !! self = Some o ->
  _remove_session session_id w
  = Returns tt (set_active_sessions (delete session_id) (closed (client_socket o) w)).
Proof. intros Hself Ho. unfold _remove_session. run. now rewrite Hself, Ho. Qed.

Lemma _remove_session_dangling session_id self w :
  active_sessions w !! session_id = Some self ->
  objects w !! self = None ->
  _remove_session session_id w = Returns tt (set_active_sessions (delete session_id) w).
Proof. intros Hself Ho. unfold _remove_session. run. now rewrite Hself, Ho. Qed.

(** The three ways [_remove_session] can go. *)
Lemma _remove_session_cases session_id w :
  (active_sessions w !! session_id = None
   /\ _remove_session session_id w = Returns tt w)
  \/ (exists self o,
        active_sessions w !! session_id = Some self
        /\ objects w !! self = Some o
        /\ _remove_session session_id w
           = Returns tt (set_active_sessions (delete session_id)
                           (closed (client_socket o) w)))
  \/ (exists self,
        active_sessions w !! session_id = Some self
        /\ objects w !! self = None
        /\ _remove_session session_id w
           = Returns tt (set_active_sessions (delete session_id) w)).
Proof.
  destruct (active_sessions w !! session_id) as [self|] eqn:Hself.
  - destruct (objects w !! self) as [o|] eqn:Ho.
    + right; left. exists self, o. split; [reflexivity|]. split; [exact Ho|].
      now apply (_remove_session_present session_id self o).
    + right; right. exists self. split; [reflexivity|]. split; [exact Ho|].
      now apply (_remove_session_dangling session_id self).
  - left. split; [reflexivity|]. now apply _remove_session_absent.
Qed.

(** X9.  [_remove_session] deletes the entry of the id and closes the
    socket of its session, leaving the objects and the tools alone; on an
    id that is not registered it changes nothing, so that removing twice is
    the same as removing once. *)
Theorem remove_session_is_idempotent session_id w :
  exists w',
    _remove_session session_id w = Returns tt w'
    /\ active_sessions w' = delete session_id (active_sessions w)
    /\ objects w' = objects w
    /\ tool_handlers w' = tool_handlers w
    /\ (active_sessions w !! session_id = None -> w' = w)
    /\ (forall self o,
          active_sessions w !! session_id = Some self ->
          objects w !! self = Some o ->
          sockets w' = alter (fun s => Socket false (sent s)) (client_socket o) (sockets w))
    /\ _remove_session session_id w' = Returns tt w'.
Proof.
  destruct (_remove_session_cases session_id w)
    as [[Hnone Hrun]|[(self & o & Hself & Ho & Hrun)|(self & Hself & Ho & Hrun)]].
  - exists w. split; [exact Hrun|].
    split; [symmetry; now apply delete_id|].
    do 3 (split; [reflexivity|]). split; [intros self o Hself; congruence|exact Hrun].
  - eexists. split; [exact Hrun|].
    simpl. do 3 (split; [reflexivity|]). split; [intros Hnone; congruence|].
    split; [intros self' o' Hself' Ho'; congruence|].
    apply _remove_session_absent. simpl. apply lookup_delete_eq.
  - eexists. split; [exact Hrun|].
    simpl. do 3 (split; [reflexivity|]). split; [intros Hnone; congruence|].
    split; [intros self' o' Hself' Ho'; congruence|].
    apply _remove_session_absent. simpl. apply lookup_delete_eq.
Qed.

Lemma remove_session_is_idempotent_witness :
  exists w',
    _remove_session "s1" Demo.w = Returns tt w'
    /\ active_sessions w' !! "s1" = None
    /\ active_sessions w' !! "s2" = Some 1
    /\ sockets w' !! 7 = Some (Socket false [])
    /\ _remove_session "s1" w' = Returns tt w'
    /\ _remove_session "nobody" Demo.w = Returns tt Demo.w.
Proof.
  destruct (remove_session_is_idempotent "s1" Demo.w)
    as (w' & Hrun & Hgone & _ & _ & _ & Hclosed & Hagain).
  exists w'. split; [exact Hrun|].
  rewrite Hgone, (Hclosed 0 (Session "s1" 7 "peer" true) eq_refl eq_refl).
  split; [reflexivity|]. split; [reflexivity|]. split; [reflexivity|].
  split; [exact Hagain|].
  destruct (remove_session_is_idempotent "nobody" Demo.w)
    as (w'' & Hrun' & _ & _ & _ & Habsent & _).
  rewrite Hrun'. f_equal. now apply Habsent.
Defined.

(** X10.  Creating a session under an id that is free and removing it again
    gives back the registry as it was; what remains is that the socket is
    closed. *)
Theorem create_then_remove_restores_registry session_id fd address w :
  active_sessions w !! session_id = None ->
  exists w2,
    (_create_session session_id fd address ≫= _remove_session) w = Returns tt w2
    /\ active_sessions w2 = active_sessions w
    /\ sockets w2 = alter (fun s => Socket false (sent s)) fd (sockets w)
    /\ tool_handlers w2 = tool_handlers w.
Proof.
  intros Hfree.
  unfold mbind at 1, M_bind at 1. rewrite _create_session_returns. cbv zeta.
  erewrite _remove_session_present;
    [|simpl; apply lookup_insert_eq|simpl; apply lookup_insert_eq].
  eexists. split; [reflexivity|]. simpl.
  split; [|split; reflexivity].
  now rewrite delete_insert_eq, delete_id.
Qed.

Lemma create_then_remove_restores_registry_witness :
  exists w2,
    (_create_session "s3" 9 "peer" ≫= _remove_session) Demo.w = Returns tt w2
    /\ active_sessions w2 = active_sessions Demo.w
    /\ sockets w2 !! 9 = Some (Socket false []).
Proof.
  destruct (create_then_remove_restores_registry "s3" 9 "peer" Demo.w eq_refl)
    as (w2 & Hrun & Hregistry & Hsockets & _).
  exists w2. split; [exact Hrun|]. split; [exact Hregistry|].
  rewrite Hsockets. reflexivity.
Defined.

(** ** [shutdown] *)

Lemma only_closed_refl sockets : only_closed sockets sockets.
Proof. intros fd. now left. Qed.

Lemma only_closed_alter fd sockets :
  only_closed sockets (alter (fun s => Socket false (sent s)) fd sockets).
Proof.
  intros fd'. destruct (decide (fd = fd')) as [->|Hne].
  - rewrite lookup_alter_eq. destruct (sockets !! fd') as [s|]; [right; eauto|now left].
  - rewrite lookup_alter_ne by exact Hne. now left.
Qed.

Lemma only_closed_trans a b c : only_closed a b -> only_closed b c -> only_closed a c.
Proof.
  intros Hab Hbc fd.
  destruct (Hab fd) as [Hb|(s & Ha & Hb)], (Hbc fd) as [Hc|(s' & Hb' & Hc)].
  - left. congruence.
  - right. exists s'. split; congruence.
  - right. exists s. split; congruence.
  - right. exists s. split; [exact Ha|]. rewrite Hc. rewrite Hb in Hb'.
    inversion Hb'. reflexivity.
Qed.

Lemma only_closed_closed a b fd s :
  only_closed a b -> a !! fd = Some (Socket false (sent s)) ->
  b !! fd = Some (Socket false (sent s)).
Proof.
  intros Hab Ha. destruct (Hab fd) as [Hb|(s' & Ha' & Hb)]; [congruence|].
  rewrite Hb. rewrite Ha in Ha'. now inversion Ha'.
Qed.

(** All that one [_remove_session] does. *)
Lemma _remove_session_effect session_id w :
  exists w',
    _remove_session session_id w = Returns tt w'
    /\ active_sessions w' = delete session_id (active_sessions w)
    /\ objects w' = objects w
    /\ tool_handlers w' = tool_handlers w
    /\ running w' = running w
    /\ only_closed (sockets w) (sockets w')
    /\ (forall self o,
          active_sessions w !! session_id = Some self ->
          objects w !! self = Some o ->
          sockets w' = alter (fun s => Socket false (sent s)) (client_socket o) (sockets w)).
Proof.
  destruct (_remove_session_cases session_id w)
    as [[Hnone Hrun]|[(self & o & Hself & Ho & Hrun)|(self & Hself & Ho & Hrun)]].
  - exists w. split; [exact Hrun|].
    split; [symmetry; now apply delete_id|].
    do 3 (split; [reflexivity|]). split; [apply only_closed_refl|].
    intros self o Hself. congruence.
  - eexists. split; [exact Hrun|]. simpl. do 4 (split; [reflexivity|]).
    split; [apply only_closed_alter|]. intros self' o' Hself' Ho'. congruence.
  - eexists. split; [exact Hrun|]. simpl. do 4 (split; [reflexivity|]).
    split; [apply only_closed_refl|]. intros self' o' Hself' Ho'. congruence.
Qed.

(** The loop of [shutdown] over any list of ids. *)
Lemma remove_sessions_effect session_ids :
  forall w,
  exists w',
    remove_sessions session_ids w = Returns tt w'
    /\ active_sessions w' = foldl (fun registry id => delete id registry)
                                  (active_sessions w) session_ids
    /\ objects w' = objects w
    /\ tool_handlers w' = tool_handlers w
    /\ running w' = running w
    /\ only_closed (sockets w) (sockets w')
    /\ (forall id self o s,
          id ∈ session_ids ->
          active_sessions w !! id = Some self ->
          objects w !! self = Some o ->
          sockets w !! client_socket o = Some s ->
          sockets w' !! client_socket o = Some (Socket false (sent s))).
Proof.
  induction session_ids as [|id0 rest IH]; intros w.
  - exists w. split; [reflexivity|]. do 4 (split; [reflexivity|]).
    split; [apply only_closed_refl|]. intros id self o s Hin. now apply elem_of_nil in Hin.
  - destruct (_remove_session_effect id0 w)
      as (w1 & Hrun1 & Hregistry1 & Hobjects1 & Htools1 & Hrunning1 & Hsockets1 & Hclosed1).
    destruct (IH w1) as (w' & Hrun & Hregistry & Hobjects & Htools & Hrunning
                         & Hsockets & Hclosed).
    exists w'. split.
    { simpl. unfold mbind at 1, M_bind at 1. now rewrite Hrun1. }
    split; [simpl; now rewrite Hregistry, Hregistry1|].
    split; [congruence|]. split; [congruence|]. split; [congruence|].
    split; [now apply (only_closed_trans _ (sockets w1))|].
    intros id self o s Hin Hself Ho Hs.
    destruct (decide (id = id0)) as [->|Hne].
    + apply (only_closed_closed (sockets w1)); [exact Hsockets|].
      rewrite (Hclosed1 self o Hself Ho), lookup_alter_eq, Hs. reflexivity.
    + apply elem_of_cons in Hin as [Heq|Hin]; [contradiction|].
      destruct (Hsockets1 (client_socket o)) as [Hsame|(s1 & Hs1 & Hs1')].
      * apply (Hclosed id self o s Hin).
        -- rewrite Hregistry1. now rewrite lookup_delete_ne.
        -- congruence.
        -- congruence.
      * assert (s1 = s) by congruence. subst s1.
        now apply (only_closed_closed (sockets w1)).
Qed.

Lemma foldl_delete_lookup (registry : gmap string nat) session_ids id :
  foldl (fun registry id => delete id registry) registry session_ids !! id
  = if bool_decide (id ∈ session_ids) then None else registry !! id.
Proof.
  revert registry. induction session_ids as [|id0 rest IH]; intros registry;
    cbn [foldl].
  - case_bool_decide as Hin; [now apply elem_of_nil in Hin|reflexivity].
  - rewrite IH. case_bool_decide as Hrest; case_bool_decide as Hall.
    + reflexivity.
    + destruct Hall. now apply list_elem_of_further.
    + apply elem_of_cons in Hall as [->|Hin]; [apply lookup_delete_eq|contradiction].
    + apply lookup_delete_ne. intros ->. apply Hall, list_elem_of_here.
Qed.

Lemma session_keys_complete w id self :
  active_sessions w !! id = Some self -> id ∈ session_keys w.
Proof.
  intros H. unfold session_keys.
  change (map fst (map_to_list (active_sessions w)))
    with (fst <$> map_to_list (active_sessions w)).
  apply list_elem_of_fmap. exists (id, self). split; [reflexivity|].
  now apply elem_of_map_to_list.
Qed.

(** X11.  [shutdown] clears the running flag, empties the registry and
    closes the socket of every session that was registered, without
    writing on any socket; objects and tools are left as they are. *)
Theorem shutdown_clears_registry w :
  exists w',
    shutdown w = Returns tt w'
    /\ running w' = false
    /\ active_sessions w' = ∅
    /\ objects w' = objects w
    /\ tool_handlers w' = tool_handlers w
    /\ (forall id self o s,
          active_sessions w !! id = Some self ->
          objects w !! self = Some o ->
          sockets w !! client_socket o = Some s ->
          sockets w' !! client_socket o = Some (Socket false (sent s)))
    /\ (forall fd,
          sockets w' !! fd = sockets w !! fd
          \/ exists s, sockets w !! fd = Some s
                       /\ sockets w' !! fd = Some (Socket false (sent s))).
Proof.
  destruct (remove_sessions_effect (session_keys (set_running false w)) (set_running false w))
    as (w' & Hrun & Hregistry & Hobjects & Htools & Hrunning & Hsockets & Hclosed).
  exists w'. split.
  { unfold shutdown. run. now rewrite Hrun. }
  split; [exact Hrunning|].
  split.
  { apply map_eq. intros id. rewrite Hregistry, foldl_delete_lookup, lookup_empty.
    destruct (bool_decide (id ∈ session_keys (set_running false w))) eqn:E; [reflexivity|].
    apply bool_decide_eq_false_1 in E.
    destruct (active_sessions (set_running false w) !! id) as [self|] eqn:Hself;
      [|reflexivity].
    destruct E. now apply (session_keys_complete _ id self). }
  split; [exact Hobjects|]. split; [exact Htools|].
  split; [|exact Hsockets].
  intros id self o s Hself Ho Hs.
  apply (Hclosed id self o s); auto.
  now apply (session_keys_complete _ id self).
Qed.

Lemma shutdown_clears_registry_witness :
  exists w',
    shutdown Demo.w = Returns tt w'
    /\ running w' = false
    /\ active_sessions w' = ∅
    /\ sockets w' !! 7 = Some (Socket false [])
    /\ sockets w' !! 8 = Some (Socket false []).
Proof.
  destruct (shutdown_clears_registry Demo.w)
    as (w' & Hrun & Hrunning & Hregistry & _ & _ & Hclosed & _).
  exists w'. split; [exact Hrun|]. split; [exact Hrunning|]. split; [exact Hregistry|].
  split.
  - apply (Hclosed "s1" 0 (Session "s1" 7 "peer" true) (Socket true []));
      reflexivity.
  - apply (Hclosed "s2" 1 (Session "s2" 8 "peer" true) (Socket false []));
      reflexivity.
Defined.

(** ** The keep-alive loop *)

Section KeepAliveFacts.

Context (rt : runtime).

Lemma ping_condition_true session_id self o w :
  running w = true ->
  active_sessions w !! session_id = Some self ->
  objects w !! self = Some o ->
  ping_condition session_id w = Returns (is_active o) w.
Proof. intros Hr Hs Ho. unfold ping_condition. run. now rewrite Hr, Hs, Ho. Qed.

End KeepAliveFacts.

(** X12.  One round of the keep-alive loop on a running server and an
    active session: with the connection up it writes the ping comment frame
    and the loop goes on; with the write failing the loop ends in that
    round, the session is marked inactive but stays in the registry, and a
    loop started afterwards ends at once. *)
Theorem keep_alive_round (rt : runtime) session_id self o w :
  running w = true ->
  active_sessions w !! session_id = Some self ->
  objects w !! self = Some o ->
  is_active o = true ->
  (forall s,
     sockets w !! client_socket o = Some s -> connected s = true ->
     ping_loop rt 1 session_id w
     = Returns false
         (written (client_socket o) s
            (": ping - " +:+ clock w +:+ "+00:00" +:+ CRLF +:+ CRLF) w))
  /\ (write_fails (client_socket o) w ->
      forall rounds,
        ping_loop rt (S rounds) session_id w = Returns true (deactivated self w)
        /\ active_sessions (deactivated self w) !! session_id = Some self
        /\ forall more,
             ping_loop rt (S more) session_id (deactivated self w)
             = Returns true (deactivated self w)).
Proof.
  intros Hrunning Hself Ho Hactive. split.
  - intros s Hs Hc. simpl. unfold mbind at 1, M_bind at 1.
    rewrite (ping_condition_true session_id self o w Hrunning Hself Ho), Hactive.
    run. rewrite Hself, Ho, Hactive.
    now rewrite (send_message_ping rt self PNone w o s Ho Hs Hc).
  - intros Hfail rounds. split; [|split; [exact Hself|]].
    + simpl. unfold mbind at 1, M_bind at 1.
      rewrite (ping_condition_true session_id self o w Hrunning Hself Ho), Hactive.
      run. rewrite Hself, Ho, Hactive.
      now rewrite (send_message_write_fails rt self "ping" PNone w o Ho Hfail).
    + intros more. simpl. unfold mbind at 1, M_bind at 1.
      rewrite (ping_condition_true session_id self
                 (Session (sid o) (client_socket o) (client_address o) false)
                 (deactivated self w) Hrunning Hself).
      * reflexivity.
      * simpl. now rewrite lookup_alter_eq, Ho.
Qed.

Lemma keep_alive_round_witness :
  ping_loop Demo.rt 1 "s1" Demo.w
  = Returns false
      (written 7 Demo.s7
         (": ping - 2026-01-01T00:00:00.000000+00:00" +:+ CRLF +:+ CRLF) Demo.w)
  /\ ping_loop Demo.rt 5 "s2" Demo.w = Returns true (deactivated 1 Demo.w)
  /\ ping_loop Demo.rt 5 "s2" (deactivated 1 Demo.w) = Returns true (deactivated 1 Demo.w).
Proof.
  split; [|split].
  - apply (keep_alive_round Demo.rt "s1" 0 (Session "s1" 7 "peer" true) Demo.w
             eq_refl eq_refl eq_refl eq_refl); reflexivity.
  - apply (keep_alive_round Demo.rt "s2" 1 (Session "s2" 8 "peer" true) Demo.w
             eq_refl eq_refl eq_refl eq_refl).
    intros data. eexists. reflexivity.
  - apply (keep_alive_round Demo.rt "s2" 1 (Session "s2" 8 "peer" true) Demo.w
             eq_refl eq_refl eq_refl eq_refl); [|exact 0].
    intros data. eexists. reflexivity.
Defined.

(** X13.  The keep-alive loop ends before its first ping, with no effect,
    when the server is not running, when the session is not registered, or
    when the session is inactive. *)
Theorem keep_alive_ends_without_a_live_session (rt : runtime) session_id w rounds :
  running w = false
  \/ active_sessions w !! session_id = None
  \/ (exists self o,
        active_sessions w !! session_id = Some self
        /\ objects w !! self = Some o
        /\ is_active o = false) ->
  ping_loop rt (S rounds) session_id w = Returns true w.
Proof.
  intros [Hstopped|[Hgone|(self & o & Hself & Ho & Hinactive)]];
    simpl; unfold mbind at 1, M_bind at 1; unfold ping_condition; run.
  - now rewrite Hstopped.
  - rewrite Hgone. now destruct (running w).
  - rewrite Hself. destruct (running w); [|reflexivity].
    simpl. now rewrite Ho, Hinactive.
Qed.

Lemma keep_alive_ends_without_a_live_session_witness :
  ping_loop Demo.rt 3 "nobody" Demo.w = Returns true Demo.w
  /\ ping_loop Demo.rt 3 "s1" (set_running false Demo.w)
     = Returns true (set_running false Demo.w).
Proof.
  split.
  - apply keep_alive_ends_without_a_live_session. right; left. reflexivity.
  - apply keep_alive_ends_without_a_live_session. left. reflexivity.
Defined.

(** ** Opening an SSE stream *)

(** The world after the two writes of [_handle_sse_request]. *)
Lemma _handle_sse_request_connected uuid4 fd address w s :
  sockets w !! fd = Some s ->
  connected s = true ->
  let self := fresh (dom (objects w)) in
  _handle_sse_request uuid4 fd address w
  = Returns tt
      (set_sockets
         <[fd := Socket true
                   (sent s ++ [encode sse_response_headers; encode (endpoint_event uuid4)])]>
         (set_active_sessions <[uuid4 := self]>
            (set_objects <[self := Session uuid4 fd address true]> w))).
Proof.
  intros Hs Hc self. unfold _handle_sse_request.
  unfold mbind at 1, M_bind at 1. rewrite _create_session_returns. cbv zeta. run.
  rewrite (sendall_connected fd s) by (simpl; auto).
  rewrite (sendall_connected fd (Socket true (sent s ++ [encode sse_response_headers])));
    [|simpl; apply lookup_insert_eq|reflexivity].
  unfold set_sockets. simpl. rewrite insert_insert_eq, <- app_assoc. reflexivity.
Qed.

(** X14.  [_handle_sse_request] on a connection that is up registers an
    active session under the drawn id and writes two chunks on the
    connection, the response head and the [endpoint] event whose data is
    [/messages/?session_id=<id>]; the connection is left open, other
    sessions and sockets are untouched. *)
Theorem sse_open_announces_endpoint uuid4 fd address w s :
  sockets w !! fd = Some s ->
  connected s = true ->
  exists self w',
    _handle_sse_request uuid4 fd address w = Returns tt w'
    /\ active_sessions w' !! uuid4 = Some self
    /\ objects w' !! self = Some (Session uuid4 fd address true)
    /\ sockets w' !! fd
       = Some (Socket true
                 (sent s ++ [encode sse_response_headers; encode (endpoint_event uuid4)]))
    /\ (forall other, other <> uuid4 ->
          active_sessions w' !! other = active_sessions w !! other)
    /\ (forall other, other <> fd -> sockets w' !! other = sockets w !! other).
Proof.
  intros Hs Hc.
  pose proof (_handle_sse_request_connected uuid4 fd address w s Hs Hc) as Hopen.
  cbv zeta in Hopen. exists (fresh (dom (objects w))). eexists.
  split; [exact Hopen|]. simpl.
  split; [apply lookup_insert_eq|].
  split; [apply lookup_insert_eq|].
  split; [apply lookup_insert_eq|].
  split; [intros other Hne; now apply lookup_insert_ne|].
  intros other Hne. apply lookup_insert_ne. congruence.
Qed.

Lemma sse_open_announces_endpoint_witness :
  exists self w',
    _handle_sse_request "0123abcd" 9 "peer" Demo.w = Returns tt w'
    /\ active_sessions w' !! "0123abcd" = Some self
    /\ sockets w' !! 9
       = Some (Socket true
                 [encode sse_response_headers;
                  encode ("event: endpoint" +:+ CRLF
                          +:+ "data: /messages/?session_id=0123abcd" +:+ CRLF +:+ CRLF)]).
Proof.
  destruct (sse_open_announces_endpoint "0123abcd" 9 "peer" Demo.w Demo.s9
              eq_refl eq_refl) as (self & w' & Hrun & Hself & _ & Hsent & _).
  exists self, w'. split; [exact Hrun|]. split; [exact Hself|]. exact Hsent.
Defined.

(** ** Routing in [_handle_client] *)

Lemma _handle_client_routes (rt : runtime) uuid4 fd address request_data w
    request_line header_lines method path version :
  request_data <> [] ->
  split CRLF (decode rt request_data) = request_line :: header_lines ->
  parse_request_line request_line = Ok (method, path, version) ->
  exists headers,
    parse_headers header_lines ∅ = Ok headers
    /\ _handle_client rt uuid4 fd address request_data w
       = try_except
           (if String.eqb method "GET" && String.eqb path "/sse" then
              _handle_sse_request uuid4 fd address
            else if String.eqb method "POST" && startswith path "/messages/" then
              _handle_messages_request rt fd address path headers
                (find_body (decode rt request_data))
            else _handle_default_request fd)
           (fun e => try_except (close fd) (fun _ => mret tt)) w.
Proof.
  intros Hdata Hsplit Hline.
  destruct (parse_headers_total header_lines ∅) as [headers Hheaders].
  exists headers. split; [exact Hheaders|].
  unfold _handle_client.
  rewrite (bool_decide_eq_false_2 (request_data = [])) by exact Hdata.
  rewrite Hsplit.
  unfold try_except, mbind, M_bind, MCPLogger_log, mret, M_ret.
  rewrite Hline, Hheaders. reflexivity.
Qed.

(** X15.  When the first write of a [GET /sse] fails, [_handle_client]
    closes the socket, but the session created before the write stays in
    the registry, active: nothing on this path removes it. *)
Theorem sse_open_write_failure_keeps_session
    (rt : runtime) uuid4 fd address request_data w request_line header_lines version :
  request_data <> [] ->
  split CRLF (decode rt request_data) = request_line :: header_lines ->
  parse_request_line request_line = Ok ("GET", "/sse", version) ->
  (forall s, sockets w !! fd = Some s -> connected s = false) ->
  exists self w',
    _handle_client rt uuid4 fd address request_data w = Returns tt w'
    /\ active_sessions w' !! uuid4 = Some self
    /\ objects w' !! self = Some (Session uuid4 fd address true)
    /\ sockets w' = alter (fun s => Socket false (sent s)) fd (sockets w).
Proof.
  intros Hdata Hsplit Hline Hdead.
  destruct (_handle_client_routes rt uuid4 fd address request_data w
              request_line header_lines "GET" "/sse" version Hdata Hsplit Hline)
    as (headers & _ & ->).
  exists (fresh (dom (objects w))).
  exists (closed fd
            (set_active_sessions <[uuid4 := fresh (dom (objects w))]>
               (set_objects
                  <[fresh (dom (objects w)) := Session uuid4 fd address true]> w))).
  split; [|split; [apply lookup_insert_eq|split; [apply lookup_insert_eq|reflexivity]]].
  simpl. unfold try_except, _handle_sse_request.
  unfold mbind at 1, M_bind at 1. rewrite _create_session_returns. cbv zeta.
  unfold mbind, M_bind, MCPLogger_log, mret, M_ret.
  unfold sendall. simpl sockets.
  destruct (sockets w !! fd) as [s|] eqn:Hs; [|reflexivity].
  now rewrite (Hdead s eq_refl).
Qed.

Lemma sse_open_write_failure_keeps_session_witness :
  exists self w',
    _handle_client Demo.rt "0123abcd" 8 "peer"
      (encode ("GET /sse HTTP/1.1" +:+ CRLF2)) Demo.w
    = Returns tt w'
    /\ active_sessions w' !! "0123abcd" = Some self
    /\ sockets w' !! 8 = Some (Socket false []).
Proof.
  destruct (sse_open_write_failure_keeps_session Demo.rt "0123abcd" 8 "peer"
              (encode ("GET /sse HTTP/1.1" +:+ CRLF2)) Demo.w
              "GET /sse HTTP/1.1" [""; ""] "HTTP/1.1"
              ltac:(discriminate) eq_refl eq_refl)
    as (self & w' & Hrun & Hself & _ & Hsockets).
  - intros s Hs. vm_compute in Hs. now inversion Hs.
  - exists self, w'. split; [exact Hrun|]. split; [exact Hself|].
    rewrite Hsockets. reflexivity.
Defined.

(** X18.  A request that is neither [GET /sse] nor a POST under
    [/messages/] is answered with the fixed [Hello World] response and the
    connection is closed; when the write fails the connection is closed
    with nothing sent. *)
Theorem unrouted_request_gets_hello
    (rt : runtime) uuid4 fd address request_data w
    request_line header_lines method path version :
  request_data <> [] ->
  split CRLF (decode rt request_data) = request_line :: header_lines ->
  parse_request_line request_line = Ok (method, path, version) ->
  String.eqb method "GET" && String.eqb path "/sse" = false ->
  String.eqb method "POST" && startswith path "/messages/" = false ->
  (forall s,
     sockets w !! fd = Some s -> connected s = true ->
     _handle_client rt uuid4 fd address request_data w
     = Returns tt (responded fd s response_hello w))
  /\ (forall s,
        sockets w !! fd = Some s -> connected s = false ->
        _handle_client rt uuid4 fd address request_data w = Returns tt (closed fd w)).
Proof.
  intros Hdata Hsplit Hline Hsse Hmessages.
  destruct (_handle_client_routes rt uuid4 fd address request_data w
              request_line header_lines method path version Hdata Hsplit Hline)
    as (headers & _ & ->).
  rewrite Hsse, Hmessages. unfold _handle_default_request. split.
  - intros s Hs Hc. apply try_except_returns. now apply sendall_close.
  - intros s Hs Hc. unfold try_except, mbind, M_bind, sendall. now rewrite Hs, Hc.
Qed.

Lemma unrouted_request_gets_hello_witness :
  _handle_client Demo.rt "unused" 9 "peer" (encode ("GET / HTTP/1.1" +:+ CRLF2)) Demo.w
  = Returns tt (responded 9 Demo.s9 response_hello Demo.w)
  /\ _handle_client Demo.rt "unused" 8 "peer" (encode ("GET / HTTP/1.1" +:+ CRLF2)) Demo.w
     = Returns tt (closed 8 Demo.w).
Proof.
  split.
  - apply (unrouted_request_gets_hello Demo.rt "unused" 9 "peer"
             (encode ("GET / HTTP/1.1" +:+ CRLF2)) Demo.w
             "GET / HTTP/1.1" [""; ""] "GET" "/" "HTTP/1.1"
             ltac:(discriminate) eq_refl eq_refl eq_refl eq_refl); reflexivity.
  - apply (unrouted_request_gets_hello Demo.rt "unused" 8 "peer"
             (encode ("GET / HTTP/1.1" +:+ CRLF2)) Demo.w
             "GET / HTTP/1.1" [""; ""] "GET" "/" "HTTP/1.1"
             ltac:(discriminate) eq_refl eq_refl eq_refl eq_refl) with (Socket false []);
      reflexivity.
Defined.

(** A connection closed by the peer before a byte arrived: the method
    returns at once and leaves the socket as it is. *)
Lemma empty_read_is_ignored (rt : runtime) uuid4 fd address w :
  _handle_client rt uuid4 fd address [] w = Returns tt w.
Proof. reflexivity. Qed.

(** X17.  Once a session has been removed, a POST that names it is answered
    with [404 Not Found]. *)
Theorem removed_session_is_rejected
    (rt : runtime) session_id fd address path headers body w query_start more :
  find "?" path = Some query_start ->
  default [] (dict_get "session_id"
                (parse_qs (unquote_escaped rt) (str_drop (query_start + 1) path)))
  = session_id :: more ->
  exists w1,
    _remove_session session_id w = Returns tt w1
    /\ forall s,
         sockets w1 !! fd = Some s -> connected s = true ->
         _handle_messages_request rt fd address path headers body w1
         = Returns tt (responded fd s response_404 w1).
Proof.
  intros Hfind Hids.
  destruct (_remove_session_effect session_id w) as (w1 & Hrun & Hregistry & _).
  exists w1. split; [exact Hrun|]. intros s Hs Hc.
  apply (messages_unknown_session rt fd address path headers body w1 s query_start);
    auto.
  cbv zeta. rewrite Hids. right. simpl. rewrite Hregistry. apply lookup_delete_eq.
Qed.

Lemma removed_session_is_rejected_witness :
  exists w1,
    _remove_session "s1" Demo.w = Returns tt w1
    /\ _handle_messages_request Demo.rt 9 "peer" "/messages/?session_id=s1" ∅
         (Demo.text_of Demo.list_6) w1
       = Returns tt (responded 9 Demo.s9 response_404 w1).
Proof.
  destruct (removed_session_is_rejected Demo.rt "s1" 9 "peer"
              "/messages/?session_id=s1" ∅ (Demo.text_of Demo.list_6) Demo.w 10 []
              eq_refl eq_refl) as (w1 & Hrun & Hrejected).
  exists w1. split; [exact Hrun|]. apply Hrejected.
  - inversion Hrun. reflexivity.
  - reflexivity.
Defined.

(** ** [find] cuts a text at the first occurrence *)

Lemma app_cons c s t : String c s +:+ t = String c (s +:+ t).
Proof. reflexivity. Qed.

Lemma prefix_nil s : String.prefix "" s = true.
Proof. now destruct s. Qed.

Lemma prefix_split sub s :
  String.prefix sub s = true -> s = sub +:+ str_drop (String.length sub) s.
Proof.
  revert s. induction sub as [|c sub IH]; intros s H; [now destruct s|].
  destruct s as [|c' s]; [discriminate|]. simpl in H.
  destruct (ascii_dec c c') as [->|]; [|discriminate].
  rewrite app_cons. simpl. f_equal. now apply IH.
Qed.

Lemma find_nil sub : find sub "" = if String.prefix sub "" then Some 0 else None.
Proof. reflexivity. Qed.

Lemma find_split sub s :
  forall i, find sub s = Some i ->
  s = str_take i s +:+ sub +:+ str_drop (i + String.length sub) s.
Proof.
  induction s as [|c s IH]; intros i.
  - rewrite find_nil. destruct (String.prefix sub "") eqn:E; [|discriminate].
    intros [= <-]. now apply prefix_split in E.
  - rewrite find_cons. destruct (String.prefix sub (String c s)) eqn:E.
    + intros [= <-]. now apply prefix_split in E.
    + destruct (find sub s) as [j|]; [|discriminate]. intros [= <-].
      simpl. rewrite app_cons. f_equal. now apply IH.
Qed.

Lemma find_first sub s :
  forall i, find sub s = Some i ->
  forall j, j < i -> String.prefix sub (str_drop j s) = false.
Proof.
  induction s as [|c s IH]; intros i.
  - rewrite find_nil. destruct (String.prefix sub ""); [|discriminate].
    intros [= <-] j Hj. lia.
  - rewrite find_cons. destruct (String.prefix sub (String c s)) eqn:E.
    + intros [= <-] j Hj. lia.
    + destruct (find sub s) as [i'|] eqn:Hfind; [|discriminate]. intros [= <-] [|j] Hj.
      * exact E.
      * simpl. apply (IH i' eq_refl). lia.
Qed.

Lemma find_absent ch s :
  all_chars (fun c => negb (Ascii.eqb c ch)) s = true -> find (String ch "") s = None.
Proof.
  induction s as [|c s IH]; [reflexivity|]. simpl all_chars.
  intros [Hc Hs]%andb_prop. rewrite find_cons. simpl String.prefix.
  destruct (ascii_dec ch c) as [->|_].
  - now rewrite Ascii.eqb_refl in Hc.
  - now rewrite (IH Hs).
Qed.

Lemma find_char_before ch s :
  forall i, find (String ch "") s = Some i ->
  all_chars (fun c => negb (Ascii.eqb c ch)) (str_take i s) = true.
Proof.
  induction s as [|c s IH]; intros i.
  - rewrite find_nil. discriminate.
  - rewrite find_cons. simpl String.prefix.
    destruct (ascii_dec ch c) as [->|Hne].
    + rewrite prefix_nil. now intros [= <-].
    + destruct (find (String ch "") s) as [j|]; [|discriminate]. intros [= <-].
      simpl. rewrite (IH j eq_refl), andb_true_r.
      destruct (Ascii.eqb_spec c ch); [congruence|reflexivity].
Qed.

Lemma find_char_after pre ch rest :
  all_chars (fun c => negb (Ascii.eqb c ch)) pre = true ->
  find (String ch "") (pre +:+ String ch rest) = Some (String.length pre).
Proof.
  induction pre as [|c pre IH].
  - intros _. change ("" +:+ String ch rest) with (String ch rest).
    rewrite find_cons. simpl String.prefix.
    destruct (ascii_dec ch ch); [|congruence]. now rewrite prefix_nil.
  - simpl all_chars. intros [Hc Hpre]%andb_prop.
    rewrite app_cons, find_cons. simpl String.prefix.
    destruct (ascii_dec ch c) as [->|_].
    + now rewrite Ascii.eqb_refl in Hc.
    + now rewrite (IH Hpre).
Qed.

Lemma str_take_app pre rest : str_take (String.length pre) (pre +:+ rest) = pre.
Proof.
  induction pre as [|c pre IH]; [now destruct rest|].
  rewrite app_cons. simpl. now rewrite IH.
Qed.

Lemma str_drop_app pre rest : str_drop (String.length pre) (pre +:+ rest) = rest.
Proof. induction pre as [|c pre IH]; [reflexivity|]. rewrite app_cons. exact IH. Qed.

Lemma contains_absent ch s :
  all_chars (fun c => negb (Ascii.eqb c ch)) s = true -> contains (String ch "") s = false.
Proof. intros H. unfold contains. now rewrite find_absent. Qed.

(** X19.  The request line is kept whole: unless the sentinel triple was
    substituted, method, path and version joined by single spaces are the
    line again, and neither method nor path holds a space. *)
Theorem request_line_is_cut_at_its_first_two_spaces line method path version :
  parse_request_line line = Ok (method, path, version) ->
  (method, path, version) = ("UNKNOWN", "/", "HTTP/1.1")
  \/ (line = method +:+ " " +:+ path +:+ " " +:+ version
      /\ contains " " method = false
      /\ contains " " path = false).
Proof.
  unfold parse_request_line. cbn [splitn].
  destruct (find " " line) as [i|] eqn:Hi; [|intros [= <- <- <-]; now left].
  destruct (find " " (str_drop (i + String.length " ") line)) as [j|] eqn:Hj;
    [|intros [= <- <- <-]; now left].
  cbn [unpack3 res_try]. intros [= <- <- <-]. right.
  pose proof (find_split " " line i Hi) as Hline.
  pose proof (find_split " " _ j Hj) as Hrest.
  change (String.length " ") with 1 in *.
  split; [|split].
  - rewrite <- Hrest. exact Hline.
  - apply contains_absent. now apply find_char_before.
  - apply contains_absent. now apply find_char_before.
Qed.

Lemma request_line_is_cut_at_its_first_two_spaces_witness :
  parse_request_line "POST /messages/?session_id=s1 HTTP/1.1 "
  = Ok ("POST", "/messages/?session_id=s1", "HTTP/1.1 ")
  /\ "POST /messages/?session_id=s1 HTTP/1.1 "
     = "POST" +:+ " " +:+ "/messages/?session_id=s1" +:+ " " +:+ "HTTP/1.1 ".
Proof.
  split; [reflexivity|].
  destruct (request_line_is_cut_at_its_first_two_spaces
              "POST /messages/?session_id=s1 HTTP/1.1 "
              "POST" "/messages/?session_id=s1" "HTTP/1.1 " eq_refl)
    as [Hsentinel|[Hline _]]; [discriminate|exact Hline].
Defined.

(** X20.  The body is the text after the first [CRLF CRLF]: the text is
    what precedes it, the terminator, and the body, and no terminator
    starts earlier; without a terminator the body is empty. *)
Theorem body_is_the_text_after_the_first_blank_line request_text :
  (find CRLF2 request_text = None -> find_body request_text = "")
  /\ (forall i,
        find CRLF2 request_text = Some i ->
        request_text = str_take i request_text +:+ CRLF2 +:+ find_body request_text
        /\ forall j, j < i -> String.prefix CRLF2 (str_drop j request_text) = false).
Proof.
  unfold find_body. split.
  - now intros ->.
  - intros i Hi. rewrite Hi. split.
    + now apply (find_split CRLF2).
    + now apply (find_first CRLF2 request_text).
Qed.

Lemma body_is_the_text_after_the_first_blank_line_witness :
  find_body (Demo.post "/messages/?session_id=s1" ("{}" +:+ CRLF2 +:+ "tail"))
  = "{}" +:+ CRLF2 +:+ "tail"
  /\ find_body "no terminator" = "".
Proof.
  destruct (body_is_the_text_after_the_first_blank_line "no terminator") as [Hnone _].
  split; [reflexivity|]. apply Hnone. reflexivity.
Defined.

(** ** The header block *)

Lemma parse_headers_app before after :
  Forall (fun line => line <> "") before ->
  forall headers,
    parse_headers (before ++ after) headers
    = match parse_headers before headers with
      | Ok parsed => parse_headers after parsed
      | Err e => Err e
      end.
Proof.
  induction 1 as [|line before Hline _ IH]; intros headers; [reflexivity|].
  simpl. destruct (String.eqb_spec line ""); [contradiction|].
  destruct (find ":" line); simpl; apply IH.
Qed.

(** X21.  Header parsing stops at the first empty line, so that nothing
    after it can add a header; and of the lines before it the last one
    with a given name decides the value stored under that name in lower
    case. *)
Theorem headers_end_at_the_blank_line :
  (forall before after headers,
     parse_headers (before ++ "" :: after) headers = parse_headers before headers)
  /\ (forall before line i headers,
        Forall (fun earlier => earlier <> "") before ->
        line <> "" ->
        find ":" line = Some i ->
        exists parsed,
          parse_headers (before ++ [line]) headers = Ok parsed
          /\ parsed !! lower (strip (str_take i line))
             = Some (strip (str_drop (i + 1) line))).
Proof.
  split.
  - intros before after. induction before as [|line before IH]; intros headers;
      [reflexivity|].
    simpl. destruct (String.eqb line ""); [reflexivity|].
    destruct (find ":" line); simpl; apply IH.
  - intros before line i headers Hbefore Hline Hcolon.
    rewrite (parse_headers_app before [line] Hbefore).
    destruct (parse_headers_total before headers) as [parsed ->].
    rewrite (parse_headers_colon line [] parsed i Hline Hcolon).
    eexists. split; [reflexivity|]. apply lookup_insert_eq.
Qed.

Lemma headers_end_at_the_blank_line_witness :
  parse_headers ["Host: a"; ""; "Content-Type: application/json"] ∅
  = parse_headers ["Host: a"] ∅
  /\ exists parsed,
       parse_headers ["content-type: text/plain"; "Content-Type: application/json"] ∅
       = Ok parsed
       /\ parsed !! "content-type" = Some "application/json".
Proof.
  destruct headers_end_at_the_blank_line as [Hblank Hlast]. split.
  - apply (Hblank ["Host: a"] ["Content-Type: application/json"] ∅).
  - apply (Hlast ["content-type: text/plain"] "Content-Type: application/json" 12 ∅).
    + repeat constructor; discriminate.
    + discriminate.
    + reflexivity.
Defined.

(** ** The log line *)

Lemma all_chars_replace_char_by (p q : ascii -> bool) old new s :
  all_chars p new = true ->
  (forall c, Ascii.eqb c old = false -> q c = true -> p c = true) ->
  all_chars q s = true ->
  all_chars p (replace_char_by old new s) = true.
Proof.
  intros Hnew Hkeep. induction s as [|c s IH]; [reflexivity|].
  simpl. intros [Hc Hs]%andb_prop. rewrite all_chars_app, (IH Hs), andb_true_r.
  destruct (Ascii.eqb c old) eqn:E; [exact Hnew|].
  simpl. now rewrite (Hkeep c E Hc).
Qed.

Lemma replace_char_by_absent old new s :
  all_chars (fun c => negb (Ascii.eqb c old)) s = true -> replace_char_by old new s = s.
Proof.
  induction s as [|c s IH]; [reflexivity|].
  simpl. intros [Hc Hs]%andb_prop. rewrite (IH Hs).
  apply negb_true_iff in Hc. now rewrite Hc.
Qed.

Lemma all_chars_true s : all_chars (fun _ => true) s = true.
Proof. induction s as [|c s IH]; [reflexivity|exact IH]. Qed.

Lemma formatted_data_single_line rt data formatted :
  formatted_data rt data = Ok formatted -> single_line formatted.
Proof.
  unfold formatted_data. intros (text & _ & H)%res_bind_Ok. inversion H.
  unfold single_line.
  apply (all_chars_replace_char_by _ (fun c => negb (Ascii.eqb c LF))).
  - reflexivity.
  - intros c Hc Hlf. now rewrite Hc, Hlf.
  - apply (all_chars_replace_char_by _ (fun _ => true)).
    + reflexivity.
    + intros c Hc _. now rewrite Hc.
    + apply all_chars_true.
Qed.

Lemma printable_str_int rt n text :
  Py.str rt (PInt n) = Ok text -> all_chars printable text = true.
Proof. apply printable_int_repr. Qed.

(** X22.  The data part of a log line never holds a line break, since
    carriage returns and line feeds are spelled out; a text without line
    breaks is logged as it is; with a one-line stamp and commentary the
    whole log line is one line; and the line is there whenever [str()] of
    the data and of the two numbers returns. *)
Theorem log_line_is_one_line rt stamp pid tid commentary data :
  (forall formatted, formatted_data rt data = Ok formatted -> single_line formatted)
  /\ (forall text,
        Py.str rt data = Ok text ->
        exists formatted,
          formatted_data rt data = Ok formatted
          /\ (single_line text -> formatted = text))
  /\ (forall line,
        single_line stamp -> single_line commentary ->
        log_line rt stamp pid tid commentary data = Ok line -> single_line line)
  /\ (forall text pid_text tid_text,
        Py.str rt data = Ok text ->
        Py.str rt (PInt pid) = Ok pid_text ->
        Py.str rt (PInt tid) = Ok tid_text ->
        exists line, log_line rt stamp pid tid commentary data = Ok line).
Proof.
  split; [apply formatted_data_single_line|]. split; [|split].
  - intros text Hstr. unfold formatted_data. rewrite Hstr. simpl.
    eexists. split; [reflexivity|].
    unfold single_line. intros Hline.
    rewrite (replace_char_by_absent LF).
    + apply replace_char_by_absent. revert Hline. apply all_chars_impl.
      intros c [Hcr _]%andb_prop. exact Hcr.
    + revert Hline. apply all_chars_impl. intros c [_ Hlf]%andb_prop. exact Hlf.
  - intros line Hstamp Hcommentary. unfold log_line. cbv zeta.
    intros (formatted & Hformatted & H)%res_bind_Ok.
    apply res_bind_Ok in H as (pid_text & Hpid & H).
    apply res_bind_Ok in H as (tid_text & Htid & H).
    inversion H. unfold single_line in *.
    rewrite !all_chars_app.
    rewrite (all_chars_take _ _ _ Hstamp), Hcommentary.
    rewrite (printable_single_line _ (printable_str_int rt pid pid_text Hpid)).
    rewrite (printable_single_line _ (printable_str_int rt tid tid_text Htid)).
    rewrite (formatted_data_single_line rt data formatted Hformatted). reflexivity.
  - intros text pid_text tid_text Hstr Hpid Htid.
    unfold log_line, formatted_data. rewrite Hstr. simpl.
    simpl in Hpid, Htid. rewrite Hpid. simpl. rewrite Htid. simpl. eauto.
Qed.

Lemma log_line_is_one_line_witness :
  log_line Demo.rt "2026-01-01 00:00:00.123456" 41 7 "Request <"
    (PStr ("GET / HTTP/1.1" +:+ CRLF2))
  = Ok "2026-01-01 00:00:00.123 [PID:41|TID:7] Request < GET / HTTP/1.1\r\n\r\n"
  /\ single_line
       "2026-01-01 00:00:00.123 [PID:41|TID:7] Request < GET / HTTP/1.1\r\n\r\n".
Proof.
  split; [reflexivity|].
  destruct (log_line_is_one_line Demo.rt "2026-01-01 00:00:00.123456" 41 7
              "Request <" (PStr ("GET / HTTP/1.1" +:+ CRLF2)))
    as (_ & _ & Hline & _).
  exact (Hline _ eq_refl eq_refl eq_refl).
Defined.

(** ** The announced endpoint *)

Lemma hex_digit_is_plain c :
  is_hex_digit c = true ->
  negb (Ascii.eqb c "&") = true /\ negb (Ascii.eqb c "=") = true
  /\ negb (Ascii.eqb c "+") = true /\ negb (Ascii.eqb c "%") = true.
Proof.
  destruct c as [[] [] [] [] [] [] [] []]; intros H; try discriminate H;
    repeat split.
Qed.

Lemma hex_text_has_no ch token :
  ch = "&"%char \/ ch = "="%char \/ ch = "+"%char \/ ch = "%"%char ->
  all_chars is_hex_digit token = true ->
  all_chars (fun c => negb (Ascii.eqb c ch)) token = true.
Proof.
  intros Hch. apply all_chars_impl. intros c Hc.
  destruct (hex_digit_is_plain c Hc) as (H1 & H2 & H3 & H4).
  destruct Hch as [->|[->|[->| ->]]]; assumption.
Qed.

Lemma replace_char_absent old new s :
  all_chars (fun c => negb (Ascii.eqb c old)) s = true -> replace_char old new s = s.
Proof.
  induction s as [|c s IH]; [reflexivity|].
  simpl. intros [Hc Hs]%andb_prop. rewrite (IH Hs).
  apply negb_true_iff in Hc. now rewrite Hc.
Qed.

Lemma splitn_absent ch n s :
  all_chars (fun c => negb (Ascii.eqb c ch)) s = true -> splitn (String ch "") n s = [s].
Proof. intros H. destruct n; simpl; [reflexivity|]. now rewrite find_absent. Qed.

Lemma parse_qs_session_id unquote_escaped token :
  token <> "" ->
  all_chars is_hex_digit token = true ->
  parse_qs unquote_escaped ("session_id=" +:+ token) = [("session_id", [token])].
Proof.
  intros Hnonempty Hhex.
  assert (Hamp : all_chars (fun c => negb (Ascii.eqb c "&")) ("session_id=" +:+ token) = true).
  { rewrite all_chars_app. rewrite (hex_text_has_no "&" token); auto. }
  unfold parse_qs, parse_qsl.
  replace (String.eqb ("session_id=" +:+ token) "") with false by reflexivity.
  unfold split. rewrite (splitn_absent "&" _ _ Hamp).
  cbn [parse_fields splitn].
  change ("session_id=" +:+ token) with ("session_id" +:+ String "=" token).
  rewrite (find_char_after "session_id" "=" token eq_refl).
  rewrite str_take_app.
  change (String.length "session_id" + String.length "=")
    with (String.length ("session_id" +:+ "=")).
  change ("session_id" +:+ String "=" token) with (("session_id" +:+ "=") +:+ token).
  rewrite str_drop_app.
  replace (0 <? String.length token) with true by (now destruct token).
  rewrite (replace_char_absent "+" " " token) by (apply hex_text_has_no; auto).
  unfold unquote.
  rewrite (contains_absent "%" token) by (apply hex_text_has_no; auto).
  reflexivity.
Qed.

(** X16.  The endpoint announced by [_handle_sse_request] is accepted: for a
    non-empty hexadecimal id, a POST to the announced path on another
    connection is routed to the new session and answered with [202]. *)
Theorem announced_endpoint_is_accepted
    (rt : runtime) uuid4 fd address fd' address' headers body w s s' :
  uuid4 <> "" ->
  all_chars is_hex_digit uuid4 = true ->
  sockets w !! fd = Some s -> connected s = true ->
  fd' <> fd ->
  sockets w !! fd' = Some s' -> connected s' = true ->
  exists w1 w2,
    _handle_sse_request uuid4 fd address w = Returns tt w1
    /\ sockets w1 !! fd
       = Some (Socket true
                 (sent s ++ [encode sse_response_headers;
                             encode ("event: endpoint" +:+ CRLF
                                     +:+ "data: " +:+ ("/messages/?session_id=" +:+ uuid4)
                                     +:+ CRLF +:+ CRLF)]))
    /\ (if bool_decide (headers !! "content-type" = Some "application/json")
        then _handle_jsonrpc_request rt uuid4 body w1 = Returns tt w2
        else w2 = w1)
    /\ _handle_messages_request rt fd' address' ("/messages/?session_id=" +:+ uuid4)
         headers body w1
       = Returns tt (responded fd' s' response_202 w2).
Proof.
  intros Hnonempty Hhex Hs Hc Hfd Hs' Hc'.
  pose proof (_handle_sse_request_connected uuid4 fd address w s Hs Hc) as Hopen.
  cbv zeta in Hopen.
  set (self := fresh (dom (objects w))) in *.
  set (w1 := set_sockets _ _) in Hopen.
  assert (Hself : active_sessions w1 !! uuid4 = Some self) by apply lookup_insert_eq.
  assert (Ho : objects w1 !! self = Some (Session uuid4 fd address true))
    by apply lookup_insert_eq.
  assert (Hs1 : sockets w1 !! fd' = Some s').
  { subst w1. simpl. now rewrite lookup_insert_ne by congruence. }
  assert (Hfind : find "?" ("/messages/?session_id=" +:+ uuid4) = Some 10).
  { change ("/messages/?session_id=" +:+ uuid4)
      with ("/messages/" +:+ String "?" ("session_id=" +:+ uuid4)).
    now rewrite (find_char_after "/messages/" "?" _ eq_refl). }
  assert (Hids : default [] (dict_get "session_id"
                   (parse_qs (unquote_escaped rt)
                      (str_drop (10 + 1) ("/messages/?session_id=" +:+ uuid4))))
                 = [uuid4]).
  { change (str_drop (10 + 1) ("/messages/?session_id=" +:+ uuid4))
      with ("session_id=" +:+ uuid4).
    now rewrite parse_qs_session_id. }
  destruct (dispatcher_keeps_other_sockets rt uuid4 body w1 self
              (Session uuid4 fd address true) fd' Hself Ho Hfd)
    as (w2 & Hrun & Hsockets).
  exists w1. destruct (bool_decide (headers !! "content-type" = Some "application/json"))
    eqn:Hjson.
  - exists w2. split; [exact Hopen|]. split; [apply lookup_insert_eq|].
    split; [exact Hrun|].
    apply (messages_accepted rt fd' address' _ headers body w1 w2 s' 10 uuid4 []
             Hfind Hids);
      [rewrite Hself; eauto|now rewrite Hjson|now rewrite Hsockets|exact Hc'].
  - exists w1. split; [exact Hopen|]. split; [apply lookup_insert_eq|].
    split; [reflexivity|].
    apply (messages_accepted rt fd' address' _ headers body w1 w1 s' 10 uuid4 []
             Hfind Hids);
      [rewrite Hself; eauto|now rewrite Hjson|exact Hs1|exact Hc'].
Qed.

Lemma announced_endpoint_is_accepted_witness :
  exists w1 w2,
    _handle_sse_request "0123abcd" 7 "peer" Demo.w = Returns tt w1
    /\ _handle_jsonrpc_request Demo.rt "0123abcd" (Demo.text_of Demo.list_6) w1
       = Returns tt w2
    /\ _handle_messages_request Demo.rt 9 "peer" "/messages/?session_id=0123abcd"
         {[ "content-type" := "application/json" ]} (Demo.text_of Demo.list_6) w1
       = Returns tt (responded 9 Demo.s9 response_202 w2).
Proof.
  destruct (announced_endpoint_is_accepted Demo.rt "0123abcd" 7 "peer" 9 "peer"
              {[ "content-type" := "application/json" ]} (Demo.text_of Demo.list_6)
              Demo.w Demo.s7 Demo.s9
              ltac:(discriminate) eq_refl eq_refl eq_refl ltac:(discriminate)
              eq_refl eq_refl)
    as (w1 & w2 & Hopen & _ & Hdispatch & Hpost).
  exists w1, w2. split; [exact Hopen|]. split; [exact Hdispatch|exact Hpost].
Defined.
